(** * The workflow orchestrator of the agentic onboarding platform

    A shallow embedding of [src/orchestration/orchestrator.py]: the class
    [AgenticOrchestrator], its stored-procedure wrapper, and the Snowpark
    session it talks to.  Python code that mutates the instance and the
    database, and that may raise, becomes a function in a state-and-exception
    monad; the session is an oracle that decides, statement by statement,
    whether the statement raises and what its first cell is.

    The last part of the definitions embeds the rule-based half of the
    profiling agent behind the PROFILING step,
    [src/agents/agent_01_profiling.py]: its statistics, its quality rules
    and its detection of sensitive columns. *)

From Stdlib Require Import List String ZArith Lia Bool Arith.
From Stdlib Require Import DecimalString QArith Qpower Qround.
Close Scope Q_scope.
Import ListNotations.
Open Scope string_scope.
#[local] Set Warnings "-register-all".

(** ** Python values *)

(** The values that flow through the orchestrator: agent results are JSON
    documents, parameters are strings and integers.  A number is carried as
    an integer; a duration is its number of microseconds. *)
Inductive Value : Type :=
| VNone
| VBool (b : bool)
| VNum (z : Z)
| VStr (s : string)
| VList (l : list Value)
| VDict (d : list (string * Value)).

(** A dict is an association list in insertion order. *)
Definition Dict := list (string * Value).

Fixpoint dict_lookup (d : Dict) (k : string) : option Value :=
  match d with
  | [] => None
  | (k', v) :: d' => if String.eqb k' k then Some v else dict_lookup d' k
  end.

(** [d[k] = v]: replaces the binding in place, or appends a new one. *)
Fixpoint dict_set (d : Dict) (k : string) (v : Value) : Dict :=
  match d with
  | [] => [(k, v)]
  | (k', v') :: d' =>
      if String.eqb k' k then (k, v) :: d' else (k', v') :: dict_set d' k v
  end.

(** [d.get(k, default)] on a dict. *)
Definition dict_get (d : Dict) (k : string) (default : Value) : Value :=
  match dict_lookup d k with
  | Some v => v
  | None => default
  end.

(** Equality of two values, which is what the SQL comparison of a column
    with the interpolated text of the value it was written from comes to. *)
Definition list_eqb {A} (eqb : A -> A -> bool) : list A -> list A -> bool :=
  fix go (l1 l2 : list A) : bool :=
    match l1, l2 with
    | [], [] => true
    | x :: l1', y :: l2' => eqb x y && go l1' l2'
    | _, _ => false
    end.

Fixpoint value_eqb (a b : Value) : bool :=
  match a, b with
  | VNone, VNone => true
  | VBool x, VBool y => Bool.eqb x y
  | VNum x, VNum y => Z.eqb x y
  | VStr x, VStr y => String.eqb x y
  | VList l1, VList l2 => list_eqb value_eqb l1 l2
  | VDict d1, VDict d2 =>
      list_eqb (fun p q =>
                  match p, q with
                  | (k1, v1), (k2, v2) => String.eqb k1 k2 && value_eqb v1 v2
                  end) d1 d2
  | _, _ => false
  end.

Definition id_value (n : nat) : Value := VNum (Z.of_nat n).

Definition id_matches (v : Value) (n : nat) : bool := value_eqb v (id_value n).

(** [type(v).__name__], as it appears in the text of an AttributeError or a
    TypeError.  A number is carried without its Python type, and is named
    'float' here also where Python holds an 'int': for a bare number only
    the text of such an error depends on it, not whether it is raised. *)
Definition type_name (v : Value) : string :=
  match v with
  | VNone => "NoneType"
  | VBool _ => "bool"
  | VNum _ => "float"
  | VStr _ => "str"
  | VList _ => "list"
  | VDict _ => "dict"
  end.

Definition nat_to_string (n : nat) : string :=
  NilEmpty.string_of_uint (Nat.to_uint n).

(** ** Exceptions and the monad *)

Inductive ExnClass : Type :=
| PlainException
| ValueError
| TypeError
| AttributeError
| IndexError
| KeyError
| NotImplementedError
| SnowparkSQLException.

(** [str(e)] is [exn_msg e]. *)
Record Exn : Type := mkExn { exn_class : ExnClass; exn_msg : string }.

Inductive Res (A : Type) : Type :=
| Ok (a : A)
| Raise (e : Exn).
Arguments Ok {A} a.
Arguments Raise {A} e.

(** ** The statements the orchestrator sends to the session

    Each constructor is one of the SQL texts the source builds by
    interpolation; its arguments are the interpolated values. *)
Inductive Stmt : Type :=
| InsertWorkflow (workflow_type stage_path target_schema : string)
| SelectInitiatedWorkflowId
| UpdateWorkflowInProgress (workflow_id : Value)
| SelectUuidString
| InsertAgentLog (workflow_id : Value) (agent_name : string) (input_params : string)
| SelectExecutionId (workflow_id : Value) (agent_name : string)
| UpdateAgentLogCompleted (execution_id : Value) (duration : Z) (output_result : string)
| UpdateAgentLogFailed (execution_id : Value) (duration : Z) (error_message : string)
| InsertAgentMetrics (agent_name : string) (execution_id : Value) (duration : Z)
    (success_flag : Z) (outcome : string)
| UpdateWorkflowCompleted (workflow_id : Value) (duration : Value) (agent_sequence : list string)
| UpdateWorkflowFailed (workflow_id : Value) (error_message : string)
| CallProcedure (procedure_name : string) (param_values : list string)
| AiComplete (profiling_summary dictionary_summary mapping_summary : Value) (total_duration : Value).

(** What the session does with a statement: it raises, or it returns rows,
    of which the orchestrator only ever reads the first cell of the first row
    ([None]: no row came back). *)
Inductive Reply : Type :=
| Raises (msg : string)
| Rows (cell : option Value).

(** The world outside the orchestrator.  [respond n s] is the session's
    behaviour on statement [s] when it is the [n]-th statement it receives;
    for a statement on one of the three tables only the choice between
    [Raises] and [Rows] matters, the rows come from the table.  [elapse] is
    the time the statement takes.  The last three fields are the [json]
    module and [str()] on a value that is not a string. *)
Record Env : Type := mkEnv {
  respond : nat -> Stmt -> Reply;
  elapse : nat -> Stmt -> Z;
  json_loads : string -> option Value;
  json_dumps : Value -> string;
  py_repr : Value -> string
}.

(** ** Persisted state *)

Inductive WorkflowStatus : Type := INITIATED | IN_PROGRESS | COMPLETED | FAILED.

Inductive LogStatus : Type := RUNNING | LOG_COMPLETED | LOG_FAILED.

(** A row of WORKFLOW_EXECUTIONS. *)
Record WorkflowRow : Type := mkWorkflowRow {
  wf_id : nat;
  wf_type : string;
  wf_source : string;
  wf_target : string;
  wf_status : WorkflowStatus;
  wf_start : Z;
  wf_end : option Z;
  wf_duration : option Value;
  wf_agent_sequence : option (list string);
  wf_error : option string
}.

(** A row of AGENT_EXECUTION_LOG. *)
Record LogRow : Type := mkLogRow {
  ex_id : nat;
  ex_workflow : Value;
  ex_agent : string;
  ex_status : LogStatus;
  ex_input : string;
  ex_output : option string;
  ex_start : Z;
  ex_end : option Z;
  ex_duration : option Z;
  ex_error : option string
}.

(** A row of AGENT_METRICS. *)
Record MetricRow : Type := mkMetricRow {
  m_agent : string;
  m_execution : Value;
  m_type : string;
  m_value : Z;
  m_outcome : string
}.

(** The database behind the session, the clock, the statements issued so far
    (oldest first, each with whether it went through), and the two instance
    fields of the orchestrator object.  Tables keep their newest row first;
    START_TIME is taken to grow with insertion, so [ORDER BY START_TIME DESC
    LIMIT 1] is the first matching row. *)
Record State : Type := mkState {
  workflow_executions : list WorkflowRow;
  agent_execution_log : list LogRow;
  agent_metrics : list MetricRow;
  next_id : nat;
  now : Z;
  trace : list (Stmt * bool);
  workflow_id : Value;
  agent_sequence : list string
}.

Definition M (A : Type) : Type := State -> Res A * State.

Definition ret {A} (a : A) : M A := fun st => (Ok a, st).

Definition raise {A} (c : ExnClass) (msg : string) : M A :=
  fun st => (Raise (mkExn c msg), st).

Definition reraise {A} (e : Exn) : M A := fun st => (Raise e, st).

Definition bind {A B} (m : M A) (f : A -> M B) : M B :=
  fun st =>
    match m st with
    | (Ok a, st') => f a st'
    | (Raise e, st') => (Raise e, st')
    end.

(** [try: m  except Exception as e: h e]; every class of [ExnClass] derives
    from [Exception], so a bare [except:] is the same handler. *)
Definition try_except {A} (m : M A) (h : Exn -> M A) : M A :=
  fun st =>
    match m st with
    | (Ok a, st') => (Ok a, st')
    | (Raise e, st') => h e st'
    end.

Declare Scope orch_scope.
Delimit Scope orch_scope with orch.
Notation "x <- m ;; k" := (bind m (fun x => k))
  (at level 61, m at next level, right associativity) : orch_scope.
Notation "m ;;; k" := (bind m (fun _ => k))
  (at level 61, right associativity) : orch_scope.
Open Scope orch_scope.

Definition get_state : M State := fun st => (Ok st, st).

Definition datetime_now : M Z := fun st => (Ok (now st), st).

(** ** The session *)

Definition is_initiated (r : WorkflowRow) : bool :=
  match wf_status r with INITIATED => true | _ => false end.

Definition set_wf_status (s : WorkflowStatus) (r : WorkflowRow) : WorkflowRow :=
  mkWorkflowRow (wf_id r) (wf_type r) (wf_source r) (wf_target r) s
    (wf_start r) (wf_end r) (wf_duration r) (wf_agent_sequence r) (wf_error r).

Definition wf_complete (t : Z) (d : Value) (sq : list string) (r : WorkflowRow) : WorkflowRow :=
  mkWorkflowRow (wf_id r) (wf_type r) (wf_source r) (wf_target r) COMPLETED
    (wf_start r) (Some t) (Some d) (Some sq) (wf_error r).

Definition wf_fail (t : Z) (msg : string) (r : WorkflowRow) : WorkflowRow :=
  mkWorkflowRow (wf_id r) (wf_type r) (wf_source r) (wf_target r) FAILED
    (wf_start r) (Some t) (wf_duration r) (wf_agent_sequence r) (Some msg).

Definition ex_complete (t d : Z) (out : string) (r : LogRow) : LogRow :=
  mkLogRow (ex_id r) (ex_workflow r) (ex_agent r) LOG_COMPLETED (ex_input r)
    (Some out) (ex_start r) (Some t) (Some d) (ex_error r).

Definition ex_fail (t d : Z) (msg : string) (r : LogRow) : LogRow :=
  mkLogRow (ex_id r) (ex_workflow r) (ex_agent r) LOG_FAILED (ex_input r)
    (ex_output r) (ex_start r) (Some t) (Some d) (Some msg).

(** [UPDATE ... WHERE id = v]: every row whose key matches is rewritten. *)
Definition update_where {R} (key : R -> nat) (v : Value) (f : R -> R) (rows : list R) : list R :=
  map (fun r => if id_matches v (key r) then f r else r) rows.

Definition with_workflows (rows : list WorkflowRow) (st : State) : State :=
  mkState rows (agent_execution_log st) (agent_metrics st) (next_id st) (now st)
    (trace st) (workflow_id st) (agent_sequence st).

Definition with_log (rows : list LogRow) (st : State) : State :=
  mkState (workflow_executions st) rows (agent_metrics st) (next_id st) (now st)
    (trace st) (workflow_id st) (agent_sequence st).

Definition with_metrics (rows : list MetricRow) (st : State) : State :=
  mkState (workflow_executions st) (agent_execution_log st) rows (next_id st) (now st)
    (trace st) (workflow_id st) (agent_sequence st).

Definition with_next_id (n : nat) (st : State) : State :=
  mkState (workflow_executions st) (agent_execution_log st) (agent_metrics st) n (now st)
    (trace st) (workflow_id st) (agent_sequence st).

Definition with_workflow_id (v : Value) (st : State) : State :=
  mkState (workflow_executions st) (agent_execution_log st) (agent_metrics st) (next_id st)
    (now st) (trace st) v (agent_sequence st).

Definition with_agent_sequence (l : list string) (st : State) : State :=
  mkState (workflow_executions st) (agent_execution_log st) (agent_metrics st) (next_id st)
    (now st) (trace st) (workflow_id st) l.

(** The clock moves by the time the statement took and the statement joins
    the trace. *)
Definition issued (env : Env) (s : Stmt) (ok : bool) (st : State) : State :=
  mkState (workflow_executions st) (agent_execution_log st) (agent_metrics st) (next_id st)
    (now st + elapse env (List.length (trace st)) s)%Z
    (trace st ++ [(s, ok)]) (workflow_id st) (agent_sequence st).

(** What a statement that goes through does to the tables, and the first
    cell it returns.  [cell] is the session's own answer, read only by the
    statements that are not about the three tables. *)
Definition table_effect (s : Stmt) (cell : option Value) (st : State) : option Value * State :=
  match s with
  | InsertWorkflow wt sp ts =>
      (None,
       with_next_id (S (next_id st))
         (with_workflows
            (mkWorkflowRow (next_id st) wt sp ts INITIATED (now st) None None None None
               :: workflow_executions st) st))
  | SelectInitiatedWorkflowId =>
      (option_map (fun r => id_value (wf_id r)) (find is_initiated (workflow_executions st)), st)
  | UpdateWorkflowInProgress wid =>
      (None, with_workflows (update_where wf_id wid (set_wf_status IN_PROGRESS) (workflow_executions st)) st)
  | SelectUuidString => (cell, st)
  | InsertAgentLog wid agent input =>
      (None,
       with_next_id (S (next_id st))
         (with_log
            (mkLogRow (next_id st) wid agent RUNNING input None (now st) None None None
               :: agent_execution_log st) st))
  | SelectExecutionId wid agent =>
      (option_map (fun r => id_value (ex_id r))
         (find (fun r => value_eqb (ex_workflow r) wid && String.eqb (ex_agent r) agent)
            (agent_execution_log st)), st)
  | UpdateAgentLogCompleted eid d out =>
      (None, with_log (update_where ex_id eid (ex_complete (now st) d out) (agent_execution_log st)) st)
  | UpdateAgentLogFailed eid d msg =>
      (None, with_log (update_where ex_id eid (ex_fail (now st) d msg) (agent_execution_log st)) st)
  | InsertAgentMetrics agent eid d flag outcome =>
      (None,
       with_metrics
         (mkMetricRow agent eid "SUCCESS_RATE" flag outcome
            :: mkMetricRow agent eid "EXECUTION_TIME" d outcome :: agent_metrics st) st)
  | UpdateWorkflowCompleted wid d sq =>
      (None, with_workflows (update_where wf_id wid (wf_complete (now st) d sq) (workflow_executions st)) st)
  | UpdateWorkflowFailed wid msg =>
      (None, with_workflows (update_where wf_id wid (wf_fail (now st) msg) (workflow_executions st)) st)
  | CallProcedure _ _ => (cell, st)
  | AiComplete _ _ _ _ => (cell, st)
  end.

(** [self.session.sql(s).collect()]: a statement that raises leaves the
    tables as they were. *)
Definition session_sql (env : Env) (s : Stmt) : M (option Value) :=
  fun st =>
    match respond env (List.length (trace st)) s with
    | Raises msg => (Raise (mkExn SnowparkSQLException msg), issued env s false st)
    | Rows cell =>
        let (c, st') := table_effect s cell st in
        (Ok c, issued env s true st')
    end.

(** [rows[0][0]] *)
Definition first_cell (rows : option Value) : M Value :=
  match rows with
  | Some c => ret c
  | None => raise IndexError "list index out of range"
  end.

(** ** Python operations the orchestrator relies on *)

(** [v.get(k, default)]: only a dict has the method. *)
Definition py_get (v : Value) (k : string) (default : Value) : M Value :=
  match v with
  | VDict d => ret (dict_get d k default)
  | _ => raise AttributeError ("'" ++ type_name v ++ "' object has no attribute 'get'")
  end.

(** [d[k]] on a dict built by the code itself. *)
Definition py_item (d : Dict) (k : string) : M Value :=
  match dict_lookup d k with
  | Some v => ret v
  | None => raise KeyError ("'" ++ k ++ "'")
  end.

(** [f"{v:.2f}"] inside a [print]: the text goes to the console, but the
    format code is only defined for numbers. *)
Definition format_2f (v : Value) : M unit :=
  match v with
  | VNum _ | VBool _ => ret tt
  | VStr _ => raise ValueError "Unknown format code 'f' for object of type 'str'"
  | _ => raise TypeError ("unsupported format string passed to " ++ type_name v ++ ".__format__")
  end.

(** [len(v)] *)
Definition py_len (v : Value) : M nat :=
  match v with
  | VList l => ret (List.length l)
  | VDict d => ret (List.length d)
  | VStr s => ret (String.length s)
  | _ => raise TypeError ("object of type '" ++ type_name v ++ "' has no len()")
  end.

(** [str(v)], as an f-string interpolates it. *)
Definition py_str (env : Env) (v : Value) : string :=
  match v with
  | VStr s => s
  | VNone => "None"
  | _ => py_repr env v
  end.

(** [v == 'FAILED'] *)
Definition is_failed (v : Value) : bool :=
  match v with
  | VStr s => String.eqb s "FAILED"
  | _ => false
  end.

(** [d[k].append(v)] for a list-valued entry the code created itself. *)
Definition dict_append (d : Dict) (k : string) (v : Value) : Dict :=
  match dict_lookup d k with
  | Some (VList l) => dict_set d k (VList (l ++ [v]))
  | _ => d
  end.

(** ** class AgenticOrchestrator *)

Definition __init__ : M unit :=
  fun st => (Ok tt, with_agent_sequence [] (with_workflow_id VNone st)).

(** [self.agent_sequence.append(name)] *)
Definition agent_sequence_append (name : string) : M unit :=
  fun st => (Ok tt, with_agent_sequence (agent_sequence st ++ [name]) st).

Definition self_workflow_id : M Value := fun st => (Ok (workflow_id st), st).

Definition self_agent_sequence : M (list string) := fun st => (Ok (agent_sequence st), st).

Definition set_self_workflow_id (v : Value) : M unit :=
  fun st => (Ok tt, with_workflow_id v st).

Definition _initialize_workflow (env : Env) (workflow_type stage_path target_schema : string)
  : M Dict :=
  session_sql env (InsertWorkflow workflow_type stage_path target_schema) ;;;
  rows <- session_sql env SelectInitiatedWorkflowId ;;
  wid <- first_cell rows ;;
  session_sql env (UpdateWorkflowInProgress wid) ;;;
  ret [("workflow_id", wid); ("status", VStr "IN_PROGRESS")].

(** One entry of [param_values] in [_call_agent_procedure]. *)
Definition param_value (env : Env) (v : Value) : string :=
  match v with
  | VStr s => "'" ++ s ++ "'"
  | VNum _ | VBool _ => py_str env v
  | _ => "'" ++ json_dumps env v ++ "'"
  end.

Definition _call_agent_procedure (env : Env) (procedure_name : string) (parameters : Dict)
  : M Value :=
  let param_values := map (fun kv => param_value env (snd kv)) parameters in
  result <- session_sql env (CallProcedure procedure_name param_values) ;;
  match result with
  | Some c => ret c
  | None => ret (VDict [])
  end.

Definition _record_agent_metrics (env : Env) (agent_name : string) (execution_id : Value)
  (duration : Z) (outcome : string) : M unit :=
  try_except
    (session_sql env
       (InsertAgentMetrics agent_name execution_id duration
          (if String.eqb outcome "SUCCESS" then 1 else 0)%Z outcome) ;;;
     ret tt)
    (fun _ => ret tt).

(** [json.loads] applied to a string result; any failure keeps the string. *)
Definition parse_result (env : Env) (result : Value) : Value :=
  match result with
  | VStr s => match json_loads env s with Some v => v | None => result end
  | _ => result
  end.

Definition _execute_agent (env : Env) (agent_name agent_function : string) (parameters : Dict)
  : M Value :=
  start_time <- datetime_now ;;
  uuid_rows <- session_sql env SelectUuidString ;;
  _ <- first_cell uuid_rows ;;
  wid <- self_workflow_id ;;
  session_sql env (InsertAgentLog wid agent_name (json_dumps env (VDict parameters))) ;;;
  id_rows <- session_sql env (SelectExecutionId wid agent_name) ;;
  execution_id <- first_cell id_rows ;;
  try_except
    (raw <- _call_agent_procedure env agent_function parameters ;;
     let result := parse_result env raw in
     end_time <- datetime_now ;;
     let duration := (end_time - start_time)%Z in
     session_sql env (UpdateAgentLogCompleted execution_id duration (json_dumps env result)) ;;;
     _record_agent_metrics env agent_name execution_id duration "SUCCESS" ;;;
     ret result)
    (fun e =>
     end_time <- datetime_now ;;
     let duration := (end_time - start_time)%Z in
     session_sql env (UpdateAgentLogFailed execution_id duration (exn_msg e)) ;;;
     _record_agent_metrics env agent_name execution_id duration "FAILURE" ;;;
     ret (VDict [("status", VStr "FAILED");
                 ("error", VStr (exn_msg e));
                 ("execution_time_seconds", VNum duration)])).

(** The guard and the [print] that follow each of the three steps of
    [_execute_full_onboarding]:
    [if r.get('status') == 'FAILED': raise Exception(f"<label> agent failed: {r.get('error')}")]
    then [print(f"... {r.get('execution_time_seconds', 0):.2f}s")]. *)
Definition check_agent_result (env : Env) (label : string) (result : Value) : M unit :=
  status <- py_get result "status" VNone ;;
  (if is_failed status
   then err <- py_get result "error" VNone ;;
        raise PlainException (label ++ " agent failed: " ++ py_str env err)
   else ret tt) ;;;
  t <- py_get result "execution_time_seconds" (VNum 0) ;;
  format_2f t.

Definition _generate_workflow_summary (env : Env) (results : Dict) : M Value :=
  profiling_summary <- py_get (dict_get results "profiling" (VDict [])) "profiling_summary" (VStr "") ;;
  dictionary_summary <- py_get (dict_get results "dictionary" (VDict [])) "proposal_summary" (VStr "") ;;
  mapping_summary <- py_get (dict_get results "mapping" (VDict [])) "mapping_summary" (VStr "") ;;
  let total := dict_get results "total_duration_seconds" (VNum 0) in
  format_2f total ;;;
  try_except
    (rows <- session_sql env (AiComplete profiling_summary dictionary_summary mapping_summary total) ;;
     first_cell rows)
    (fun _ =>
     n <- py_len (dict_get results "agents_executed" (VList [])) ;;
     ret (VStr ("Workflow completed with " ++ nat_to_string n ++ " agents executed."))).

Definition _execute_full_onboarding (env : Env) (stage_path target_schema : string)
  (target_table : option string) : M Dict :=
  start_time <- datetime_now ;;
  wid <- self_workflow_id ;;
  let workflow_results := [("workflow_id", wid); ("agents_executed", VList [])] in
  (* Agent 1: Data Profiling *)
  profiling_result <-
    _execute_agent env "PROFILING" "SP_AGENT_PROFILE"
      [("stage_path", VStr stage_path);
       ("sample_size", VNum 10000);
       ("file_format", VStr "CSV_FORMAT")] ;;
  let workflow_results := dict_set workflow_results "profiling" profiling_result in
  let workflow_results := dict_append workflow_results "agents_executed" (VStr "PROFILING") in
  agent_sequence_append "PROFILING" ;;;
  check_agent_result env "Profiling" profiling_result ;;;
  (* Agent 2: Data Dictionary *)
  dictionary_result <-
    _execute_agent env "DICTIONARY" "SP_AGENT_DICTIONARY"
      [("profiling_results_json", VStr (json_dumps env profiling_result));
       ("target_database", VStr "AGENTIC_PLATFORM_DEV");
       ("target_schema", VStr "STAGING")] ;;
  let workflow_results := dict_set workflow_results "dictionary" dictionary_result in
  let workflow_results := dict_append workflow_results "agents_executed" (VStr "DICTIONARY") in
  agent_sequence_append "DICTIONARY" ;;;
  check_agent_result env "Dictionary" dictionary_result ;;;
  (* Agent 4: Data Mapping *)
  mapping_result <-
    _execute_agent env "MAPPING" "SP_AGENT_MAPPING"
      [("dictionary_results_json", VStr (json_dumps env dictionary_result));
       ("target_schema_name", VStr target_schema);
       ("target_table_name",
        VStr (match target_table with
              | Some t => if String.eqb t "" then "AUTO" else t
              | None => "AUTO"
              end))] ;;
  let workflow_results := dict_set workflow_results "mapping" mapping_result in
  let workflow_results := dict_append workflow_results "agents_executed" (VStr "MAPPING") in
  agent_sequence_append "MAPPING" ;;;
  check_agent_result env "Mapping" mapping_result ;;;
  end_time <- datetime_now ;;
  let workflow_results :=
    dict_set workflow_results "total_duration_seconds" (VNum (end_time - start_time)) in
  summary <- _generate_workflow_summary env workflow_results ;;
  ret (dict_set workflow_results "summary" summary).

Definition _execute_profiling_only (env : Env) (stage_path : string) : M Dict :=
  start_time <- datetime_now ;;
  profiling_result <-
    _execute_agent env "PROFILING" "SP_AGENT_PROFILE"
      [("stage_path", VStr stage_path);
       ("sample_size", VNum 10000);
       ("file_format", VStr "CSV_FORMAT")] ;;
  agent_sequence_append "PROFILING" ;;;
  wid <- self_workflow_id ;;
  end_time <- datetime_now ;;
  ret [("workflow_id", wid);
       ("profiling", profiling_result);
       ("agents_executed", VList [VStr "PROFILING"]);
       ("total_duration_seconds", VNum (end_time - start_time))].

Definition _execute_mapping_only (target_schema : string) (target_table : option string)
  : M Dict :=
  raise NotImplementedError "MAPPING_ONLY workflow requires existing dictionary results".

Definition _complete_workflow (env : Env) (results : Dict) : M unit :=
  let duration := dict_get results "total_duration_seconds" (VNum 0) in
  wid <- self_workflow_id ;;
  sq <- self_agent_sequence ;;
  session_sql env (UpdateWorkflowCompleted wid duration sq) ;;;
  ret tt.

Definition _fail_workflow (env : Env) (error_message : string) : M unit :=
  wid <- self_workflow_id ;;
  session_sql env (UpdateWorkflowFailed wid error_message) ;;;
  ret tt.

(** The branch on [workflow_type] inside the [try]. *)
Definition dispatch (env : Env) (stage_path target_schema : string)
  (target_table : option string) (workflow_type : string) : M Dict :=
  if String.eqb workflow_type "ONBOARDING" then
    _execute_full_onboarding env stage_path target_schema target_table
  else if String.eqb workflow_type "PROFILING_ONLY" then
    _execute_profiling_only env stage_path
  else if String.eqb workflow_type "MAPPING_ONLY" then
    _execute_mapping_only target_schema target_table
  else
    raise ValueError ("Unknown workflow type: " ++ workflow_type).

(** The [try] block of [execute_onboarding_workflow] and its handler. *)
Definition guarded_run (env : Env) (stage_path target_schema : string)
  (target_table : option string) (workflow_type : string) : M Dict :=
  try_except
    (results <- dispatch env stage_path target_schema target_table workflow_type ;;
     _complete_workflow env results ;;;
     format_2f (dict_get results "total_duration_seconds" (VNum 0)) ;;;
     ret results)
    (fun e =>
     _fail_workflow env (exn_msg e) ;;;
     reraise e).

Definition execute_onboarding_workflow (env : Env) (stage_path target_schema : string)
  (target_table : option string) (workflow_type : string) : M Dict :=
  workflow_result <- _initialize_workflow env workflow_type stage_path target_schema ;;
  wid <- py_item workflow_result "workflow_id" ;;
  set_self_workflow_id wid ;;;
  guarded_run env stage_path target_schema target_table workflow_type.

(** The stored-procedure wrapper: a new orchestrator object for every call. *)
Definition sp_orchestrate_onboarding (env : Env) (stage_path target_schema : string)
  (target_table : option string) (workflow_type : string) : M string :=
  __init__ ;;;
  results <- execute_onboarding_workflow env stage_path target_schema target_table workflow_type ;;
  ret (json_dumps env (VDict results)).

(** ** Reading the database back *)

(** The row a [WHERE WORKFLOW_ID = v] reads: the newest one that matches. *)
Definition workflow_record (st : State) (v : Value) : option WorkflowRow :=
  find (fun r => id_matches v (wf_id r)) (workflow_executions st).

(** [get_workflow_status]: the projection of the record, or [None] when the
    workflow is not found; a NULL AGENT_SEQUENCE reads as the empty list. *)
Definition persisted_step_sequence (r : WorkflowRow) : list string :=
  match wf_agent_sequence r with
  | Some l => l
  | None => []
  end.

(** ** Stub sessions for scenarios *)

Definition initial_state : State :=
  mkState [] [] [] 0 0%Z [] VNone [].

(** A stub session: what each of the three procedures and the AI answer,
    and which other statements raise. *)
Record Scenario : Type := mkScenario {
  profile_reply : Reply;
  dictionary_reply : Reply;
  mapping_reply : Reply;
  ai_reply : Reply;
  broken : Stmt -> bool
}.

Definition scenario_respond (sc : Scenario) (n : nat) (s : Stmt) : Reply :=
  match s with
  | CallProcedure name _ =>
      if String.eqb name "SP_AGENT_PROFILE" then profile_reply sc
      else if String.eqb name "SP_AGENT_DICTIONARY" then dictionary_reply sc
      else mapping_reply sc
  | AiComplete _ _ _ _ => ai_reply sc
  | _ =>
      if broken sc s then Raises "statement failed"
      else match s with
           | SelectUuidString => Rows (Some (VStr "3f2a"))
           | _ => Rows None
           end
  end.

(** The JSON documents the stub procedures return, by name. *)
Definition stub_json_loads (s : string) : option Value :=
  if String.eqb s "profile.json" then
    Some (VDict [("profile_id", VStr "p-1");
                 ("profiling_summary", VStr "12 columns, 1 PII column");
                 ("execution_time_seconds", VNum 5)])
  else if String.eqb s "dictionary.json" then
    Some (VDict [("proposal_summary", VStr "table CUSTOMERS proposed");
                 ("execution_time_seconds", VNum 7)])
  else if String.eqb s "mapping.json" then
    Some (VDict [("mapping_summary", VStr "12 fields mapped");
                 ("execution_time_seconds", VNum 3)])
  else if String.eqb s "profile-failed.json" then
    Some (VDict [("profile_id", VStr "p-1");
                 ("status", VStr "FAILED");
                 ("error", VStr "stage not found");
                 ("execution_time_seconds", VNum 1)])
  else None.

(** Every statement takes one tick; other texts are placeholders. *)
Definition scenario_env (sc : Scenario) : Env :=
  mkEnv (scenario_respond sc) (fun _ _ => 1%Z) stub_json_loads
    (fun _ => "<json>") (fun _ => "<repr>").

Definition nothing_broken (s : Stmt) : bool := false.

Definition returns_json (name : string) : Reply := Rows (Some (VStr name)).

(** Scenario A: everything works. *)
Definition happy : Scenario :=
  mkScenario (returns_json "profile.json") (returns_json "dictionary.json")
    (returns_json "mapping.json") (Rows (Some (VStr "All three agents ran.")))
    nothing_broken.

Definition happy_env : Env := scenario_env happy.

(** Scenario B: the dictionary procedure raises. *)
Definition dictionary_down_env : Env :=
  scenario_env
    (mkScenario (returns_json "profile.json") (Raises "DDL generation failed")
       (returns_json "mapping.json") (Rows (Some (VStr "unused"))) nothing_broken).

(** The profiling procedure raises. *)
Definition profile_down_env : Env :=
  scenario_env
    (mkScenario (Raises "stage not found") (returns_json "dictionary.json")
       (returns_json "mapping.json") (Rows (Some (VStr "unused"))) nothing_broken).

(** The profiling procedure returns a document that reports its failure. *)
Definition profile_reports_failure_env : Env :=
  scenario_env
    (mkScenario (returns_json "profile-failed.json") (returns_json "dictionary.json")
       (returns_json "mapping.json") (Rows (Some (VStr "unused"))) nothing_broken).

(** The AI completion raises. *)
Definition ai_down_env : Env :=
  scenario_env
    (mkScenario (returns_json "profile.json") (returns_json "dictionary.json")
       (returns_json "mapping.json") (Raises "model unavailable") nothing_broken).

(** The insert of the RUNNING log entry raises. *)
Definition log_insert_down_env : Env :=
  scenario_env
    (mkScenario (returns_json "profile.json") (returns_json "dictionary.json")
       (returns_json "mapping.json") (Rows (Some (VStr "unused")))
       (fun s => match s with InsertAgentLog _ _ _ => true | _ => false end)).

(** The update of a log entry to COMPLETED raises. *)
Definition log_update_down_env : Env :=
  scenario_env
    (mkScenario (returns_json "profile.json") (returns_json "dictionary.json")
       (returns_json "mapping.json") (Rows (Some (VStr "unused")))
       (fun s => match s with UpdateAgentLogCompleted _ _ _ => true | _ => false end)).

(** Every write to the execution log and to the metrics raises. *)
Definition sink_down_env : Env :=
  scenario_env
    (mkScenario (returns_json "profile.json") (returns_json "dictionary.json")
       (returns_json "mapping.json") (Rows (Some (VStr "unused")))
       (fun s =>
          match s with
          | InsertAgentLog _ _ _ | UpdateAgentLogCompleted _ _ _
          | UpdateAgentLogFailed _ _ _ | InsertAgentMetrics _ _ _ _ _ => true
          | _ => false
          end)).

Definition customers_stage : string := "@RAW_DATA_STAGE/customer_data.csv".

Definition profiling_parameters (stage_path : string) : Dict :=
  [("stage_path", VStr stage_path);
   ("sample_size", VNum 10000);
   ("file_format", VStr "CSV_FORMAT")].

(** ** Observing a run through the statements it issued *)

Definition Trace := list (Stmt * bool).

(** The procedures that were called, in order; a call counts whether or not
    it raised. *)
Fixpoint calls (tr : Trace) : list string :=
  match tr with
  | [] => []
  | (CallProcedure name _, _) :: tr' => name :: calls tr'
  | _ :: tr' => calls tr'
  end.

Definition status_written (e : Stmt * bool) : option WorkflowStatus :=
  match e with
  | (InsertWorkflow _ _ _, true) => Some INITIATED
  | (UpdateWorkflowInProgress _, true) => Some IN_PROGRESS
  | (UpdateWorkflowCompleted _ _ _, true) => Some COMPLETED
  | (UpdateWorkflowFailed _ _, true) => Some FAILED
  | _ => None
  end.

(** The values written to the STATUS column of WORKFLOW_EXECUTIONS, in order. *)
Fixpoint status_writes (tr : Trace) : list WorkflowStatus :=
  match tr with
  | [] => []
  | e :: tr' =>
      match status_written e with
      | Some s => s :: status_writes tr'
      | None => status_writes tr'
      end
  end.

Definition is_ai_complete (s : Stmt) : bool :=
  match s with AiComplete _ _ _ _ => true | _ => false end.

(** The AI completions that were asked for, each with whether the statement
    went through. *)
Definition ai_requests (tr : Trace) : list bool :=
  map snd (filter (fun e => is_ai_complete (fst e)) tr).

Definition terminal (s : WorkflowStatus) : bool :=
  match s with
  | COMPLETED | FAILED => true
  | _ => false
  end.

(** The status values one run may write, in order. *)
Inductive lifecycle : list WorkflowStatus -> Prop :=
| lifecycle_none : lifecycle []
| lifecycle_initiated : lifecycle [INITIATED]
| lifecycle_in_progress : lifecycle [INITIATED; IN_PROGRESS]
| lifecycle_terminal t : terminal t = true -> lifecycle [INITIATED; IN_PROGRESS; t].

(** The fixed plan of a workflow type. *)
Definition plan (workflow_type : string) : list string :=
  if String.eqb workflow_type "ONBOARDING" then ["PROFILING"; "DICTIONARY"; "MAPPING"]
  else if String.eqb workflow_type "PROFILING_ONLY" then ["PROFILING"]
  else if String.eqb workflow_type "MAPPING_ONLY" then ["MAPPING"]
  else [].

Definition supported (workflow_type : string) : bool :=
  String.eqb workflow_type "ONBOARDING"
  || String.eqb workflow_type "PROFILING_ONLY"
  || String.eqb workflow_type "MAPPING_ONLY".

Fixpoint is_prefix (l p : list string) : bool :=
  match l, p with
  | [], _ => true
  | x :: l', y :: p' => String.eqb x y && is_prefix l' p'
  | _ :: _, [] => false
  end.

(** ** What is asked of the session *)

Inductive Target : Type :=
| WorkflowTable
| LogTable
| MetricsTable
| Procedure
| Completion.

(** The table or service a statement is for; the UUID query belongs to the
    bookkeeping of a step. *)
Definition target (s : Stmt) : Target :=
  match s with
  | InsertWorkflow _ _ _ | SelectInitiatedWorkflowId | UpdateWorkflowInProgress _
  | UpdateWorkflowCompleted _ _ _ | UpdateWorkflowFailed _ _ => WorkflowTable
  | SelectUuidString | InsertAgentLog _ _ _ | SelectExecutionId _ _
  | UpdateAgentLogCompleted _ _ _ | UpdateAgentLogFailed _ _ _ => LogTable
  | InsertAgentMetrics _ _ _ _ _ => MetricsTable
  | CallProcedure _ _ => Procedure
  | AiComplete _ _ _ _ => Completion
  end.

Definition target_eqb (a b : Target) : bool :=
  match a, b with
  | WorkflowTable, WorkflowTable | LogTable, LogTable | MetricsTable, MetricsTable
  | Procedure, Procedure | Completion, Completion => true
  | _, _ => false
  end.

(** The statement does not raise, and the UUID query returns its row. *)
Definition goes_through (s : Stmt) (r : Reply) : bool :=
  match r with
  | Raises _ => false
  | Rows c =>
      match s with
      | SelectUuidString => match c with Some _ => true | None => false end
      | _ => true
      end
  end.

(** The statements of a step on the execution log all go through. *)
Definition log_store_ok (env : Env) : Prop :=
  forall n s, target s = LogTable -> goes_through s (respond env n s) = true.

(** The statements on WORKFLOW_EXECUTIONS all go through. *)
Definition workflow_store_ok (env : Env) : Prop :=
  forall n s, target s = WorkflowTable -> goes_through s (respond env n s) = true.

Definition record_store_ok (env : Env) : Prop :=
  log_store_ok env /\ workflow_store_ok env.

(** The cell [_call_agent_procedure] returns for a reply that is not a raise. *)
Definition returned (c : option Value) : Value :=
  match c with
  | Some v => v
  | None => VDict []
  end.

Definition is_number (v : Value) : bool :=
  match v with
  | VNum _ | VBool _ => true
  | _ => false
  end.

(** A step result the controller goes on from: a dict whose status is not
    'FAILED' and whose execution time, when present, is a number. *)
Definition agent_result_ok (v : Value) : bool :=
  match v with
  | VDict d =>
      negb (is_failed (dict_get d "status" VNone))
      && is_number (dict_get d "execution_time_seconds" (VNum 0))
  | _ => false
  end.

(** A reply of a procedure that makes its step succeed. *)
Definition reply_ok (env : Env) (r : Reply) : bool :=
  match r with
  | Raises _ => false
  | Rows c => agent_result_ok (parse_result env (returned c))
  end.

Definition procedure_succeeds (env : Env) (name : string) : Prop :=
  forall n args, reply_ok env (respond env n (CallProcedure name args)) = true.

Definition procedure_fails (env : Env) (name : string) : Prop :=
  forall n args, reply_ok env (respond env n (CallProcedure name args)) = false.

(** The session behaves as [env] except on the metrics statements, where it
    behaves as [f] says. *)
Definition override_metrics (f : nat -> Stmt -> Reply) (env : Env) : Env :=
  mkEnv
    (fun n s => if target_eqb (target s) MetricsTable then f n s else respond env n s)
    (elapse env) (json_loads env) (json_dumps env) (py_repr env).

Open Scope list_scope.

(** ** Specification vocabulary for monadic code *)

(** [wp m Q st]: running [m] from [st] ends in a result and a state that
    satisfy [Q]. *)
Definition wp {A} (m : M A) (Q : Res A -> State -> Prop) (st : State) : Prop :=
  Q (fst (m st)) (snd (m st)).

Arguments wp : simpl never.

(** [frames R m]: running [m] only ever moves the state along [R]. *)
Definition frames (R : State -> State -> Prop) {A} (m : M A) : Prop :=
  forall st, R st (snd (m st)).

(** Between two states: the workflow table and the instance fields are the
    same, and the statements issued in between wrote no workflow status. *)
Definition quiet (a b : State) : Prop :=
  workflow_executions b = workflow_executions a /\
  workflow_id b = workflow_id a /\
  agent_sequence b = agent_sequence a /\
  exists new, trace b = trace a ++ new /\ status_writes new = [].

(** As [quiet], but steps may have been appended to [agent_sequence]. *)
Definition silent (a b : State) : Prop :=
  workflow_executions b = workflow_executions a /\
  workflow_id b = workflow_id a /\
  exists new, trace b = trace a ++ new /\ status_writes new = [].

(** The statement [_call_agent_procedure] sends. *)
Definition call_statement (env : Env) (procedure_name : string) (parameters : Dict) : Stmt :=
  CallProcedure procedure_name (map (fun kv => param_value env (snd kv)) parameters).

(** The value a step hands back for a reply of its procedure. *)
Definition step_value (env : Env) (reply : Reply) (v : Value) : Prop :=
  match reply with
  | Rows c => v = parse_result env (returned c)
  | Raises msg =>
      exists d, v = VDict [("status", VStr "FAILED");
                           ("error", VStr msg);
                           ("execution_time_seconds", VNum d)]
  end.

(** The terminal state of the log entry of a step for a reply of its procedure. *)
Definition step_logged (env : Env) (reply : Reply) (v : Value) (row : LogRow) : Prop :=
  match reply with
  | Rows _ => ex_status row = LOG_COMPLETED /\ ex_output row = Some (json_dumps env v)
  | Raises msg => ex_status row = LOG_FAILED /\ ex_error row = Some msg
  end.

(** What one run of the step executor does when its log statements go
    through: [reply] is the answer of the procedure, [v] the value handed
    back, [st'] the state afterwards. *)
Record step_run (env : Env) (name fn : string) (reply : Reply)
  (st : State) (v : Value) (st' : State) : Prop := mk_step_run {
  sr_value : step_value env reply v;
  sr_workflows : workflow_executions st' = workflow_executions st;
  sr_workflow_id : workflow_id st' = workflow_id st;
  sr_agent_sequence : agent_sequence st' = agent_sequence st;
  sr_trace : exists new,
      trace st' = trace st ++ new /\ calls new = [fn]
      /\ status_writes new = [] /\ ai_requests new = [];
  sr_log : exists row rest,
      agent_execution_log st' = row :: rest
      /\ map ex_agent rest = map ex_agent (agent_execution_log st)
      /\ ex_agent row = name /\ ex_workflow row = workflow_id st
      /\ step_logged env reply v row
}.

(** The state a run is in once [_initialize_workflow] has gone through and
    the identifier is stored in the instance: [st] is the state before. *)
Record started (workflow_type stage_path target_schema : string) (st st1 : State)
  : Prop := mk_started {
  sd_workflow_id : workflow_id st1 = id_value (next_id st);
  sd_workflows :
    workflow_executions st1 =
    mkWorkflowRow (next_id st) workflow_type stage_path target_schema IN_PROGRESS
      (now st) None None None None
    :: update_where wf_id (id_value (next_id st)) (set_wf_status IN_PROGRESS)
         (workflow_executions st);
  sd_log : agent_execution_log st1 = agent_execution_log st;
  sd_agent_sequence : agent_sequence st1 = agent_sequence st;
  sd_trace :
    trace st1 =
    trace st ++ [(InsertWorkflow workflow_type stage_path target_schema, true);
                 (SelectInitiatedWorkflowId, true);
                 (UpdateWorkflowInProgress (id_value (next_id st)), true)]
}.

(** The state after the terminal write of a run that completed. *)
Definition completed_state (env : Env) (results : Dict) (st : State) : State :=
  issued env
    (UpdateWorkflowCompleted (workflow_id st)
       (dict_get results "total_duration_seconds" (VNum 0)) (agent_sequence st))
    true
    (with_workflows
       (update_where wf_id (workflow_id st)
          (wf_complete (now st) (dict_get results "total_duration_seconds" (VNum 0))
             (agent_sequence st))
          (workflow_executions st)) st).

(** The state after the terminal write of a run that failed with [e]. *)
Definition failed_state (env : Env) (e : Exn) (st : State) : State :=
  issued env (UpdateWorkflowFailed (workflow_id st) (exn_msg e)) true
    (with_workflows
       (update_where wf_id (workflow_id st) (wf_fail (now st) (exn_msg e))
          (workflow_executions st)) st).

Definition procedure_raises (env : Env) (name : string) : Prop :=
  forall n args, exists msg, respond env n (CallProcedure name args) = Raises msg.

(** Two states that differ at most in the metrics table and in which of the
    issued statements went through. *)
Definition same_but_metrics (a b : State) : Prop :=
  workflow_executions a = workflow_executions b
  /\ agent_execution_log a = agent_execution_log b
  /\ next_id a = next_id b
  /\ now a = now b
  /\ workflow_id a = workflow_id b
  /\ agent_sequence a = agent_sequence b
  /\ map fst (trace a) = map fst (trace b).

(** Two programs that, from such states, end in the same result and in such
    states again. *)
Definition sim {A} (m1 m2 : M A) : Prop :=
  forall a b,
    same_but_metrics a b ->
    fst (m1 a) = fst (m2 b) /\ same_but_metrics (snd (m1 a)) (snd (m2 b)).

(** The procedures behind the steps of the ONBOARDING plan, in plan order. *)
Definition plan_procedures : list string :=
  ["SP_AGENT_PROFILE"; "SP_AGENT_DICTIONARY"; "SP_AGENT_MAPPING"].

(** The fallback text of [_generate_workflow_summary] for [n] agents. *)
Definition summary_template (n : nat) : Value :=
  VStr ("Workflow completed with " ++ nat_to_string n ++ " agents executed.").

(** The procedure always returns a text that [json.loads] rejects. *)
Definition procedure_returns_garbage (env : Env) (name : string) : Prop :=
  forall n args,
    exists text,
      respond env n (CallProcedure name args) = Rows (Some (VStr text))
      /\ json_loads env text = None.

(** The procedure always comes back without rows. *)
Definition procedure_returns_nothing (env : Env) (name : string) : Prop :=
  forall n args, respond env n (CallProcedure name args) = Rows None.

(** All three procedures come back without rows. *)
Definition silent_procedures_env : Env :=
  scenario_env
    (mkScenario (Rows None) (Rows None) (Rows None)
       (Rows (Some (VStr "Nothing to report."))) nothing_broken).

(** The profiling procedure returns a text that is not one of the JSON
    documents. *)
Definition garbage_profile_env : Env :=
  scenario_env
    (mkScenario (returns_json "<html>502 Bad Gateway</html>")
       (returns_json "dictionary.json") (returns_json "mapping.json")
       (Rows (Some (VStr "unused"))) nothing_broken).

(** The statements on AGENT_METRICS all go through. *)
Definition metrics_store_ok (env : Env) : Prop :=
  forall n s, target s = MetricsTable -> goes_through s (respond env n s) = true.

(** The rows of the two record tables whose identifier is below [n]. *)
Definition old_workflows (n : nat) (st : State) : list WorkflowRow :=
  filter (fun r => Nat.ltb (wf_id r) n) (workflow_executions st).

Definition old_log (n : nat) (st : State) : list LogRow :=
  filter (fun r => Nat.ltb (ex_id r) n) (agent_execution_log st).

(** From a state whose identifier counter has reached [n], to a state where
    it still has and where the rows below [n] are what they were. *)
Definition keeps (n : nat) (a b : State) : Prop :=
  n <= next_id a ->
  n <= next_id b
  /\ old_workflows n b = old_workflows n a
  /\ old_log n b = old_log n a.

(** The key [v] matches no identifier below [n]. *)
Definition fresh_key (n : nat) (v : Value) : Prop :=
  forall k, k < n -> id_matches v k = false.

(** The statement updates no row whose identifier is below [n]. *)
Definition touches_only_new (n : nat) (s : Stmt) : Prop :=
  match s with
  | UpdateWorkflowInProgress v | UpdateWorkflowCompleted v _ _ | UpdateWorkflowFailed v _
  | UpdateAgentLogCompleted v _ _ | UpdateAgentLogFailed v _ _ => fresh_key n v
  | _ => True
  end.

(** The write that records a run as COMPLETED. *)
Definition is_completed_write (s : Stmt) : bool :=
  match s with UpdateWorkflowCompleted _ _ _ => true | _ => false end.

(** The COMPLETED write always raises. *)
Definition completion_write_fails (env : Env) : Prop :=
  forall n s, is_completed_write s = true -> exists msg, respond env n s = Raises msg.

(** Every other statement on WORKFLOW_EXECUTIONS goes through. *)
Definition other_workflow_writes_ok (env : Env) : Prop :=
  forall n s,
    target s = WorkflowTable -> is_completed_write s = false ->
    goes_through s (respond env n s) = true.

(** Everything works, except that the COMPLETED write raises. *)
Definition completion_down_env : Env :=
  scenario_env
    (mkScenario (returns_json "profile.json") (returns_json "dictionary.json")
       (returns_json "mapping.json") (Rows (Some (VStr "All three agents ran.")))
       is_completed_write).

(** The statements of [_initialize_workflow], in the order they are issued
    from [st]. *)
Definition init_statements (workflow_type stage_path target_schema : string) (st : State)
  : list Stmt :=
  [InsertWorkflow workflow_type stage_path target_schema;
   SelectInitiatedWorkflowId;
   UpdateWorkflowInProgress (id_value (next_id st))].

(** The [k]-th statement of the initialisation is the first that raises. *)
Definition init_fails_at (env : Env) (workflow_type stage_path target_schema : string)
  (st : State) (k : nat) (msg : string) : Prop :=
  (exists s,
      nth_error (init_statements workflow_type stage_path target_schema st) k = Some s
      /\ respond env (List.length (trace st) + k) s = Raises msg)
  /\ forall j s,
      j < k ->
      nth_error (init_statements workflow_type stage_path target_schema st) j = Some s ->
      goes_through s (respond env (List.length (trace st) + j) s) = true.

(** The record [_initialize_workflow] inserts. *)
Definition initiated_row (workflow_type stage_path target_schema : string) (st : State)
  : WorkflowRow :=
  mkWorkflowRow (next_id st) workflow_type stage_path target_schema INITIATED (now st)
    None None None None.

(** The update to IN_PROGRESS raises. *)
Definition start_down_env : Env :=
  scenario_env
    (mkScenario (returns_json "profile.json") (returns_json "dictionary.json")
       (returns_json "mapping.json") (Rows (Some (VStr "All three agents ran.")))
       (fun s => match s with UpdateWorkflowInProgress _ => true | _ => false end)).

Definition is_call (s : Stmt) : bool :=
  match s with CallProcedure _ _ => true | _ => false end.

(** The CALL statements that were issued, in order, with their arguments as
    they were rendered. *)
Definition procedure_calls (tr : list (Stmt * bool)) : list Stmt :=
  filter is_call (map fst tr).

(** [target_table or 'AUTO'] *)
Definition table_or_auto (target_table : option string) : string :=
  match target_table with
  | Some t => if String.eqb t "" then "AUTO" else t
  | None => "AUTO"
  end.

(** The procedure always returns a result that does not report a failure
    and whose execution time is a text, not a number. *)
Definition procedure_reports_text_time (env : Env) (name : string) : Prop :=
  forall n args,
    exists c d t,
      respond env n (CallProcedure name args) = Rows c
      /\ parse_result env (returned c) = VDict d
      /\ is_failed (dict_get d "status" VNone) = false
      /\ dict_get d "execution_time_seconds" (VNum 0) = VStr t.

(** The profiling procedure reports its execution time as a text. *)
Definition text_time_profile_env : Env :=
  scenario_env
    (mkScenario
       (Rows (Some (VDict [("profiling_summary", VStr "12 columns, 1 PII column");
                           ("execution_time_seconds", VStr "5.2")])))
       (returns_json "dictionary.json") (returns_json "mapping.json")
       (Rows (Some (VStr "unused"))) nothing_broken).

(** ** Utility functions *)

Definition status_name (s : WorkflowStatus) : string :=
  match s with
  | INITIATED => "INITIATED"
  | IN_PROGRESS => "IN_PROGRESS"
  | COMPLETED => "COMPLETED"
  | FAILED => "FAILED"
  end.

(** A column that may be NULL, read into Python. *)
Definition column_value {A} (f : A -> Value) (cell : option A) : Value :=
  match cell with
  | Some a => f a
  | None => VNone
  end.

(** [get_workflow_status(session, workflow_id)].  Its SELECT only reads the
    table: [raises] is the error of the session when the statement does not
    go through, [str_time] is [str] on a timestamp.  Without a row the
    function hands back the dict with the single key 'error'. *)
Definition get_workflow_status (str_time : Z -> string) (raises : option string)
  (wid : Value) : M Dict :=
  fun st =>
    match raises with
    | Some msg => (Raise (mkExn SnowparkSQLException msg), st)
    | None =>
        match workflow_record st wid with
        | Some row =>
            (Ok [("workflow_id", id_value (wf_id row));
                 ("type", VStr (wf_type row));
                 ("status", VStr (status_name (wf_status row)));
                 ("start_time", VStr (str_time (wf_start row)));
                 ("end_time", column_value (fun t => VStr (str_time t)) (wf_end row));
                 ("duration_seconds", column_value (fun d => d) (wf_duration row));
                 ("source", VStr (wf_source row));
                 ("target", VStr (wf_target row));
                 ("agents", VList (map VStr (persisted_step_sequence row)));
                 ("error", column_value VStr (wf_error row))], st)
        | None => (Ok [("error", VStr "Workflow not found")], st)
        end
    end.

(** * The profiling agent: statistics and quality rules

    [src/agents/agent_01_profiling.py], the part of [profile_data] behind the
    PROFILING step that uses no AI: [calculate_statistics] and
    [identify_quality_issues].  The Snowpark frame is an oracle that says,
    for each column, what each aggregate returns or the error it raises.
    Counts are integers, as a COUNT returns them.  A Python float is carried
    as the rational number it stands for, and every operation that yields a
    float rounds its exact result to the nearest binary64 number. *)

(** ** Python floats

    Rounding to binary64: 53 significant bits, to nearest, ties to the even
    significand.  The exponent range is left out: the quotients and products
    of counts stay far inside it. *)

Section Binary64.
Local Open Scope Q_scope.

Definition pow2 (e : Z) : Q := 2 ^ e.

(** The [e] with [2^e <= x < 2^(e+1)], for a positive [x]. *)
Definition binade (x : Q) : Z :=
  let d := (Z.log2 (Qnum x) - Z.log2 (Zpos (Qden x)))%Z in
  if Qle_bool (pow2 d) x then d else (d - 1)%Z.

(** The nearest integer, the even one of two that are equally near. *)
Definition round_half_even (x : Q) : Z :=
  let n := Qfloor x in
  match Qcompare x (inject_Z n + (1 # 2)) with
  | Lt => n
  | Eq => if Z.even n then n else (n + 1)%Z
  | Gt => (n + 1)%Z
  end.

(** The float nearest to a positive number: its significand is the number
    scaled into [2^52, 2^53] and rounded. *)
Definition nearest_double_pos (x : Q) : Q :=
  let e := (binade x - 52)%Z in
  inject_Z (round_half_even (x / pow2 e)) * pow2 e.

Definition nearest_double (x : Q) : Q :=
  match Qcompare x 0 with
  | Eq => 0
  | Gt => nearest_double_pos x
  | Lt => - nearest_double_pos (- x)
  end.

(** The float literal [0.1]. *)
Definition tenth : Q := nearest_double (1 # 10).

(** [nulls / rows * 100] on two integers: the true quotient of the integers
    correctly rounded, then its product with 100 rounded. *)
Definition null_percentage_of (nulls rows : Z) : Q :=
  nearest_double (nearest_double (inject_Z nulls / inject_Z rows) * 100).

(** [rows * 0.1]: the integer becomes a float first. *)
Definition tenth_of (rows : Z) : Q :=
  nearest_double (nearest_double (inject_Z rows) * tenth).

End Binary64.

(** What the frame answers for one column, in the order the code asks:
    the null count, the non-null count, the distinct count, and the texts of
    the minimum and of the maximum. *)
Record ColumnData : Type := mkColumnData {
  col_name : string;
  null_rows : Res Z;
  non_null_rows : Res Z;
  distinct_values : Res Z;
  min_text : Res string;
  max_text : Res string
}.

(** [df.count()] and [df.columns]. *)
Record DataFrame : Type := mkDataFrame {
  df_count : Res Z;
  df_columns : list ColumnData
}.

(** One entry of [statistics['columns']]: a dict whose keys, apart from
    'column_name', may be missing. *)
Record ColumnStats : Type := mkColumnStats {
  column_name : string;
  null_count : option Z;
  non_null_count : option Z;
  distinct_count : option Z;
  null_percentage : option Q;
  cardinality : option string;
  min_value : option string;
  max_value : option string;
  stats_error : option string
}.

Record Statistics : Type := mkStatistics {
  row_count : Z;
  columns : list ColumnStats
}.

(** [a > b] on numbers; Python compares an integer and a float exactly. *)
Definition Qgt_bool (a b : Q) : bool := negb (Qle_bool a b).

(** The entry appended by the [except] of the loop over the columns. *)
Definition failed_statistics (c : ColumnData) (e : Exn) : ColumnStats :=
  mkColumnStats (col_name c) None None None None None None None (Some (exn_msg e)).

(** The body of the loop of [calculate_statistics] for one column. *)
Definition column_statistics (row_count : Z) (c : ColumnData) : ColumnStats :=
  match null_rows c with
  | Raise e => failed_statistics c e
  | Ok nulls =>
      match non_null_rows c with
      | Raise e => failed_statistics c e
      | Ok non_nulls =>
          match distinct_values c with
          | Raise e => failed_statistics c e
          | Ok distinct =>
              let percentage :=
                if (0 <? row_count)%Z
                then null_percentage_of nulls row_count
                else 0%Q in
              let assessment :=
                if (distinct =? row_count)%Z then "UNIQUE"
                else if (distinct <? 10)%Z then "LOW"
                else if Qgt_bool (tenth_of row_count) (inject_Z distinct)
                     then "MEDIUM"
                else "HIGH" in
              match min_text c, max_text c with
              | Ok lo, Ok hi =>
                  mkColumnStats (col_name c) (Some nulls) (Some non_nulls) (Some distinct)
                    (Some percentage) (Some assessment) (Some lo) (Some hi) None
              | _, _ =>
                  mkColumnStats (col_name c) (Some nulls) (Some non_nulls) (Some distinct)
                    (Some percentage) (Some assessment) None None None
              end
          end
      end
  end.

(** [calculate_statistics(df)]: the row count is taken outside any [try]. *)
Definition calculate_statistics (df : DataFrame) : Res Statistics :=
  match df_count df with
  | Raise e => Raise e
  | Ok count => Ok (mkStatistics count (map (column_statistics count) (df_columns df)))
  end.

(** One entry of the list [identify_quality_issues] returns. *)
Record Issue : Type := mkIssue {
  column : string;
  issue_type : string;
  severity : string;
  description : string
}.

(** [col_stat.get(key, default)] *)
Definition field_get {A} (field : option A) (default : A) : A :=
  match field with
  | Some v => v
  | None => default
  end.

(** [str] on an integer. *)
Definition z_to_string (z : Z) : string := NilEmpty.string_of_int (Z.to_int z).

(** The body of the loop of [identify_quality_issues]: three independent
    tests, each appending one issue.  [format_1f] is the format code [.1f]. *)
Definition column_issues (format_1f : Q -> string) (rows : Z) (col_stat : ColumnStats)
  : list Issue :=
  (if Qgt_bool (field_get (null_percentage col_stat) 0%Q) 50%Q
   then [mkIssue (column_name col_stat) "HIGH_NULL_PERCENTAGE" "WARNING"
           ("Column has " ++ format_1f (field_get (null_percentage col_stat) 0%Q)
              ++ "% null values")]
   else [])
  ++ (if match cardinality col_stat with
         | Some text => String.eqb text "LOW"
         | None => false
         end
         && (0 <? field_get (distinct_count col_stat) 0)%Z
      then [mkIssue (column_name col_stat) "LOW_CARDINALITY" "INFO"
              ("Column has only " ++ z_to_string (field_get (distinct_count col_stat) 0%Z)
                 ++ " distinct values")]
      else [])
  ++ (if (field_get (null_count col_stat) 0 =? rows)%Z
      then [mkIssue (column_name col_stat) "ALL_NULLS" "ERROR"
              "Column contains only null values"]
      else []).

Definition identify_quality_issues (format_1f : Q -> string) (statistics : Statistics)
  : list Issue :=
  flat_map (column_issues format_1f (row_count statistics)) (columns statistics).

(** The three counts of a column, when none of them raised. *)
Definition basic_counts (c : ColumnData) : option (Z * Z * Z) :=
  match null_rows c, non_null_rows c, distinct_values c with
  | Ok nulls, Ok non_nulls, Ok distinct => Some (nulls, non_nulls, distinct)
  | _, _, _ => None
  end.

(** A column of a frame without rows: a count that does not raise is 0. *)
Definition column_without_rows (c : ColumnData) : Prop :=
  match basic_counts c with
  | Some (nulls, _, distinct) => nulls = 0%Z /\ distinct = 0%Z
  | None => True
  end.

(** What the rules say about the issue types reported for a column of a
    sample of [rows] rows. *)
Definition rules_hold (rows : Z) (c : ColumnData) (found : list string) : Prop :=
  (In "HIGH_NULL_PERCENTAGE" found <->
   exists nulls non_nulls distinct,
     basic_counts c = Some (nulls, non_nulls, distinct) /\ (rows < 2 * nulls)%Z)
  /\ (In "LOW_CARDINALITY" found <->
      exists nulls non_nulls distinct,
        basic_counts c = Some (nulls, non_nulls, distinct)
        /\ (0 < distinct < 10)%Z /\ distinct <> rows)
  /\ (In "ALL_NULLS" found <->
      exists nulls non_nulls distinct,
        basic_counts c = Some (nulls, non_nulls, distinct) /\ nulls = rows).

(** A sample of four rows: a column that is all nulls, a key column, a flag
    column, and a column whose counts could not be taken. *)
Definition sample_frame : DataFrame :=
  mkDataFrame (Ok 4%Z)
    [mkColumnData "MIDDLE_NAME" (Ok 4%Z) (Ok 0%Z) (Ok 0%Z) (Ok "None") (Ok "None");
     mkColumnData "CUSTOMER_ID" (Ok 0%Z) (Ok 4%Z) (Ok 4%Z) (Ok "1") (Ok "4");
     mkColumnData "ACTIVE" (Ok 1%Z) (Ok 3%Z) (Ok 2%Z)
       (Raise (mkExn SnowparkSQLException "boolean has no minimum")) (Ok "true");
     mkColumnData "PAYLOAD" (Raise (mkExn SnowparkSQLException "invalid identifier"))
       (Ok 0%Z) (Ok 0%Z) (Ok "") (Ok "")].

(** A file without rows. *)
Definition empty_frame : DataFrame :=
  mkDataFrame (Ok 0%Z)
    [mkColumnData "CUSTOMER_ID" (Ok 0%Z) (Ok 0%Z) (Ok 0%Z) (Ok "None") (Ok "None");
     mkColumnData "PAYLOAD" (Raise (mkExn SnowparkSQLException "invalid identifier"))
       (Ok 0%Z) (Ok 0%Z) (Ok "") (Ok "")].

(** ** Detection of sensitive columns

    [detect_pii_phi] of the profiling agent.  The session is an oracle
    again: the sample of a column and each classification either raise or
    return, and may change from one statement to the next, so the oracle
    takes the number of statements asked so far. *)

Inductive Sensitivity : Type := PII | PHI.

Record Classifier : Type := mkClassifier {
  (* the texts [str(row[0])] of the non-null sample rows of a column *)
  sample_values : nat -> string -> Res (list string);
  (* the first cell of the AI_CLASSIFY statement for a value *)
  ai_classify : nat -> Sensitivity -> string -> Res (option string)
}.

Record PiiColumn : Type := mkPiiColumn {
  pii_column_name : string;
  pii_type : string;
  sample_value_masked : string
}.

Record PhiColumn : Type := mkPhiColumn {
  phi_column_name : string;
  phi_type : string;
  phi_sample_value_masked : string
}.

(** The two lists the function builds, and the statements asked so far. *)
Record Detection : Type := mkDetection {
  pii_columns : list PiiColumn;
  phi_columns : list PhiColumn;
  asked : nat
}.

(** [result and result != none_label], inside a [try] whose [except] passes:
    the label when the test holds. *)
Definition detected (reply : Res (option string)) (none_label : string) : option string :=
  match reply with
  | Ok (Some label) =>
      if negb (String.eqb label "") && negb (String.eqb label none_label)
      then Some label
      else None
  | _ => None
  end.

(** The loop over the sample values of one column; a detection ends it
    ([break]).  A text is taken character by character, an [ascii] each, so
    [value[:3]] is its first three; characters beyond that range are not
    represented. *)
Fixpoint scan_values (o : Classifier) (col_name : string) (values : list string)
  (d : Detection) : Detection :=
  match values with
  | [] => d
  | value :: rest =>
      if (0 <? String.length value)%nat then
        match detected (ai_classify o (asked d) PII value) "NOT_PII" with
        | Some label =>
            mkDetection
              (pii_columns d
                 ++ [mkPiiColumn col_name label (String.substring 0 3 value ++ "***")])
              (phi_columns d) (S (asked d))
        | None =>
            match detected (ai_classify o (S (asked d)) PHI value) "NOT_PHI" with
            | Some label =>
                mkDetection (pii_columns d)
                  (phi_columns d ++ [mkPhiColumn col_name label "***REDACTED***"])
                  (S (S (asked d)))
            | None =>
                scan_values o col_name rest
                  (mkDetection (pii_columns d) (phi_columns d) (S (S (asked d))))
            end
        end
      else scan_values o col_name rest d
  end.

(** The body of the loop over the columns: a sample that raises, or that is
    empty, goes on to the next column; only the first three values are
    tested. *)
Definition detect_column (o : Classifier) (d : Detection) (col_name : string) : Detection :=
  match sample_values o (asked d) col_name with
  | Raise _ => mkDetection (pii_columns d) (phi_columns d) (S (asked d))
  | Ok values =>
      scan_values o col_name (firstn 3 values)
        (mkDetection (pii_columns d) (phi_columns d) (S (asked d)))
  end.

(** The dict [detect_pii_phi] returns. *)
Record PiiReport : Type := mkPiiReport {
  report_pii_columns : list PiiColumn;
  report_phi_columns : list PhiColumn;
  pii_detected_count : nat;
  phi_detected_count : nat
}.

Definition detect_pii_phi (o : Classifier) (df_column_names : list string) : PiiReport :=
  let d := fold_left (detect_column o) df_column_names (mkDetection [] [] 0) in
  mkPiiReport (pii_columns d) (phi_columns d)
    (List.length (pii_columns d)) (List.length (phi_columns d)).

(** A classifier that finds an e-mail address in every value and a
    diagnosis in none. *)
Definition email_classifier : Classifier :=
  mkClassifier
    (fun _ col_name => if String.eqb col_name "NOTES" then Ok [] else Ok ["ann@example.org"; ""])
    (fun _ kind _ => match kind with PII => Ok (Some "EMAIL") | PHI => Ok (Some "NOT_PHI") end).

(** What the loop over the columns keeps true: every name reported so far
    is one of the columns seen, no name is reported twice, and the reports
    are no more than the columns seen. *)
Definition reported_once (seen : list string) (d : Detection) : Prop :=
  NoDup (map pii_column_name (pii_columns d) ++ map phi_column_name (phi_columns d))
  /\ incl (map pii_column_name (pii_columns d) ++ map phi_column_name (phi_columns d)) seen
  /\ List.length (pii_columns d) + List.length (phi_columns d) <= List.length seen.

(** ** Vocabulary for the summary and for results that report a failure *)

(** The AI answers with a NULL cell. *)
Definition ai_null_env : Env :=
  scenario_env
    (mkScenario (returns_json "profile.json") (returns_json "dictionary.json")
       (returns_json "mapping.json") (Rows (Some VNone)) nothing_broken).

(** The steps of [_execute_full_onboarding]: the agent name, the procedure
    it calls, and the label in the error it raises for a failed result. *)
Definition onboarding_steps : list (string * string * string) :=
  [("PROFILING", "SP_AGENT_PROFILE", "Profiling");
   ("DICTIONARY", "SP_AGENT_DICTIONARY", "Dictionary");
   ("MAPPING", "SP_AGENT_MAPPING", "Mapping")].

(** The procedure always returns normally, with the payload [d], and [d]
    carries the status 'FAILED'. *)
Definition reports_failure (env : Env) (name : string) (d : Dict) : Prop :=
  is_failed (dict_get d "status" VNone) = true
  /\ forall n args,
      exists c,
        respond env n (CallProcedure name args) = Rows c
        /\ parse_result env (returned c) = VDict d.

(** The dictionary procedure returns a document with status 'FAILED'. *)
Definition dictionary_reports_failure_env : Env :=
  scenario_env
    (mkScenario (returns_json "profile.json") (returns_json "profile-failed.json")
       (returns_json "mapping.json") (Rows (Some (VStr "unused"))) nothing_broken).

(** ** Basic facts *)

Lemma list_eqb_refl {A} (eqb : A -> A -> bool) (l : list A) :
  Forall (fun x => eqb x x = true) l -> list_eqb eqb l l = true.
Proof.
  induction 1 as [|x l Hx _ IH]; simpl.
  - reflexivity.
  - now rewrite Hx, IH.
Qed.

Lemma value_eqb_refl (v : Value) : value_eqb v v = true.
Proof.
  revert v. fix IH 1. intros v.
  destruct v as [| b | z | s | l | d]; simpl.
  - reflexivity.
  - now destruct b.
  - apply Z.eqb_refl.
  - apply String.eqb_refl.
  - apply list_eqb_refl.
    induction l as [|x l IHl]; constructor; [apply IH | exact IHl].
  - apply list_eqb_refl.
    induction d as [|[k x] d IHd]; constructor; [| exact IHd].
    now rewrite String.eqb_refl, IH.
Qed.

Lemma id_matches_refl (n : nat) : id_matches (id_value n) n = true.
Proof. apply value_eqb_refl. Qed.

Lemma calls_app (a b : Trace) : calls (a ++ b) = calls a ++ calls b.
Proof.
  induction a as [|[s ok] a IH]; simpl; [reflexivity|].
  destruct s; simpl; now rewrite ?IH.
Qed.

Lemma status_writes_app (a b : Trace) :
  status_writes (a ++ b) = status_writes a ++ status_writes b.
Proof.
  induction a as [|e a IH]; simpl; [reflexivity|].
  destruct (status_written e); simpl; now rewrite IH.
Qed.

Lemma ai_requests_app (a b : Trace) :
  ai_requests (a ++ b) = ai_requests a ++ ai_requests b.
Proof. unfold ai_requests. now rewrite filter_app, map_app. Qed.

(** ** Reasoning about monadic code *)

Lemma wp_run {A} (m : M A) Q st r st' : m st = (r, st') -> wp m Q st -> Q r st'.
Proof. unfold wp. intros E. now rewrite E. Qed.

Lemma wp_conseq {A} (m : M A) (Q Q' : Res A -> State -> Prop) st :
  wp m Q st -> (forall r st', Q r st' -> Q' r st') -> wp m Q' st.
Proof. unfold wp. auto. Qed.

Lemma wp_ret {A} (a : A) Q st : Q (Ok a) st -> wp (ret a) Q st.
Proof. auto. Qed.

Lemma wp_raise {A} c msg (Q : Res A -> State -> Prop) st :
  Q (Raise (mkExn c msg)) st -> wp (raise c msg) Q st.
Proof. auto. Qed.

Lemma wp_reraise {A} e (Q : Res A -> State -> Prop) st :
  Q (Raise e) st -> wp (reraise e) Q st.
Proof. auto. Qed.

Lemma wp_bind {A B} (m : M A) (f : A -> M B) Q st :
  wp m (fun r st1 =>
          match r with
          | Ok a => wp (f a) Q st1
          | Raise e => Q (Raise e) st1
          end) st ->
  wp (bind m f) Q st.
Proof. unfold wp, bind. destruct (m st) as [[a|e] st1]; auto. Qed.

Lemma wp_try_except {A} (m : M A) (h : Exn -> M A) Q st :
  wp m (fun r st1 =>
          match r with
          | Ok a => Q (Ok a) st1
          | Raise e => wp (h e) Q st1
          end) st ->
  wp (try_except m h) Q st.
Proof. unfold wp, try_except. destruct (m st) as [[a|e] st1]; auto. Qed.

(** The two ways a statement can end. *)
Lemma wp_session_sql env s Q st :
  (forall msg,
      respond env (List.length (trace st)) s = Raises msg ->
      Q (Raise (mkExn SnowparkSQLException msg)) (issued env s false st)) ->
  (forall c,
      respond env (List.length (trace st)) s = Rows c ->
      Q (Ok (fst (table_effect s c st))) (issued env s true (snd (table_effect s c st)))) ->
  wp (session_sql env s) Q st.
Proof.
  intros Hraise Hrows. unfold wp, session_sql.
  destruct (respond env (List.length (trace st)) s) as [msg|c] eqn:E.
  - now apply Hraise.
  - specialize (Hrows c eq_refl).
    destruct (table_effect s c st) as [c' st']. exact Hrows.
Qed.

(** A statement that goes through. *)
Lemma wp_session_sql_through env s Q st :
  goes_through s (respond env (List.length (trace st)) s) = true ->
  (forall c,
      respond env (List.length (trace st)) s = Rows c ->
      goes_through s (Rows c) = true ->
      Q (Ok (fst (table_effect s c st))) (issued env s true (snd (table_effect s c st)))) ->
  wp (session_sql env s) Q st.
Proof.
  intros Hgo Hrows. apply wp_session_sql.
  - intros msg E. rewrite E in Hgo. discriminate.
  - intros c E. apply Hrows; [exact E | now rewrite <- E].
Qed.

Lemma wp_datetime_now Q st : Q (Ok (now st)) st -> wp datetime_now Q st.
Proof. auto. Qed.

Lemma wp_self_workflow_id Q st : Q (Ok (workflow_id st)) st -> wp self_workflow_id Q st.
Proof. auto. Qed.

Lemma wp_self_agent_sequence Q st :
  Q (Ok (agent_sequence st)) st -> wp self_agent_sequence Q st.
Proof. auto. Qed.

Lemma wp_set_self_workflow_id v Q st :
  Q (Ok tt) (with_workflow_id v st) -> wp (set_self_workflow_id v) Q st.
Proof. auto. Qed.

Lemma wp_agent_sequence_append name Q st :
  Q (Ok tt) (with_agent_sequence (agent_sequence st ++ [name]) st) ->
  wp (agent_sequence_append name) Q st.
Proof. auto. Qed.

Lemma wp_first_cell rows Q st :
  (forall v, rows = Some v -> Q (Ok v) st) ->
  (rows = None -> Q (Raise (mkExn IndexError "list index out of range")) st) ->
  wp (first_cell rows) Q st.
Proof. destruct rows; unfold wp; simpl; auto. Qed.

Lemma wp_py_get_dict d k default Q st :
  Q (Ok (dict_get d k default)) st -> wp (py_get (VDict d) k default) Q st.
Proof. auto. Qed.

Lemma wp_format_2f_num z Q st : Q (Ok tt) st -> wp (format_2f (VNum z)) Q st.
Proof. auto. Qed.

Lemma wp_py_len_list l Q st : Q (Ok (List.length l)) st -> wp (py_len (VList l)) Q st.
Proof. auto. Qed.

(** Opens the next construct of a monadic program. *)
Ltac wp_head :=
  lazymatch goal with
  | |- wp (bind _ _) _ _ => apply wp_bind
  | |- wp (try_except _ _) _ _ => apply wp_try_except
  | |- wp (ret _) _ _ => apply wp_ret
  | |- wp (raise _ _) _ _ => apply wp_raise
  | |- wp (reraise _) _ _ => apply wp_reraise
  | |- wp datetime_now _ _ => apply wp_datetime_now
  | |- wp self_workflow_id _ _ => apply wp_self_workflow_id
  | |- wp self_agent_sequence _ _ => apply wp_self_agent_sequence
  | |- wp (set_self_workflow_id _) _ _ => apply wp_set_self_workflow_id
  | |- wp (agent_sequence_append _) _ _ => apply wp_agent_sequence_append
  | |- wp (py_item ?d ?k) _ _ => unfold py_item; simpl (dict_lookup d k)
  | |- wp (py_get (VDict _) _ _) _ _ => apply wp_py_get_dict
  | |- wp (format_2f (VNum _)) _ _ => apply wp_format_2f_num
  | |- wp (py_len (VList _)) _ _ => apply wp_py_len_list
  end; cbv beta iota.

Ltac wp_pure := repeat wp_head.

(** ** Framing: what a piece of code leaves alone *)

Section Frames.

Variable R : State -> State -> Prop.
Hypothesis R_refl : forall st, R st st.
Hypothesis R_trans : forall a b c, R a b -> R b c -> R a c.

Lemma frames_pure {A} (m : M A) : (forall st, snd (m st) = st) -> frames R m.
Proof. intros H st. rewrite H. apply R_refl. Qed.

Lemma frames_ret {A} (a : A) : frames R (ret a).
Proof. now apply frames_pure. Qed.

Lemma frames_raise {A} c msg : frames R (@raise A c msg).
Proof. now apply frames_pure. Qed.

Lemma frames_reraise {A} e : frames R (@reraise A e).
Proof. now apply frames_pure. Qed.

Lemma frames_bind {A B} (m : M A) (f : A -> M B) :
  frames R m -> (forall a, frames R (f a)) -> frames R (bind m f).
Proof.
  intros Hm Hf st. unfold bind. specialize (Hm st).
  destruct (m st) as [[a|e] st1]; simpl in *.
  - eapply R_trans; [exact Hm | apply Hf].
  - exact Hm.
Qed.

Lemma frames_try_except {A} (m : M A) (h : Exn -> M A) :
  frames R m -> (forall e, frames R (h e)) -> frames R (try_except m h).
Proof.
  intros Hm Hh st. unfold try_except. specialize (Hm st).
  destruct (m st) as [[a|e] st1]; simpl in *.
  - exact Hm.
  - eapply R_trans; [exact Hm | apply Hh].
Qed.

Lemma frames_first_cell rows : frames R (first_cell rows).
Proof. destruct rows; [apply frames_ret | apply frames_raise]. Qed.

Lemma frames_py_get v k d : frames R (py_get v k d).
Proof. destruct v; first [apply frames_ret | apply frames_raise]. Qed.

Lemma frames_py_item d k : frames R (py_item d k).
Proof. unfold py_item. destruct (dict_lookup d k); [apply frames_ret | apply frames_raise]. Qed.

Lemma frames_format_2f v : frames R (format_2f v).
Proof. destruct v; first [apply frames_ret | apply frames_raise]. Qed.

Lemma frames_py_len v : frames R (py_len v).
Proof. destruct v; first [apply frames_ret | apply frames_raise]. Qed.

Lemma frames_datetime_now : frames R datetime_now.
Proof. now apply frames_pure. Qed.

Lemma frames_self_workflow_id : frames R self_workflow_id.
Proof. now apply frames_pure. Qed.

Lemma frames_self_agent_sequence : frames R self_agent_sequence.
Proof. now apply frames_pure. Qed.

Lemma frames_check_agent_result env label v : frames R (check_agent_result env label v).
Proof.
  unfold check_agent_result.
  repeat first
    [ apply frames_bind; [| intros ?]
    | apply frames_py_get | apply frames_format_2f
    | apply frames_ret | apply frames_raise
    | match goal with |- frames R (if ?b then _ else _) => destruct b end ].
Qed.

End Frames.

(** Breaks a program into its statements; [leaf] closes the goals for the
    statements and for the calls to other methods. *)
Ltac frames_split Hrefl Htrans leaf :=
  repeat first
    [ leaf
    | apply (frames_bind _ Htrans); [| intros ?]
    | apply (frames_try_except _ Htrans); [| intros ?]
    | apply (frames_ret _ Hrefl) | apply (frames_raise _ Hrefl)
    | apply (frames_reraise _ Hrefl)
    | apply (frames_first_cell _ Hrefl) | apply (frames_py_get _ Hrefl)
    | apply (frames_py_item _ Hrefl)
    | apply (frames_format_2f _ Hrefl) | apply (frames_py_len _ Hrefl)
    | apply (frames_datetime_now _ Hrefl) | apply (frames_self_workflow_id _ Hrefl)
    | apply (frames_self_agent_sequence _ Hrefl)
    | apply (frames_check_agent_result _ Hrefl Htrans)
    | match goal with
      | |- frames _ (match ?x with _ => _ end) => destruct x
      end ].

Lemma frames_weaken (R R' : State -> State -> Prop) {A} (m : M A) :
  (forall a b, R a b -> R' a b) -> frames R m -> frames R' m.
Proof. intros H Hm st. apply H, Hm. Qed.

Lemma quiet_refl st : quiet st st.
Proof. repeat split. exists []. now rewrite app_nil_r. Qed.

Lemma quiet_trans a b c : quiet a b -> quiet b c -> quiet a c.
Proof.
  intros (W1 & I1 & S1 & n1 & T1 & Q1) (W2 & I2 & S2 & n2 & T2 & Q2).
  repeat split; try congruence.
  exists (n1 ++ n2). split.
  - now rewrite T2, T1, app_assoc.
  - now rewrite status_writes_app, Q1, Q2.
Qed.

Lemma silent_refl st : silent st st.
Proof. repeat split. exists []. now rewrite app_nil_r. Qed.

Lemma silent_trans a b c : silent a b -> silent b c -> silent a c.
Proof.
  intros (W1 & I1 & n1 & T1 & Q1) (W2 & I2 & n2 & T2 & Q2).
  repeat split; try congruence.
  exists (n1 ++ n2). split.
  - now rewrite T2, T1, app_assoc.
  - now rewrite status_writes_app, Q1, Q2.
Qed.

Lemma quiet_silent a b : quiet a b -> silent a b.
Proof. intros (W & I & _ & T). now repeat split. Qed.

(** A statement that is not on WORKFLOW_EXECUTIONS leaves that table and
    the orchestrator object alone, whether it raises or not. *)
Lemma quiet_session_sql env s :
  target s <> WorkflowTable -> frames quiet (session_sql env s).
Proof.
  intros Hs st. unfold session_sql.
  destruct (respond env (List.length (trace st)) s) as [msg|c].
  - simpl. repeat split. exists [(s, false)]. split; [reflexivity|].
    destruct s; simpl; try reflexivity; now elim Hs.
  - destruct (table_effect s c st) as [c' st'] eqn:E. simpl.
    assert (workflow_executions st' = workflow_executions st
            /\ workflow_id st' = workflow_id st
            /\ agent_sequence st' = agent_sequence st
            /\ trace st' = trace st) as (W & I & S & T).
    { destruct s; simpl in E; inversion E; subst; simpl; auto; now elim Hs. }
    repeat split; auto.
    exists [(s, true)]. simpl. rewrite T. split; [reflexivity|].
    destruct s; simpl; try reflexivity; now elim Hs.
Qed.

Ltac quiet_split leaf := frames_split quiet_refl quiet_trans leaf.
Ltac silent_split leaf := frames_split silent_refl silent_trans leaf.

Ltac quiet_sql := apply quiet_session_sql; discriminate.

Lemma quiet_record_agent_metrics env name eid d outcome :
  frames quiet (_record_agent_metrics env name eid d outcome).
Proof. unfold _record_agent_metrics. quiet_split quiet_sql. Qed.

Lemma quiet_call_agent_procedure env fn params :
  frames quiet (_call_agent_procedure env fn params).
Proof. unfold _call_agent_procedure. quiet_split quiet_sql. Qed.

(** The step executor never touches the workflow record or the instance. *)
Lemma quiet_execute_agent env name fn params :
  frames quiet (_execute_agent env name fn params).
Proof.
  unfold _execute_agent.
  quiet_split ltac:(first [ apply quiet_record_agent_metrics
                          | apply quiet_call_agent_procedure
                          | quiet_sql ]).
Qed.

Lemma quiet_generate_workflow_summary env results :
  frames quiet (_generate_workflow_summary env results).
Proof. unfold _generate_workflow_summary. quiet_split quiet_sql. Qed.

Lemma silent_agent_sequence_append name : frames silent (agent_sequence_append name).
Proof.
  intros st. simpl. repeat split. exists []. now rewrite app_nil_r.
Qed.

Lemma silent_execute_agent env name fn params :
  frames silent (_execute_agent env name fn params).
Proof. eapply frames_weaken; [apply quiet_silent | apply quiet_execute_agent]. Qed.

(** Running the steps of any workflow type writes no workflow status. *)
Lemma silent_dispatch env stage_path target_schema target_table workflow_type :
  frames silent (dispatch env stage_path target_schema target_table workflow_type).
Proof.
  unfold dispatch, _execute_full_onboarding, _execute_profiling_only, _execute_mapping_only.
  silent_split ltac:(first
    [ apply silent_execute_agent
    | apply silent_agent_sequence_append
    | eapply frames_weaken;
      [apply quiet_silent | apply quiet_generate_workflow_summary] ]).
Qed.

(** Puts a state reached by symbolic execution back in field-by-field form. *)
Ltac st_simpl :=
  cbn [table_effect fst snd issued with_log with_next_id with_workflows with_metrics
       with_workflow_id with_agent_sequence workflow_executions agent_execution_log
       agent_metrics next_id now trace workflow_id agent_sequence
       find option_map update_where map ex_id ex_workflow ex_agent ex_status ex_output
       ex_error wf_id wf_status wf_error wf_type wf_agent_sequence wf_duration wf_end
       is_initiated set_wf_status wf_complete wf_fail ex_complete ex_fail returned] in *.

(** Recording metrics always returns, and only adds to the metrics table. *)
Lemma wp_record_agent_metrics env name eid d outcome Q st :
  (forall st',
      workflow_executions st' = workflow_executions st ->
      agent_execution_log st' = agent_execution_log st ->
      workflow_id st' = workflow_id st ->
      agent_sequence st' = agent_sequence st ->
      (exists s ok, target s = MetricsTable /\ trace st' = trace st ++ [(s, ok)]) ->
      Q (Ok tt) st') ->
  wp (_record_agent_metrics env name eid d outcome) Q st.
Proof.
  intros HQ. unfold _record_agent_metrics.
  apply wp_try_except, wp_bind, wp_session_sql.
  - intros msg _. cbv beta iota. apply wp_ret, HQ; st_simpl; auto.
    do 2 eexists. split; [|reflexivity]. reflexivity.
  - intros c _. cbv beta iota. wp_pure. apply HQ; st_simpl; auto.
    do 2 eexists. split; [|reflexivity]. reflexivity.
Qed.

Lemma metrics_entry_silent (s : Stmt) (ok : bool) :
  target s = MetricsTable ->
  calls [(s, ok)] = [] /\ status_writes [(s, ok)] = [] /\ ai_requests [(s, ok)] = [].
Proof. destruct s, ok; simpl; intros; try discriminate; auto. Qed.

Lemma update_keeps_agents (b : LogRow -> bool) (f : LogRow -> LogRow) rows :
  (forall r, ex_agent (f r) = ex_agent r) ->
  map ex_agent (map (fun r => if b r then f r else r) rows) = map ex_agent rows.
Proof.
  intros Hf. rewrite map_map. apply map_ext. intros r. now destruct (b r).
Qed.

(** ** The step executor when the log statements go through *)

Lemma wp_execute_agent env name fn params Q st :
  log_store_ok env ->
  (forall v st',
      step_run env name fn
        (respond env (List.length (trace st) + 3) (call_statement env fn params)) st v st' ->
      Q (Ok v) st') ->
  wp (_execute_agent env name fn params) Q st.
Proof.
  intros Hlog HQ. unfold _execute_agent.
  wp_pure.
  apply wp_session_sql_through; [now apply Hlog|].
  intros [u|] _ Hu; [clear Hu | discriminate]. st_simpl.
  wp_pure. apply wp_first_cell; [intros ? _|discriminate]. wp_pure. st_simpl.
  apply wp_session_sql_through; [now apply Hlog|]. intros c1 _ _. st_simpl.
  wp_pure.
  apply wp_session_sql_through; [now apply Hlog|]. intros c2 _ _. st_simpl.
  rewrite value_eqb_refl, String.eqb_refl. st_simpl. cbn [andb].
  wp_pure. apply wp_first_cell; [intros eid Heid | discriminate].
  injection Heid as <-. wp_pure.
  unfold _call_agent_procedure, call_statement in *. wp_pure.
  apply wp_session_sql; st_simpl;
    rewrite !length_app; cbn [List.length];
    replace (List.length (trace st) + 1 + 1 + 1) with (List.length (trace st) + 3) by lia.
  - intros msg E. cbv beta iota. wp_pure.
    apply wp_session_sql_through; [now apply Hlog|]. intros c3 _ _. st_simpl.
    rewrite id_matches_refl. wp_pure.
    apply wp_record_agent_metrics. st_simpl.
    intros st' W L I S (s & ok & Hs & T). wp_pure.
    destruct (metrics_entry_silent s ok Hs) as (Mc & Ms & Ma).
    apply HQ. rewrite E. constructor; auto.
    + simpl. eauto.
    + eexists. rewrite T, <- !app_assoc. split; [reflexivity|].
      rewrite !calls_app, !status_writes_app, !ai_requests_app, Mc, Ms, Ma.
      repeat split; reflexivity.
    + do 2 eexists. rewrite L. split; [reflexivity|].
      split; [apply update_keeps_agents; intros []; reflexivity|].
      repeat split; reflexivity.
  - intros c E. cbv beta iota. 
    assert (Hc : forall Q' st0, Q' (Ok (returned c)) st0 ->
              wp (match c with Some c0 => ret c0 | None => ret (VDict []) end) Q' st0)
      by (intros; destruct c; assumption).
    apply Hc. clear Hc. wp_pure.
    apply wp_session_sql_through; [now apply Hlog|]. intros c3 _ _. st_simpl.
    rewrite id_matches_refl. wp_pure.
    apply wp_record_agent_metrics. st_simpl.
    intros st' W L I S (s & ok & Hs & T). wp_pure.
    destruct (metrics_entry_silent s ok Hs) as (Mc & Ms & Ma).
    apply HQ. rewrite E. constructor; auto.
    + reflexivity.
    + eexists. rewrite T, <- !app_assoc. split; [reflexivity|].
      rewrite !calls_app, !status_writes_app, !ai_requests_app, Mc, Ms, Ma.
      repeat split; reflexivity.
    + do 2 eexists. rewrite L. split; [reflexivity|].
      split; [apply update_keeps_agents; intros []; reflexivity|].
      repeat split; reflexivity.
Qed.

(** ** The controller *)

Lemma wp_any {A} (m : M A) (Q : Res A -> State -> Prop) st :
  (forall r st', Q r st') -> wp m Q st.
Proof. unfold wp. auto. Qed.

(** The guard after a step neither reads nor writes the state; it lets the
    run go on exactly for the results of [agent_result_ok]. *)
Lemma check_agent_result_ok env label v st :
  agent_result_ok v = true -> check_agent_result env label v st = (Ok tt, st).
Proof.
  destruct v as [| | | | |d]; try discriminate. unfold agent_result_ok.
  intros H. apply andb_prop in H as [Hs Hn].
  unfold check_agent_result, bind, py_get, ret.
  destruct (is_failed (dict_get d "status" VNone)); [discriminate|].
  destruct (dict_get d "execution_time_seconds" (VNum 0)); try discriminate; reflexivity.
Qed.

Lemma check_agent_result_stops env label v st :
  agent_result_ok v = false ->
  exists e, check_agent_result env label v st = (Raise e, st).
Proof.
  intros H. unfold check_agent_result, bind, py_get, ret, raise.
  destruct v as [| | | | |d]; try (eexists; reflexivity).
  unfold agent_result_ok in H.
  destruct (is_failed (dict_get d "status" VNone)); [eexists; reflexivity|].
  destruct (dict_get d "execution_time_seconds" (VNum 0));
    try discriminate; eexists; reflexivity.
Qed.

(** A result that reports its own failure stops the run with the wrapped
    error text. *)
Lemma check_agent_result_failed env label d st :
  is_failed (dict_get d "status" VNone) = true ->
  check_agent_result env label (VDict d) st =
  (Raise (mkExn PlainException
            (label ++ " agent failed: " ++ py_str env (dict_get d "error" VNone))%string), st).
Proof.
  intros H. unfold check_agent_result, bind, py_get, ret, raise. now rewrite H.
Qed.

Lemma wp_check_agent_result env label v Q st :
  (agent_result_ok v = true -> Q (Ok tt) st) ->
  (agent_result_ok v = false ->
   forall e, check_agent_result env label v st = (Raise e, st) -> Q (Raise e) st) ->
  wp (check_agent_result env label v) Q st.
Proof.
  intros Hok Hstop. unfold wp.
  destruct (agent_result_ok v) eqn:E.
  - rewrite check_agent_result_ok by exact E. now apply Hok.
  - destruct (check_agent_result_stops env label v st E) as [e He].
    rewrite He. now apply Hstop.
Qed.

Lemma failed_value_not_ok msg d :
  agent_result_ok (VDict [("status", VStr "FAILED"); ("error", VStr msg);
                          ("execution_time_seconds", VNum d)]) = false.
Proof. reflexivity. Qed.

(** A step result is acceptable to the controller exactly when the reply of
    its procedure was. *)
Lemma step_value_ok env reply v :
  step_value env reply v -> agent_result_ok v = reply_ok env reply.
Proof.
  destruct reply as [msg|c]; simpl.
  - intros [d ->]. reflexivity.
  - now intros ->.
Qed.

(** Walks through a program whose calls may end in any way. *)
Ltac wp_skim :=
  repeat first
    [ wp_head
    | apply wp_any; intros [?|?] ?; cbv beta iota; try exact I ].

(** Whatever the session does, the results a workflow hands back carry a
    numeric total duration. *)
Lemma dispatch_duration_numeric env stage_path target_schema target_table workflow_type st :
  wp (dispatch env stage_path target_schema target_table workflow_type)
     (fun r _ =>
        match r with
        | Ok results =>
            exists z, dict_get results "total_duration_seconds" (VNum 0) = VNum z
        | Raise _ => True
        end) st.
Proof.
  unfold dispatch.
  destruct (String.eqb workflow_type "ONBOARDING");
    [| destruct (String.eqb workflow_type "PROFILING_ONLY");
       [| destruct (String.eqb workflow_type "MAPPING_ONLY")]].
  - unfold _execute_full_onboarding. wp_skim. eexists. reflexivity.
  - unfold _execute_profiling_only. wp_skim. eexists. reflexivity.
  - unfold _execute_mapping_only. wp_skim. exact I.
  - wp_skim. exact I.
Qed.

Lemma wp_and {A} (m : M A) (Q1 Q2 : Res A -> State -> Prop) st :
  wp m Q1 st -> wp m Q2 st -> wp m (fun r st' => Q1 r st' /\ Q2 r st') st.
Proof. unfold wp. auto. Qed.

Lemma wp_frames (R : State -> State -> Prop) {A} (m : M A) st :
  frames R m -> wp m (fun _ st' => R st st') st.
Proof. intros H. apply H. Qed.

(** When the workflow table takes its statements, the run gets to its
    [try] block with a record of its own, IN_PROGRESS. *)
Lemma wp_execute_onboarding_workflow env stage_path target_schema target_table
  workflow_type Q st :
  workflow_store_ok env ->
  (forall st1,
      started workflow_type stage_path target_schema st st1 ->
      wp (guarded_run env stage_path target_schema target_table workflow_type) Q st1) ->
  wp (execute_onboarding_workflow env stage_path target_schema target_table workflow_type)
     Q st.
Proof.
  intros Hwf HQ. unfold execute_onboarding_workflow, _initialize_workflow.
  wp_pure.
  apply wp_session_sql_through; [now apply Hwf|]. intros c0 _ _. st_simpl. wp_pure.
  apply wp_session_sql_through; [now apply Hwf|]. intros c1 _ _. st_simpl. wp_pure.
  apply wp_first_cell; [intros wid Hwid | discriminate]. injection Hwid as <-.
  wp_pure.
  apply wp_session_sql_through; [now apply Hwf|]. intros c2 _ _. st_simpl.
  rewrite id_matches_refl. wp_pure.
  apply HQ. constructor; st_simpl; try reflexivity.
  now rewrite <- !app_assoc.
Qed.

(** When the workflow table takes its statements, the [try] block ends in
    exactly one terminal write: COMPLETED after results, FAILED after an
    error, which is then raised again. *)
Lemma wp_guarded_run env stage_path target_schema target_table workflow_type Q st :
  workflow_store_ok env ->
  wp (dispatch env stage_path target_schema target_table workflow_type)
     (fun r st2 =>
        match r with
        | Ok results => Q (Ok results) (completed_state env results st2)
        | Raise e => Q (Raise e) (failed_state env e st2)
        end) st ->
  wp (guarded_run env stage_path target_schema target_table workflow_type) Q st.
Proof.
  intros Hwf HQ. unfold guarded_run.
  apply wp_try_except, wp_bind.
  eapply wp_conseq; [apply wp_and; [exact HQ | apply dispatch_duration_numeric]|].
  intros [results|e] st2; cbv beta iota.
  - intros [H [z Hz]]. unfold _complete_workflow. wp_pure.
    apply wp_session_sql_through; [now apply Hwf|]. intros c _ _. wp_pure.
    rewrite Hz. unfold format_2f. wp_pure. rewrite <- Hz. exact H.
  - intros [H _]. unfold _fail_workflow. wp_pure.
    apply wp_session_sql_through; [now apply Hwf|]. intros c _ _. wp_pure.
    exact H.
Qed.

(** Whatever the session does, the [try] block writes at most one status,
    and that one is terminal. *)
Lemma guarded_run_status env stage_path target_schema target_table workflow_type st :
  wp (guarded_run env stage_path target_schema target_table workflow_type)
     (fun _ st' =>
        exists new, trace st' = trace st ++ new
                    /\ (status_writes new = []
                        \/ exists t, terminal t = true /\ status_writes new = [t])) st.
Proof.
  unfold guarded_run. apply wp_try_except, wp_bind.
  eapply wp_conseq;
    [apply wp_and; [apply (wp_frames silent), silent_dispatch
                   | apply dispatch_duration_numeric]|].
  assert (Hfail : forall e st2 new,
             trace st2 = trace st ++ new -> status_writes new = [] ->
             wp (_fail_workflow env (exn_msg e);;; @reraise Dict e)
                (fun _ st' =>
                   exists new, trace st' = trace st ++ new
                               /\ (status_writes new = []
                                   \/ exists t, terminal t = true
                                                /\ status_writes new = [t])) st2).
  { intros e st2 new T S. unfold _fail_workflow. wp_pure.
    apply wp_session_sql; intros; wp_pure; st_simpl; rewrite T, <- app_assoc;
      eexists; (split; [reflexivity|]); rewrite status_writes_app, S; simpl.
    - now left.
    - right. now exists FAILED. }
  intros [results|e] st2; cbv beta iota.
  - intros [(_ & _ & new & T & S) [z Hz]]. unfold _complete_workflow. wp_pure.
    apply wp_session_sql.
    + intros msg _. cbv beta iota.
      apply (Hfail _ _ (new ++ [(UpdateWorkflowCompleted (workflow_id st2)
                                   (dict_get results "total_duration_seconds" (VNum 0))
                                   (agent_sequence st2), false)])).
      * st_simpl. now rewrite T, app_assoc.
      * now rewrite status_writes_app, S.
    + intros c _. wp_pure. rewrite Hz. unfold format_2f. wp_pure. st_simpl.
      rewrite T, <- app_assoc. eexists. split; [reflexivity|].
      rewrite status_writes_app, S. right. now exists COMPLETED.
  - intros [(_ & _ & new & T & S) _]. now apply Hfail with new.
Qed.

(** ** The status lifecycle of one run *)

Lemma run_status_lifecycle env stage_path target_schema target_table workflow_type st :
  wp (execute_onboarding_workflow env stage_path target_schema target_table workflow_type)
     (fun _ st' =>
        exists new, trace st' = trace st ++ new /\ lifecycle (status_writes new)) st.
Proof.
  unfold execute_onboarding_workflow, _initialize_workflow. wp_pure.
  apply wp_session_sql.
  { intros msg _. st_simpl. eexists. split; [reflexivity|]. constructor. }
  intros c0 _. wp_pure. apply wp_session_sql.
  { intros msg _. st_simpl. rewrite <- app_assoc. eexists. split; [reflexivity|].
    constructor. }
  intros c1 _. wp_pure. apply wp_first_cell.
  2:{ intros _. st_simpl. rewrite <- app_assoc. eexists. split; [reflexivity|].
      constructor. }
  intros wid _. wp_pure. apply wp_session_sql.
  { intros msg _. st_simpl. rewrite <- !app_assoc. eexists. split; [reflexivity|].
    constructor. }
  intros c2 _. wp_pure.
  eapply wp_conseq; [apply guarded_run_status|].
  intros r st' (new & T & S). rewrite T. st_simpl. rewrite <- !app_assoc.
  eexists. split; [reflexivity|]. cbn [app].
  cbn [status_writes status_written].
  destruct S as [-> | (t & Ht & ->)]; now constructor.
Qed.

Lemma run_status_terminal env stage_path target_schema target_table workflow_type st :
  workflow_store_ok env ->
  wp (execute_onboarding_workflow env stage_path target_schema target_table workflow_type)
     (fun r st' =>
        exists new, trace st' = trace st ++ new
                    /\ status_writes new =
                       [INITIATED; IN_PROGRESS;
                        match r with Ok _ => COMPLETED | Raise _ => FAILED end]) st.
Proof.
  intros Hwf. apply wp_execute_onboarding_workflow; [exact Hwf|].
  intros st1 [_ _ _ _ T1]. apply wp_guarded_run; [exact Hwf|].
  eapply wp_conseq; [apply (wp_frames silent), silent_dispatch|].
  intros [results|e] st2 (_ & _ & new & T & S); cbv beta iota;
    unfold completed_state, failed_state; st_simpl;
    rewrite T, T1, <- !app_assoc; (eexists; split; [reflexivity|]);
    cbn [app]; cbn [status_writes status_written];
    now rewrite status_writes_app, S.
Qed.

(** C8: within one run the status of the workflow record only moves along
    INITIATED, IN_PROGRESS, then COMPLETED or FAILED: whatever the session
    does, the values the run writes to the status column are an initial part
    of that sequence, so nothing is written after a terminal value; and when
    the workflow table takes its statements there is exactly one terminal
    write. *)
Theorem workflow_status_monotonic env stage_path target_schema target_table workflow_type st :
  exists new,
    trace (snd (execute_onboarding_workflow env stage_path target_schema target_table
                  workflow_type st)) = trace st ++ new
    /\ lifecycle (status_writes new)
    /\ (workflow_store_ok env ->
        exists t, terminal t = true
                  /\ status_writes new = [INITIATED; IN_PROGRESS; t]).
Proof.
  pose proof (run_status_lifecycle env stage_path target_schema target_table
                workflow_type st) as (new & T & L).
  exists new. repeat split; auto.
  intros Hwf.
  pose proof (run_status_terminal env stage_path target_schema target_table
                workflow_type st Hwf) as (new' & T' & S').
  rewrite T in T'. apply app_inv_head in T'. subst new'.
  eexists. split; [|exact S'].
  now destruct (fst _).
Qed.

Lemma wp_elim {A} (m : M A) (Q : Res A -> State -> Prop) st :
  wp m Q st -> exists r st', m st = (r, st') /\ Q r st'.
Proof. unfold wp. destruct (m st) as [r st']. eauto. Qed.

Lemma supported_false workflow_type :
  supported workflow_type = false ->
  String.eqb workflow_type "ONBOARDING" = false
  /\ String.eqb workflow_type "PROFILING_ONLY" = false
  /\ String.eqb workflow_type "MAPPING_ONLY" = false.
Proof.
  unfold supported. intros H.
  apply orb_false_elim in H as [H H3]. apply orb_false_elim in H as [H1 H2]. auto.
Qed.

Lemma update_where_length {R} (key : R -> nat) v f (rows : list R) :
  List.length (update_where key v f rows) = List.length rows.
Proof. apply length_map. Qed.

(** The record of a run that has started, after its FAILED write. *)
Lemma failed_record env e workflow_type stage_path target_schema st st1 st2 :
  started workflow_type stage_path target_schema st st1 ->
  workflow_executions st2 = workflow_executions st1 ->
  workflow_id st2 = workflow_id st1 ->
  exists r,
    workflow_record (failed_state env e st2) (workflow_id (failed_state env e st2)) = Some r
    /\ wf_id r = next_id st /\ wf_type r = workflow_type
    /\ wf_status r = FAILED /\ wf_error r = Some (exn_msg e)
    /\ wf_end r = Some (now st2)
    /\ wf_agent_sequence r = None /\ wf_duration r = None.
Proof.
  intros [I W _ _ _] W2 I2. unfold workflow_record, failed_state. st_simpl.
  rewrite W2, I2, W, I. st_simpl. rewrite id_matches_refl. st_simpl.
  rewrite id_matches_refl. eexists. split; [reflexivity|]. st_simpl. auto 10.
Qed.

(** C1, as the code has it: an unsupported workflow type makes the entry
    point fail with the unknown-type error, but only after the record of the
    run was created and advanced to IN_PROGRESS; the record is then persisted
    as FAILED with the error text, and no step is invoked. *)
Theorem unknown_workflow_type_fails_after_record env stage_path target_schema target_table
  workflow_type st :
  workflow_store_ok env ->
  supported workflow_type = false ->
  exists st' new r,
    execute_onboarding_workflow env stage_path target_schema target_table workflow_type st
    = (Raise (mkExn ValueError ("Unknown workflow type: " ++ workflow_type)%string), st')
    /\ trace st' = trace st ++ new /\ calls new = []
    /\ List.length (workflow_executions st') = S (List.length (workflow_executions st))
    /\ workflow_record st' (workflow_id st') = Some r
    /\ wf_type r = workflow_type
    /\ wf_status r = FAILED
    /\ wf_error r = Some ("Unknown workflow type: " ++ workflow_type)%string.
Proof.
  intros Hwf Hun. destruct (supported_false _ Hun) as (E1 & E2 & E3).
  assert (H : wp (execute_onboarding_workflow env stage_path target_schema target_table
                    workflow_type)
                (fun res st' =>
                   res = Raise (mkExn ValueError
                                  ("Unknown workflow type: " ++ workflow_type)%string)
                   /\ exists new r,
                       trace st' = trace st ++ new /\ calls new = []
                       /\ List.length (workflow_executions st')
                          = S (List.length (workflow_executions st))
                       /\ workflow_record st' (workflow_id st') = Some r
                       /\ wf_type r = workflow_type
                       /\ wf_status r = FAILED
                       /\ wf_error r
                          = Some ("Unknown workflow type: " ++ workflow_type)%string) st).
  { apply wp_execute_onboarding_workflow; [exact Hwf|]. intros st1 S1.
    apply wp_guarded_run; [exact Hwf|].
    unfold dispatch. rewrite E1, E2, E3. wp_pure. split; [reflexivity|].
    destruct (failed_record env
                (mkExn ValueError ("Unknown workflow type: " ++ workflow_type)%string)
                _ _ _ st st1 st1 S1 eq_refl eq_refl)
      as (r & Hr & _ & Ht & Hs & He & _).
    destruct S1 as [I W _ _ T].
    eexists _, r. repeat split; try eassumption.
    - unfold failed_state. st_simpl. rewrite T, <- app_assoc. reflexivity.
    - reflexivity.
    - unfold failed_state. st_simpl.
      rewrite update_where_length, W. simpl. now rewrite update_where_length. }
  apply wp_elim in H as (res & st' & E & -> & new & r & H).
  exists st', new, r. now split.
Qed.

(** ** Runs of the ONBOARDING plan *)

(** Runs the step the program is at. *)
Ltac run_step Hlog v st' R :=
  apply wp_execute_agent; [exact Hlog|]; intros v st' R; cbv beta iota; wp_pure.

Lemma procedure_succeeds_value env name reply_index args v :
  procedure_succeeds env name ->
  step_value env (respond env reply_index (CallProcedure name args)) v ->
  agent_result_ok v = true.
Proof. intros H V. rewrite (step_value_ok _ _ _ V). apply H. Qed.

Lemma procedure_fails_value env name reply_index args v :
  procedure_fails env name ->
  step_value env (respond env reply_index (CallProcedure name args)) v ->
  agent_result_ok v = false.
Proof. intros H V. rewrite (step_value_ok _ _ _ V). apply H. Qed.

(** C5, as the code has it: in an ONBOARDING run where PROFILING succeeds
    and DICTIONARY fails, the controller stops at once: the procedures called
    are the profiling one and the dictionary one, each once, so MAPPING is
    never invoked and nothing is retried; the run ends in an error with its
    record FAILED.  The steps attempted are PROFILING then DICTIONARY in the
    entries the run adds to the execution log and in what it appends to the
    list of the instance (its whole list on a new orchestrator); the record
    itself gets no step sequence: the column stays NULL and reads back as
    the empty list. *)
Theorem dictionary_failure_stops_onboarding env stage_path target_schema target_table st :
  record_store_ok env ->
  procedure_succeeds env "SP_AGENT_PROFILE" ->
  procedure_fails env "SP_AGENT_DICTIONARY" ->
  exists e st' new r,
    execute_onboarding_workflow env stage_path target_schema target_table "ONBOARDING" st
    = (Raise e, st')
    /\ trace st' = trace st ++ new
    /\ calls new = ["SP_AGENT_PROFILE"; "SP_AGENT_DICTIONARY"]
    /\ agent_sequence st' = agent_sequence st ++ ["PROFILING"; "DICTIONARY"]
    /\ map ex_agent (agent_execution_log st')
       = "DICTIONARY" :: "PROFILING" :: map ex_agent (agent_execution_log st)
    /\ workflow_record st' (workflow_id st') = Some r
    /\ wf_status r = FAILED
    /\ wf_error r = Some (exn_msg e)
    /\ (agent_sequence st = [] -> agent_sequence st' = ["PROFILING"; "DICTIONARY"])
    /\ wf_agent_sequence r = None
    /\ persisted_step_sequence r = [].
Proof.
  intros [Hlog Hwf] Hprof Hdict.
  assert (H : wp (execute_onboarding_workflow env stage_path target_schema target_table
                    "ONBOARDING")
                (fun res st' =>
                   exists e new r,
                     res = Raise e
                     /\ trace st' = trace st ++ new
                     /\ calls new = ["SP_AGENT_PROFILE"; "SP_AGENT_DICTIONARY"]
                     /\ agent_sequence st' = agent_sequence st ++ ["PROFILING"; "DICTIONARY"]
                     /\ map ex_agent (agent_execution_log st')
                        = "DICTIONARY" :: "PROFILING"
                          :: map ex_agent (agent_execution_log st)
                     /\ workflow_record st' (workflow_id st') = Some r
                     /\ wf_status r = FAILED
                     /\ wf_error r = Some (exn_msg e)
                     /\ (agent_sequence st = [] ->
                         agent_sequence st' = ["PROFILING"; "DICTIONARY"])
                     /\ wf_agent_sequence r = None
                     /\ persisted_step_sequence r = []) st).
  { apply wp_execute_onboarding_workflow; [exact Hwf|]. intros st1 S1.
    apply wp_guarded_run; [exact Hwf|].
    unfold dispatch. simpl (String.eqb "ONBOARDING" "ONBOARDING"). cbv iota.
    unfold _execute_full_onboarding. wp_pure.
    run_step Hlog v1 st2 R1.
    destruct R1 as [V1 W1 I1 Q1 (new1 & T1 & C1 & _ & _)
                      (row1 & rest1 & L1 & M1 & N1 & _ & _)]; st_simpl.
    apply wp_check_agent_result;
      [intros _ | intros F; now rewrite (procedure_succeeds_value _ _ _ _ _ Hprof V1) in F].
    wp_pure.
    run_step Hlog v2 st3 R2.
    destruct R2 as [V2 W2 I2 Q2 (new2 & T2 & C2 & _ & _)
                      (row2 & rest2 & L2 & M2 & N2 & _ & _)]; st_simpl.
    apply wp_check_agent_result;
      [intros F; now rewrite (procedure_fails_value _ _ _ _ _ Hdict V2) in F | intros _ e _].
    destruct (failed_record env e _ _ _ st st1
                (with_agent_sequence (agent_sequence st3 ++ ["DICTIONARY"]) st3) S1)
      as (r & Hr & _ & _ & Hs & He & _ & Hq & _); st_simpl; try congruence.
    destruct S1 as [I0 W0 L0 Q0 T0].
    exists e. eexists. exists r. split; [reflexivity|].
    unfold failed_state in *. st_simpl.
    repeat split; try assumption.
    - rewrite T2, T1, T0, <- !app_assoc. reflexivity.
    - rewrite !calls_app, C1, C2. reflexivity.
    - rewrite Q2, Q1, Q0, <- app_assoc. reflexivity.
    - rewrite L2. simpl. rewrite N2, M2, L1. simpl. now rewrite N1, M1, L0.
    - intros Hnew. rewrite Q2, Q1, Q0, Hnew. reflexivity.
    - unfold persisted_step_sequence. now rewrite Hq. }
  apply wp_elim in H as (res & st' & E & e & new & r & -> & H).
  exists e, st', new, r. now split.
Qed.

(** Evaluates reads and writes on a dict whose keys are known. *)
Ltac dict_simpl :=
  cbn [dict_get dict_set dict_append dict_lookup String.eqb Ascii.eqb Bool.eqb andb app].

(** The record of a run that has started, after its COMPLETED write. *)
Lemma completed_record env results workflow_type stage_path target_schema st st1 st2 :
  started workflow_type stage_path target_schema st st1 ->
  workflow_executions st2 = workflow_executions st1 ->
  workflow_id st2 = workflow_id st1 ->
  exists r,
    workflow_record (completed_state env results st2)
      (workflow_id (completed_state env results st2)) = Some r
    /\ wf_id r = next_id st /\ wf_type r = workflow_type
    /\ wf_status r = COMPLETED /\ wf_error r = None
    /\ wf_agent_sequence r = Some (agent_sequence st2)
    /\ wf_duration r = Some (dict_get results "total_duration_seconds" (VNum 0)).
Proof.
  intros [I W _ _ _] W2 I2. unfold workflow_record, completed_state. st_simpl.
  rewrite W2, I2, W, I. st_simpl. rewrite id_matches_refl. st_simpl.
  rewrite id_matches_refl. eexists. split; [reflexivity|]. st_simpl. auto 10.
Qed.

Lemma agent_result_ok_dict v :
  agent_result_ok v = true -> exists d, v = VDict d.
Proof. destruct v; try discriminate. eauto. Qed.

(** Scenario A: when the record store takes its statements and the three
    procedures succeed, an ONBOARDING run completes whatever the AI does: the
    three procedures are called in plan order, the record is COMPLETED with
    that sequence appended to the instance's, the AI is asked once, and the
    summary is the templated text whenever the AI statement raised. *)
Lemma onboarding_completes env stage_path target_schema target_table st :
  record_store_ok env ->
  procedure_succeeds env "SP_AGENT_PROFILE" ->
  procedure_succeeds env "SP_AGENT_DICTIONARY" ->
  procedure_succeeds env "SP_AGENT_MAPPING" ->
  exists results st' new r summary asked,
    execute_onboarding_workflow env stage_path target_schema target_table "ONBOARDING" st
    = (Ok results, st')
    /\ trace st' = trace st ++ new
    /\ calls new = ["SP_AGENT_PROFILE"; "SP_AGENT_DICTIONARY"; "SP_AGENT_MAPPING"]
    /\ workflow_record st' (workflow_id st') = Some r
    /\ wf_status r = COMPLETED
    /\ wf_agent_sequence r
       = Some (agent_sequence st ++ ["PROFILING"; "DICTIONARY"; "MAPPING"])
    /\ dict_lookup results "summary" = Some summary
    /\ ai_requests new = [asked]
    /\ (asked = false ->
        summary = VStr "Workflow completed with 3 agents executed.").
Proof.
  intros [Hlog Hwf] Hprof Hdict Hmap.
  assert (H : wp (execute_onboarding_workflow env stage_path target_schema target_table
                    "ONBOARDING")
                (fun res st' =>
                   exists results new r summary asked,
                     res = Ok results
                     /\ trace st' = trace st ++ new
                     /\ calls new
                        = ["SP_AGENT_PROFILE"; "SP_AGENT_DICTIONARY"; "SP_AGENT_MAPPING"]
                     /\ workflow_record st' (workflow_id st') = Some r
                     /\ wf_status r = COMPLETED
                     /\ wf_agent_sequence r
                        = Some (agent_sequence st ++ ["PROFILING"; "DICTIONARY"; "MAPPING"])
                     /\ dict_lookup results "summary" = Some summary
                     /\ ai_requests new = [asked]
                     /\ (asked = false ->
                         summary = VStr "Workflow completed with 3 agents executed.")) st).
  { apply wp_execute_onboarding_workflow; [exact Hwf|]. intros st1 S1.
    apply wp_guarded_run; [exact Hwf|].
    unfold dispatch. simpl (String.eqb "ONBOARDING" "ONBOARDING"). cbv iota.
    unfold _execute_full_onboarding. wp_pure.
    run_step Hlog v1 st2 R1.
    destruct R1 as [V1 W1 I1 Q1 (new1 & T1 & C1 & _ & A1) _]; st_simpl.
    apply wp_check_agent_result;
      [intros O1 | intros F; now rewrite (procedure_succeeds_value _ _ _ _ _ Hprof V1) in F].
    wp_pure.
    run_step Hlog v2 st3 R2.
    destruct R2 as [V2 W2 I2 Q2 (new2 & T2 & C2 & _ & A2) _]; st_simpl.
    apply wp_check_agent_result;
      [intros O2 | intros F; now rewrite (procedure_succeeds_value _ _ _ _ _ Hdict V2) in F].
    wp_pure.
    run_step Hlog v3 st4 R3.
    destruct R3 as [V3 W3 I3 Q3 (new3 & T3 & C3 & _ & A3) _]; st_simpl.
    apply wp_check_agent_result;
      [intros O3 | intros F; now rewrite (procedure_succeeds_value _ _ _ _ _ Hmap V3) in F].
    wp_pure.
    destruct (agent_result_ok_dict _ O1) as [d1 ->].
    destruct (agent_result_ok_dict _ O2) as [d2 ->].
    destruct (agent_result_ok_dict _ O3) as [d3 ->].
    unfold _generate_workflow_summary.
    dict_simpl. wp_pure.
    assert (Hend : forall summary asked s st5,
               is_ai_complete s = true ->
               st5 = issued env s asked
                       (with_agent_sequence (agent_sequence st4 ++ ["MAPPING"]) st4) ->
               (asked = false ->
                summary = VStr "Workflow completed with 3 agents executed.") ->
               forall results,
                 dict_lookup results "summary" = Some summary ->
                 exists results0 new r summary0 asked0,
                   Ok results = Ok results0
                   /\ trace (completed_state env results st5) = trace st ++ new
                   /\ calls new
                      = ["SP_AGENT_PROFILE"; "SP_AGENT_DICTIONARY"; "SP_AGENT_MAPPING"]
                   /\ workflow_record (completed_state env results st5)
                        (workflow_id (completed_state env results st5)) = Some r
                   /\ wf_status r = COMPLETED
                   /\ wf_agent_sequence r
                      = Some (agent_sequence st ++ ["PROFILING"; "DICTIONARY"; "MAPPING"])
                   /\ dict_lookup results0 "summary" = Some summary0
                   /\ ai_requests new = [asked0]
                   /\ (asked0 = false ->
                       summary0 = VStr "Workflow completed with 3 agents executed.")).
    { intros summary asked s st5 Hs -> Hsum results Hres.
      destruct (completed_record env results _ _ _ st st1
                  (issued env s asked
                     (with_agent_sequence (agent_sequence st4 ++ ["MAPPING"]) st4)) S1)
        as (r & Hr & _ & _ & Hst & _ & Hsq & _); st_simpl; try congruence.
      destruct S1 as [I0 W0 L0 Q0 T0].
      exists results. eexists. exists r, summary, asked.
      split; [reflexivity|]. unfold completed_state in *. st_simpl.
      split; [rewrite T3, T2, T1, T0, <- !app_assoc; reflexivity|].
      rewrite !calls_app, !ai_requests_app, C1, C2, C3, A1, A2, A3.
      destruct s; try discriminate. cbn.
      repeat split; try assumption.
      rewrite Hsq, Q3, Q2, Q1, Q0, <- !app_assoc. reflexivity. }
    apply wp_session_sql.
    - intros msg _. cbv beta iota. wp_pure.
      eapply Hend with (asked := false);
        [| reflexivity | intros _; reflexivity | reflexivity]; reflexivity.
    - intros c _. st_simpl. wp_pure. apply wp_first_cell.
      + intros v _. wp_pure.
        eapply Hend with (asked := true) (summary := v);
          [| reflexivity | discriminate | reflexivity]; reflexivity.
      + intros _. wp_pure.
        eapply Hend with (asked := true);
          [| reflexivity | intros _; reflexivity | reflexivity]; reflexivity. }
  apply wp_elim in H as (res & st' & E & results & new & r & summary & asked & -> & H).
  exists results, st', new, r, summary, asked. now split.
Qed.

(** ** What a failed run leaves in its record *)

(** C6, as the code has it: when a run ends in an error and the workflow
    table takes its statements, the record of the run is FAILED, with its end
    time and with the text of the error that ended the run as error message;
    the step sequence and the duration are not written and stay unset. *)
Theorem failed_run_record env stage_path target_schema target_table workflow_type st e st' :
  workflow_store_ok env ->
  execute_onboarding_workflow env stage_path target_schema target_table workflow_type st
  = (Raise e, st') ->
  exists r,
    workflow_record st' (workflow_id st') = Some r
    /\ wf_type r = workflow_type
    /\ wf_status r = FAILED
    /\ wf_error r = Some (exn_msg e)
    /\ wf_end r <> None
    /\ wf_agent_sequence r = None
    /\ wf_duration r = None.
Proof.
  intros Hwf E.
  apply (wp_run _ (fun res st' =>
                     match res with
                     | Ok _ => True
                     | Raise e =>
                         exists r,
                           workflow_record st' (workflow_id st') = Some r
                           /\ wf_type r = workflow_type
                           /\ wf_status r = FAILED
                           /\ wf_error r = Some (exn_msg e)
                           /\ wf_end r <> None
                           /\ wf_agent_sequence r = None
                           /\ wf_duration r = None
                     end) _ _ _ E).
  apply wp_execute_onboarding_workflow; [exact Hwf|]. intros st1 S1.
  apply wp_guarded_run; [exact Hwf|].
  eapply wp_conseq; [apply (wp_frames silent), silent_dispatch|].
  intros [results|e0] st2 (W & Hid & _); [exact I|].
  destruct (failed_record env e0 _ _ _ st st1 st2 S1 W Hid)
    as (r & Hr & _ & Ht & Hs & He & Hend & Hq & Hd).
  exists r. repeat split; try assumption. now rewrite Hend.
Qed.

(** A step whose procedure returns a payload that reports its own failure:
    the payload is what the step hands back, and its log entry is COMPLETED
    with the payload as output. *)
Lemma reported_failure_value env reply_index name args c d v :
  respond env reply_index (CallProcedure name args) = Rows c ->
  parse_result env (returned c) = VDict d ->
  step_value env (respond env reply_index (CallProcedure name args)) v ->
  v = VDict d.
Proof. intros -> Hd V. simpl in V. congruence. Qed.

(** ** The step executor, stated on its own *)

(** C3, as the code has it: when the statements of the step on the execution
    log go through, the step executor never raises, whatever the procedure
    does: it hands back the parsed payload when the call returns, and the
    FAILED dict with the error text and the duration when the call raises;
    the log entry ends COMPLETED or FAILED accordingly. *)
Theorem execute_agent_returns_value env name fn params st :
  log_store_ok env ->
  exists v st',
    _execute_agent env name fn params st = (Ok v, st')
    /\ step_run env name fn
         (respond env (List.length (trace st) + 3) (call_statement env fn params))
         st v st'.
Proof.
  intros Hlog.
  assert (H : wp (_execute_agent env name fn params)
                (fun res st' =>
                   exists v,
                     res = Ok v
                     /\ step_run env name fn
                          (respond env (List.length (trace st) + 3)
                             (call_statement env fn params)) st v st') st).
  { apply wp_execute_agent; [exact Hlog|]. intros v st' R. eauto. }
  apply wp_elim in H as (res & st' & E & v & -> & R). eauto.
Qed.

(** ** PROFILING_ONLY *)

(** C2 on the code: a PROFILING_ONLY run whose profiling procedure raises
    still ends COMPLETED.  The step's log entry is FAILED and the result
    handed back for the step carries status 'FAILED', but
    [_execute_profiling_only] never looks at it. *)
Theorem profiling_only_failure_recorded_completed env stage_path target_schema
  target_table st :
  record_store_ok env ->
  procedure_raises env "SP_AGENT_PROFILE" ->
  exists results st' row rest r d,
    execute_onboarding_workflow env stage_path target_schema target_table
      "PROFILING_ONLY" st = (Ok results, st')
    /\ agent_execution_log st' = row :: rest
    /\ ex_agent row = "PROFILING"
    /\ ex_workflow row = workflow_id st'
    /\ ex_status row = LOG_FAILED
    /\ dict_lookup results "profiling" = Some (VDict d)
    /\ is_failed (dict_get d "status" VNone) = true
    /\ workflow_record st' (workflow_id st') = Some r
    /\ wf_status r = COMPLETED
    /\ wf_agent_sequence r = Some (agent_sequence st ++ ["PROFILING"]).
Proof.
  intros [Hlog Hwf] Hraise.
  assert (H : wp (execute_onboarding_workflow env stage_path target_schema target_table
                    "PROFILING_ONLY")
                (fun res st' =>
                   exists results row rest r d,
                     res = Ok results
                     /\ agent_execution_log st' = row :: rest
                     /\ ex_agent row = "PROFILING"
                     /\ ex_workflow row = workflow_id st'
                     /\ ex_status row = LOG_FAILED
                     /\ dict_lookup results "profiling" = Some (VDict d)
                     /\ is_failed (dict_get d "status" VNone) = true
                     /\ workflow_record st' (workflow_id st') = Some r
                     /\ wf_status r = COMPLETED
                     /\ wf_agent_sequence r = Some (agent_sequence st ++ ["PROFILING"])) st).
  { apply wp_execute_onboarding_workflow; [exact Hwf|]. intros st1 S1.
    apply wp_guarded_run; [exact Hwf|].
    unfold dispatch. simpl (String.eqb "PROFILING_ONLY" _). cbv iota.
    unfold _execute_profiling_only. wp_pure.
    run_step Hlog v1 st2 R1.
    destruct R1 as [V1 W1 I1 Q1 _ (row1 & rest1 & L1 & _ & N1 & X1 & G1)]; st_simpl.
    unfold call_statement in V1, G1.
    destruct (Hraise (List.length (trace st1) + 3)
                (map (fun kv => param_value env (snd kv))
                   [("stage_path", VStr stage_path); ("sample_size", VNum 10000);
                    ("file_format", VStr "CSV_FORMAT")])) as (msg & Hmsg).
    rewrite Hmsg in V1, G1. simpl in V1, G1. destruct V1 as [dur ->].
    destruct G1 as [Gs Ge].
    match goal with
    | |- context [completed_state env ?res ?s] =>
        destruct (completed_record env res _ _ _ st st1 s S1)
          as (r & Hr & _ & _ & Hs & _ & Hq & _)
    end; st_simpl; try congruence.
    destruct S1 as [I0 W0 L0 Q0 T0].
    eexists. exists row1, rest1, r. eexists. split; [reflexivity|].
    unfold completed_state in *. st_simpl.
    repeat split; try assumption; try reflexivity; try congruence. }
  apply wp_elim in H as (res & st' & E & results & row & rest & r & d & -> & H).
  exists results, st', row, rest, r, d. now split.
Qed.

(** ** The metrics sink *)

Lemma same_but_metrics_refl st : same_but_metrics st st.
Proof. repeat split. Qed.

Lemma sim_ret {A} (a : A) : sim (ret a) (ret a).
Proof. intros x y H. now split. Qed.

Lemma sim_raise {A} c msg : sim (@raise A c msg) (raise c msg).
Proof. intros x y H. now split. Qed.

Lemma sim_reraise {A} e : sim (@reraise A e) (reraise e).
Proof. intros x y H. now split. Qed.

Lemma sim_bind {A B} (m1 m2 : M A) (f1 f2 : A -> M B) :
  sim m1 m2 -> (forall a, sim (f1 a) (f2 a)) -> sim (bind m1 f1) (bind m2 f2).
Proof.
  intros Hm Hf x y H. unfold bind. destruct (Hm x y H) as [Hr Hs].
  destruct (m1 x) as [[a|e] x1], (m2 y) as [[a'|e'] y1]; simpl in *;
    try discriminate.
  - injection Hr as <-. now apply Hf.
  - injection Hr as <-. now split.
Qed.

Lemma sim_try_except {A} (m1 m2 : M A) (h1 h2 : Exn -> M A) :
  sim m1 m2 -> (forall e, sim (h1 e) (h2 e)) ->
  sim (try_except m1 h1) (try_except m2 h2).
Proof.
  intros Hm Hh x y H. unfold try_except. destruct (Hm x y H) as [Hr Hs].
  destruct (m1 x) as [[a|e] x1], (m2 y) as [[a'|e'] y1]; simpl in *;
    try discriminate.
  - injection Hr as <-. now split.
  - injection Hr as <-. now apply Hh.
Qed.

Lemma sim_first_cell rows : sim (first_cell rows) (first_cell rows).
Proof. destruct rows; [apply sim_ret | apply sim_raise]. Qed.

Lemma sim_py_get v k d : sim (py_get v k d) (py_get v k d).
Proof. destruct v; first [apply sim_ret | apply sim_raise]. Qed.

Lemma sim_py_item d k : sim (py_item d k) (py_item d k).
Proof. unfold py_item. destruct (dict_lookup d k); [apply sim_ret | apply sim_raise]. Qed.

Lemma sim_format_2f v : sim (format_2f v) (format_2f v).
Proof. destruct v; first [apply sim_ret | apply sim_raise]. Qed.

Lemma sim_py_len v : sim (py_len v) (py_len v).
Proof. destruct v; first [apply sim_ret | apply sim_raise]. Qed.

Lemma sim_datetime_now : sim datetime_now datetime_now.
Proof. intros x y H. split; [|exact H]. destruct H as (_ & _ & _ & N & _). simpl. now rewrite N. Qed.

Lemma sim_self_workflow_id : sim self_workflow_id self_workflow_id.
Proof.
  intros x y H. split; [|exact H]. destruct H as (_ & _ & _ & _ & I & _).
  simpl. now rewrite I.
Qed.

Lemma sim_self_agent_sequence : sim self_agent_sequence self_agent_sequence.
Proof.
  intros x y H. split; [|exact H]. destruct H as (_ & _ & _ & _ & _ & S & _).
  simpl. now rewrite S.
Qed.

Lemma sim_set_self_workflow_id v : sim (set_self_workflow_id v) (set_self_workflow_id v).
Proof.
  intros x y (W & L & N & T & I & S & R). split; [reflexivity|].
  repeat split; simpl; assumption.
Qed.

Lemma sim_agent_sequence_append name :
  sim (agent_sequence_append name) (agent_sequence_append name).
Proof.
  intros x y (W & L & N & T & I & S & R). split; [reflexivity|].
  repeat split; simpl; try assumption. now rewrite S.
Qed.

Lemma sim_init : sim __init__ __init__.
Proof.
  intros x y (W & L & N & T & I & S & R). split; [reflexivity|].
  repeat split; simpl; assumption.
Qed.

Lemma override_metrics_respond f env n s :
  target s <> MetricsTable -> respond (override_metrics f env) n s = respond env n s.
Proof. intros H. simpl. destruct s; try reflexivity. now elim H. Qed.

Lemma map_fst_length {A B} (l1 l2 : list (A * B)) :
  map fst l1 = map fst l2 -> List.length l1 = List.length l2.
Proof. intros H. rewrite <- (length_map fst l1), H. apply length_map. Qed.

(** Away from the metrics table, the two sessions answer alike and a
    statement reads and writes nothing the two states differ in. *)
Lemma sim_session_sql f env s :
  target s <> MetricsTable ->
  sim (session_sql env s) (session_sql (override_metrics f env) s).
Proof.
  intros Hs x y H. pose proof H as (W & L & N & T & I & S & R).
  unfold session_sql. rewrite (override_metrics_respond f env _ s Hs).
  rewrite <- (map_fst_length _ _ R).
  destruct (respond env (List.length (trace x)) s) as [msg|c].
  - split; [reflexivity|]. repeat split; simpl; try assumption.
    + rewrite T, (map_fst_length _ _ R). reflexivity.
    + rewrite !map_app, R. reflexivity.
  - assert (E : fst (table_effect s c x) = fst (table_effect s c y)
                /\ same_but_metrics (snd (table_effect s c x)) (snd (table_effect s c y))).
    { destruct s; simpl; rewrite ?W, ?L, ?N, ?T; (split; [reflexivity|]);
        repeat split; simpl; try assumption; try congruence; now elim Hs. }
    destruct (table_effect s c x) as [cx x'], (table_effect s c y) as [cy y'].
    simpl in E. destruct E as [-> (W' & L' & N' & T' & I' & S' & R')].
    split; [reflexivity|]. repeat split; simpl; try assumption.
    + rewrite T', (map_fst_length _ _ R'). reflexivity.
    + rewrite !map_app, R'. reflexivity.
Qed.

(** Recording metrics returns in both sessions, and what it changes is what
    the two states may differ in. *)
Lemma sim_record_agent_metrics f env name eid d outcome :
  sim (_record_agent_metrics env name eid d outcome)
      (_record_agent_metrics (override_metrics f env) name eid d outcome).
Proof.
  intros x y H. pose proof H as (W & L & N & T & I & S & R).
  pose proof (map_fst_length _ _ R) as Hlen.
  unfold _record_agent_metrics, try_except, bind, session_sql, ret.
  destruct (respond env _ _), (respond (override_metrics f env) _ _);
    simpl; (split; [reflexivity|]); repeat split; simpl; try assumption;
    rewrite ?T, ?Hlen, ?map_app, ?R; reflexivity.
Qed.

(** Breaks the comparison of a program with itself under the other session
    into comparisons of its statements; [leaf] closes those. *)
Ltac sim_split leaf :=
  repeat first
    [ leaf
    | apply sim_bind; [| intros ?]
    | apply sim_try_except; [| intros ?]
    | apply sim_ret | apply sim_raise | apply sim_reraise
    | apply sim_first_cell | apply sim_py_get | apply sim_py_item
    | apply sim_format_2f | apply sim_py_len
    | apply sim_datetime_now | apply sim_self_workflow_id
    | apply sim_self_agent_sequence | apply sim_set_self_workflow_id
    | apply sim_agent_sequence_append
    | apply sim_session_sql; discriminate
    | match goal with
      | |- sim (match ?x with _ => _ end) _ => destruct x
      end ].

Lemma sim_call_agent_procedure f env fn params :
  sim (_call_agent_procedure env fn params)
      (_call_agent_procedure (override_metrics f env) fn params).
Proof. unfold _call_agent_procedure. sim_split fail. Qed.

Lemma sim_execute_agent f env name fn params :
  sim (_execute_agent env name fn params)
      (_execute_agent (override_metrics f env) name fn params).
Proof.
  unfold _execute_agent.
  sim_split ltac:(first [ apply sim_record_agent_metrics
                        | apply sim_call_agent_procedure ]).
Qed.

Lemma sim_check_agent_result f env label v :
  sim (check_agent_result env label v)
      (check_agent_result (override_metrics f env) label v).
Proof. unfold check_agent_result. sim_split fail. Qed.

Lemma sim_generate_workflow_summary f env results :
  sim (_generate_workflow_summary env results)
      (_generate_workflow_summary (override_metrics f env) results).
Proof. unfold _generate_workflow_summary. sim_split fail. Qed.

Lemma sim_dispatch f env stage_path target_schema target_table workflow_type :
  sim (dispatch env stage_path target_schema target_table workflow_type)
      (dispatch (override_metrics f env) stage_path target_schema target_table
         workflow_type).
Proof.
  unfold dispatch, _execute_full_onboarding, _execute_profiling_only, _execute_mapping_only.
  sim_split ltac:(first [ apply sim_execute_agent
                        | apply sim_check_agent_result
                        | apply sim_generate_workflow_summary ]).
Qed.

Lemma sim_execute_onboarding_workflow f env stage_path target_schema target_table
  workflow_type :
  sim (execute_onboarding_workflow env stage_path target_schema target_table workflow_type)
      (execute_onboarding_workflow (override_metrics f env) stage_path target_schema
         target_table workflow_type).
Proof.
  unfold execute_onboarding_workflow, guarded_run, _initialize_workflow,
    _complete_workflow, _fail_workflow.
  sim_split ltac:(apply sim_dispatch).
Qed.

(** C4, as the code has it: whether the metrics statements go through or
    raise changes nothing else.  Let the session answer the metrics
    statements in any way [f]: a step hands back the same result, a workflow
    run ends in the same result or error, and the workflow table and the
    execution log end up the same. *)
Theorem metrics_failure_changes_no_outcome (f : nat -> Stmt -> Reply) env :
  (forall name fn params st,
      fst (_execute_agent (override_metrics f env) name fn params st)
      = fst (_execute_agent env name fn params st))
  /\ (forall stage_path target_schema target_table workflow_type st,
         let run := execute_onboarding_workflow env stage_path target_schema target_table
                      workflow_type st in
         let run' := execute_onboarding_workflow (override_metrics f env) stage_path
                       target_schema target_table workflow_type st in
         fst run' = fst run
         /\ workflow_executions (snd run') = workflow_executions (snd run)
         /\ agent_execution_log (snd run') = agent_execution_log (snd run)).
Proof.
  split.
  - intros name fn params st.
    now destruct (sim_execute_agent f env name fn params st st
                    (same_but_metrics_refl st)) as [-> _].
  - intros stage_path target_schema target_table workflow_type st run run'.
    destruct (sim_execute_onboarding_workflow f env stage_path target_schema target_table
                workflow_type st st (same_but_metrics_refl st))
      as [Hr (W & L & _)].
    subst run run'. now rewrite Hr, W, L.
Qed.

(** ** Scenarios *)

Lemma scenario_store_ok sc :
  (forall s, broken sc s = false) -> record_store_ok (scenario_env sc).
Proof.
  intros H. split; intros n s Hs; simpl; unfold scenario_respond;
    destruct s; try discriminate; rewrite H; reflexivity.
Qed.

Lemma scenario_procedure_succeeds sc name :
  reply_ok (scenario_env sc) (scenario_respond sc 0 (CallProcedure name [])) = true ->
  procedure_succeeds (scenario_env sc) name.
Proof. intros H n args. exact H. Qed.

Lemma scenario_procedure_fails sc name :
  reply_ok (scenario_env sc) (scenario_respond sc 0 (CallProcedure name [])) = false ->
  procedure_fails (scenario_env sc) name.
Proof. intros H n args. exact H. Qed.

(** Scenario D, on the code: the run for workflow type BOGUS fails with the
    unknown-type error, yet the workflow table, empty before, now holds a
    record of the run, FAILED: a record was created and persisted. *)
Lemma unknown_type_record_is_persisted :
  let run := execute_onboarding_workflow happy_env customers_stage "CURATED" None
               "BOGUS" initial_state in
  supported "BOGUS" = false
  /\ fst run = Raise (mkExn ValueError "Unknown workflow type: BOGUS")
  /\ workflow_executions initial_state = []
  /\ workflow_executions (snd run) <> workflow_executions initial_state
  /\ map (fun r => (wf_type r, wf_status r)) (workflow_executions (snd run))
     = [("BOGUS", FAILED)].
Proof. vm_compute. repeat split. discriminate. Qed.

Lemma unknown_workflow_type_fails_after_record_witness :
  workflow_store_ok happy_env
  /\ supported "BOGUS" = false
  /\ exists st' new r,
      execute_onboarding_workflow happy_env customers_stage "CURATED" None "BOGUS"
        initial_state
      = (Raise (mkExn ValueError ("Unknown workflow type: " ++ "BOGUS")%string), st')
      /\ trace st' = trace initial_state ++ new /\ calls new = []
      /\ List.length (workflow_executions st')
         = S (List.length (workflow_executions initial_state))
      /\ workflow_record st' (workflow_id st') = Some r
      /\ wf_type r = "BOGUS"
      /\ wf_status r = FAILED
      /\ wf_error r = Some ("Unknown workflow type: " ++ "BOGUS")%string.
Proof.
  assert (Hwf : workflow_store_ok happy_env)
    by (apply scenario_store_ok; reflexivity).
  split; [exact Hwf|]. split; [reflexivity|].
  apply (unknown_workflow_type_fails_after_record happy_env customers_stage "CURATED"
           None "BOGUS" initial_state Hwf).
  reflexivity.
Defined.

(** A PROFILING_ONLY run whose profiling procedure raises: the step is
    logged FAILED and the workflow is recorded COMPLETED. *)
Lemma profiling_only_failure_recorded_completed_witness :
  record_store_ok profile_down_env
  /\ procedure_raises profile_down_env "SP_AGENT_PROFILE"
  /\ exists results st' row rest r d,
      execute_onboarding_workflow profile_down_env customers_stage "CURATED" None
        "PROFILING_ONLY" initial_state = (Ok results, st')
      /\ agent_execution_log st' = row :: rest
      /\ ex_agent row = "PROFILING"
      /\ ex_workflow row = workflow_id st'
      /\ ex_status row = LOG_FAILED
      /\ dict_lookup results "profiling" = Some (VDict d)
      /\ is_failed (dict_get d "status" VNone) = true
      /\ workflow_record st' (workflow_id st') = Some r
      /\ wf_status r = COMPLETED
      /\ wf_agent_sequence r = Some (agent_sequence initial_state ++ ["PROFILING"]).
Proof.
  assert (Hok : record_store_ok profile_down_env)
    by (apply scenario_store_ok; reflexivity).
  assert (Hraise : procedure_raises profile_down_env "SP_AGENT_PROFILE")
    by (intros n args; eexists; reflexivity).
  split; [exact Hok|]. split; [exact Hraise|].
  exact (profiling_only_failure_recorded_completed profile_down_env customers_stage
           "CURATED" None initial_state Hok Hraise).
Defined.

(** The same run, evaluated. *)
Lemma profiling_only_failure_example :
  let run := execute_onboarding_workflow profile_down_env customers_stage "CURATED" None
               "PROFILING_ONLY" initial_state in
  map ex_status (agent_execution_log (snd run)) = [LOG_FAILED]
  /\ map wf_status (workflow_executions (snd run)) = [COMPLETED].
Proof. vm_compute. split; reflexivity. Qed.

(** When the insert of the RUNNING log entry raises, the step executor
    raises too, although the procedure itself would have succeeded. *)
Lemma log_insert_failure_escapes :
  procedure_succeeds log_insert_down_env "SP_AGENT_PROFILE"
  /\ fst (_execute_agent log_insert_down_env "PROFILING" "SP_AGENT_PROFILE"
            (profiling_parameters customers_stage) initial_state)
     = Raise (mkExn SnowparkSQLException "statement failed").
Proof. split; [apply scenario_procedure_succeeds|]; reflexivity. Qed.

Lemma execute_agent_returns_value_witness :
  log_store_ok happy_env
  /\ exists v st',
      _execute_agent happy_env "PROFILING" "SP_AGENT_PROFILE"
        (profiling_parameters customers_stage) initial_state = (Ok v, st')
      /\ step_run happy_env "PROFILING" "SP_AGENT_PROFILE"
           (respond happy_env (List.length (trace initial_state) + 3)
              (call_statement happy_env "SP_AGENT_PROFILE"
                 (profiling_parameters customers_stage)))
           initial_state v st'.
Proof.
  assert (Hlog : log_store_ok happy_env)
    by (apply (scenario_store_ok happy); reflexivity).
  split; [exact Hlog|].
  exact (execute_agent_returns_value happy_env "PROFILING" "SP_AGENT_PROFILE"
           (profiling_parameters customers_stage) initial_state Hlog).
Defined.

(** When the update of the log entry to COMPLETED raises, a step whose
    procedure succeeded hands back a FAILED result instead of the payload,
    and the ONBOARDING run that was to complete fails; and when every log and
    metrics write raises, the step executor itself raises. *)
Lemma log_failure_changes_step_result :
  procedure_succeeds log_update_down_env "SP_AGENT_PROFILE"
  /\ fst (_execute_agent happy_env "PROFILING" "SP_AGENT_PROFILE"
            (profiling_parameters customers_stage) initial_state)
     = Ok (VDict [("profile_id", VStr "p-1");
                  ("profiling_summary", VStr "12 columns, 1 PII column");
                  ("execution_time_seconds", VNum 5)])
  /\ fst (_execute_agent log_update_down_env "PROFILING" "SP_AGENT_PROFILE"
            (profiling_parameters customers_stage) initial_state)
     = Ok (VDict [("status", VStr "FAILED");
                  ("error", VStr "statement failed");
                  ("execution_time_seconds", VNum 5)])
  /\ fst (execute_onboarding_workflow log_update_down_env customers_stage "CURATED" None
            "ONBOARDING" initial_state)
     = Raise (mkExn PlainException "Profiling agent failed: statement failed")
  /\ fst (_execute_agent sink_down_env "PROFILING" "SP_AGENT_PROFILE"
            (profiling_parameters customers_stage) initial_state)
     = Raise (mkExn SnowparkSQLException "statement failed").
Proof. split; [apply scenario_procedure_succeeds|]; vm_compute; repeat split. Qed.

(** Scenario B. *)
Lemma dictionary_failure_stops_onboarding_witness :
  record_store_ok dictionary_down_env
  /\ procedure_succeeds dictionary_down_env "SP_AGENT_PROFILE"
  /\ procedure_fails dictionary_down_env "SP_AGENT_DICTIONARY"
  /\ exists e st' new r,
      execute_onboarding_workflow dictionary_down_env customers_stage "CURATED" None
        "ONBOARDING" initial_state = (Raise e, st')
      /\ trace st' = trace initial_state ++ new
      /\ calls new = ["SP_AGENT_PROFILE"; "SP_AGENT_DICTIONARY"]
      /\ agent_sequence st' = agent_sequence initial_state ++ ["PROFILING"; "DICTIONARY"]
      /\ map ex_agent (agent_execution_log st')
         = "DICTIONARY" :: "PROFILING" :: map ex_agent (agent_execution_log initial_state)
      /\ workflow_record st' (workflow_id st') = Some r
      /\ wf_status r = FAILED
      /\ wf_error r = Some (exn_msg e)
      /\ (agent_sequence initial_state = [] ->
          agent_sequence st' = ["PROFILING"; "DICTIONARY"])
      /\ wf_agent_sequence r = None
      /\ persisted_step_sequence r = [].
Proof.
  assert (Hok : record_store_ok dictionary_down_env)
    by (apply scenario_store_ok; reflexivity).
  assert (Hp : procedure_succeeds dictionary_down_env "SP_AGENT_PROFILE")
    by (apply scenario_procedure_succeeds; reflexivity).
  assert (Hd : procedure_fails dictionary_down_env "SP_AGENT_DICTIONARY")
    by (apply scenario_procedure_fails; reflexivity).
  repeat (split; [assumption|]).
  exact (dictionary_failure_stops_onboarding dictionary_down_env customers_stage "CURATED"
           None initial_state Hok Hp Hd).
Defined.

(** Scenario B, on the record: after the DICTIONARY step failed, the
    instance holds the two attempted steps, but the persisted record has
    neither a step sequence nor a duration. *)
Lemma failed_record_lacks_sequence_and_duration :
  let run := execute_onboarding_workflow dictionary_down_env customers_stage "CURATED" None
               "ONBOARDING" initial_state in
  agent_sequence (snd run) = ["PROFILING"; "DICTIONARY"]
  /\ exists r,
      workflow_executions (snd run) = [r]
      /\ wf_status r = FAILED
      /\ wf_error r = Some "Dictionary agent failed: DDL generation failed"
      /\ wf_agent_sequence r <> Some ["PROFILING"; "DICTIONARY"]
      /\ wf_agent_sequence r = None
      /\ wf_duration r = None.
Proof. vm_compute. split; [reflexivity|]. eexists. repeat split. discriminate. Qed.

Lemma failed_run_record_witness :
  let run := execute_onboarding_workflow dictionary_down_env customers_stage "CURATED" None
               "ONBOARDING" initial_state in
  workflow_store_ok dictionary_down_env
  /\ run = (Raise (mkExn PlainException "Dictionary agent failed: DDL generation failed"),
            snd run)
  /\ exists r,
      workflow_record (snd run) (workflow_id (snd run)) = Some r
      /\ wf_type r = "ONBOARDING"
      /\ wf_status r = FAILED
      /\ wf_error r = Some "Dictionary agent failed: DDL generation failed"
      /\ wf_end r <> None
      /\ wf_agent_sequence r = None
      /\ wf_duration r = None.
Proof.
  intros run.
  assert (Hwf : workflow_store_ok dictionary_down_env)
    by (apply scenario_store_ok; reflexivity).
  assert (E : run = (Raise (mkExn PlainException
                              "Dictionary agent failed: DDL generation failed"), snd run))
    by (vm_compute; reflexivity).
  split; [exact Hwf|]. split; [exact E|].
  exact (failed_run_record dictionary_down_env customers_stage "CURATED" None "ONBOARDING"
           initial_state _ _ Hwf E).
Defined.

(** C7 on the code: two ONBOARDING runs through one orchestrator object,
    everything working.  The record of the second run persists the steps of
    both runs, six steps where the plan has three, which is no initial part of
    the plan: [agent_sequence] is only emptied by [__init__]. *)
Lemma reused_orchestrator_repeats_steps :
  let first := execute_onboarding_workflow happy_env customers_stage "CURATED" None
                 "ONBOARDING" initial_state in
  let second := execute_onboarding_workflow happy_env customers_stage "CURATED" None
                  "ONBOARDING" (snd first) in
  exists r,
    workflow_record (snd second) (workflow_id (snd second)) = Some r
    /\ wf_type r = "ONBOARDING"
    /\ wf_status r = COMPLETED
    /\ persisted_step_sequence r
       = ["PROFILING"; "DICTIONARY"; "MAPPING"; "PROFILING"; "DICTIONARY"; "MAPPING"]
    /\ is_prefix (persisted_step_sequence r) (plan (wf_type r)) = false.
Proof. vm_compute. eexists. repeat split. Qed.

(** Through the stored-procedure wrapper, which makes a new orchestrator for
    every call, a completed ONBOARDING run persists exactly its plan. *)
Lemma wrapper_run_persists_plan :
  let first := sp_orchestrate_onboarding happy_env customers_stage "CURATED" None
                 "ONBOARDING" initial_state in
  let second := sp_orchestrate_onboarding happy_env customers_stage "CURATED" None
                  "ONBOARDING" (snd first) in
  map persisted_step_sequence (workflow_executions (snd second))
  = [plan "ONBOARDING"; plan "ONBOARDING"].
Proof. vm_compute. reflexivity. Qed.

(** Scenario A, status writes. *)
Lemma workflow_status_monotonic_witness :
  workflow_store_ok happy_env
  /\ exists new,
      trace (snd (execute_onboarding_workflow happy_env customers_stage "CURATED" None
                    "ONBOARDING" initial_state)) = trace initial_state ++ new
      /\ lifecycle (status_writes new)
      /\ exists t, terminal t = true
                   /\ status_writes new = [INITIATED; IN_PROGRESS; t].
Proof.
  assert (Hwf : workflow_store_ok happy_env)
    by (apply (scenario_store_ok happy); reflexivity).
  split; [exact Hwf|].
  destruct (workflow_status_monotonic happy_env customers_stage "CURATED" None
              "ONBOARDING" initial_state) as (new & T & L & H).
  exists new. split; [exact T|]. split; [exact L|]. exact (H Hwf).
Defined.

(** The same run, evaluated: the AI statement raised and the summary is the
    templated text. *)
Lemma ai_down_summary_example :
  let run := execute_onboarding_workflow ai_down_env customers_stage "CURATED" None
               "ONBOARDING" initial_state in
  ai_requests (trace (snd run)) = [false]
  /\ map wf_status (workflow_executions (snd run)) = [COMPLETED]
  /\ exists results,
      fst run = Ok results
      /\ dict_lookup results "summary"
         = Some (VStr "Workflow completed with 3 agents executed.").
Proof. vm_compute. repeat split. eexists. split; reflexivity. Qed.

(** ** Further properties of the controller *)

(** X1 (Scenario E): a MAPPING_ONLY run is not implemented.  When the
    workflow table takes its statements the run raises NotImplementedError
    after its record was created; no procedure is called, the execution log
    and the instance's step list are untouched, and the record is FAILED with
    the text of the error. *)
Theorem mapping_only_not_implemented env stage_path target_schema target_table st :
  workflow_store_ok env ->
  exists st' new r,
    execute_onboarding_workflow env stage_path target_schema target_table "MAPPING_ONLY" st
    = (Raise (mkExn NotImplementedError
                "MAPPING_ONLY workflow requires existing dictionary results"), st')
    /\ trace st' = trace st ++ new
    /\ calls new = []
    /\ agent_execution_log st' = agent_execution_log st
    /\ agent_sequence st' = agent_sequence st
    /\ workflow_record st' (workflow_id st') = Some r
    /\ wf_type r = "MAPPING_ONLY"
    /\ wf_status r = FAILED
    /\ wf_error r = Some "MAPPING_ONLY workflow requires existing dictionary results".
Proof.
  intros Hwf.
  assert (H : wp (execute_onboarding_workflow env stage_path target_schema target_table
                    "MAPPING_ONLY")
                (fun res st' =>
                   res = Raise (mkExn NotImplementedError
                                  "MAPPING_ONLY workflow requires existing dictionary results")
                   /\ exists new r,
                       trace st' = trace st ++ new
                       /\ calls new = []
                       /\ agent_execution_log st' = agent_execution_log st
                       /\ agent_sequence st' = agent_sequence st
                       /\ workflow_record st' (workflow_id st') = Some r
                       /\ wf_type r = "MAPPING_ONLY"
                       /\ wf_status r = FAILED
                       /\ wf_error r
                          = Some "MAPPING_ONLY workflow requires existing dictionary results")
                st).
  { apply wp_execute_onboarding_workflow; [exact Hwf|]. intros st1 S1.
    apply wp_guarded_run; [exact Hwf|].
    unfold dispatch. simpl (String.eqb "MAPPING_ONLY" _). cbv iota.
    unfold _execute_mapping_only. wp_pure. split; [reflexivity|].
    destruct (failed_record env
                (mkExn NotImplementedError
                   "MAPPING_ONLY workflow requires existing dictionary results")
                _ _ _ st st1 st1 S1 eq_refl eq_refl)
      as (r & Hr & _ & Ht & Hs & He & _).
    destruct S1 as [I W L Q T].
    eexists _, r. unfold failed_state in *. st_simpl.
    repeat split; try eassumption.
    - rewrite T, <- app_assoc. reflexivity.
    - reflexivity. }
  apply wp_elim in H as (res & st' & E & -> & new & r & H).
  exists st', new, r. now split.
Qed.

Lemma mapping_only_not_implemented_witness :
  workflow_store_ok happy_env
  /\ exists st' new r,
      execute_onboarding_workflow happy_env customers_stage "CURATED" (Some "CUSTOMERS")
        "MAPPING_ONLY" initial_state
      = (Raise (mkExn NotImplementedError
                  "MAPPING_ONLY workflow requires existing dictionary results"), st')
      /\ trace st' = trace initial_state ++ new
      /\ calls new = []
      /\ agent_execution_log st' = agent_execution_log initial_state
      /\ agent_sequence st' = agent_sequence initial_state
      /\ workflow_record st' (workflow_id st') = Some r
      /\ wf_type r = "MAPPING_ONLY"
      /\ wf_status r = FAILED
      /\ wf_error r = Some "MAPPING_ONLY workflow requires existing dictionary results".
Proof.
  assert (Hwf : workflow_store_ok happy_env)
    by (apply (scenario_store_ok happy); reflexivity).
  split; [exact Hwf|].
  exact (mapping_only_not_implemented happy_env customers_stage "CURATED"
           (Some "CUSTOMERS") initial_state Hwf).
Defined.

(** The summary of results whose step entries are dicts: the function
    always returns, after one AI statement; when that statement raised, or
    came back without rows, the summary is the templated text. *)
Lemma wp_generate_workflow_summary env results d1 d2 d3 z l Q st :
  dict_get results "profiling" (VDict []) = VDict d1 ->
  dict_get results "dictionary" (VDict []) = VDict d2 ->
  dict_get results "mapping" (VDict []) = VDict d3 ->
  dict_get results "total_duration_seconds" (VNum 0) = VNum z ->
  dict_get results "agents_executed" (VList []) = VList l ->
  (forall summary asked s,
      is_ai_complete s = true ->
      (asked = false -> summary = summary_template (List.length l)) ->
      Q (Ok summary) (issued env s asked st)) ->
  wp (_generate_workflow_summary env results) Q st.
Proof.
  intros E1 E2 E3 Ez El HQ. unfold _generate_workflow_summary.
  rewrite E1, E2, E3, Ez, El. wp_pure.
  apply wp_session_sql.
  - intros msg _. cbv beta iota. wp_pure. apply HQ; reflexivity.
  - intros c _. st_simpl. wp_pure. apply wp_first_cell.
    + intros v _. apply HQ; [reflexivity | discriminate].
    + intros _. wp_pure. apply HQ; reflexivity.
Qed.

(** X2: an ONBOARDING run is fail-fast at every position.  When the record
    store takes its statements, whatever the three procedures and the AI do,
    the run attempts the first [k] steps of the plan, in order and once each,
    for some [k] from 1 to 3: the procedures called, the steps appended to the
    instance's list and the log entries created are exactly those.  If it
    returns, [k] is 3, the record is COMPLETED and the AI was asked once; if
    it raises, the record is FAILED with the error text and the AI was never
    asked. *)
Theorem onboarding_fail_fast env stage_path target_schema target_table st :
  record_store_ok env ->
  exists res st' new k r,
    execute_onboarding_workflow env stage_path target_schema target_table "ONBOARDING" st
    = (res, st')
    /\ trace st' = trace st ++ new
    /\ 1 <= k <= 3
    /\ calls new = firstn k plan_procedures
    /\ agent_sequence st' = agent_sequence st ++ firstn k (plan "ONBOARDING")
    /\ map ex_agent (agent_execution_log st')
       = rev (firstn k (plan "ONBOARDING")) ++ map ex_agent (agent_execution_log st)
    /\ workflow_record st' (workflow_id st') = Some r
    /\ match res with
       | Ok _ =>
           k = 3 /\ wf_status r = COMPLETED /\ List.length (ai_requests new) = 1
       | Raise e =>
           wf_status r = FAILED /\ wf_error r = Some (exn_msg e) /\ ai_requests new = []
       end.
Proof.
  intros [Hlog Hwf].
  assert (H : wp (execute_onboarding_workflow env stage_path target_schema target_table
                    "ONBOARDING")
                (fun res st' =>
                   exists new k r,
                     trace st' = trace st ++ new
                     /\ 1 <= k <= 3
                     /\ calls new = firstn k plan_procedures
                     /\ agent_sequence st'
                        = agent_sequence st ++ firstn k (plan "ONBOARDING")
                     /\ map ex_agent (agent_execution_log st')
                        = rev (firstn k (plan "ONBOARDING"))
                          ++ map ex_agent (agent_execution_log st)
                     /\ workflow_record st' (workflow_id st') = Some r
                     /\ match res with
                        | Ok _ =>
                            k = 3 /\ wf_status r = COMPLETED
                            /\ List.length (ai_requests new) = 1
                        | Raise e =>
                            wf_status r = FAILED /\ wf_error r = Some (exn_msg e)
                            /\ ai_requests new = []
                        end) st).
  { apply wp_execute_onboarding_workflow; [exact Hwf|]. intros st1 S1.
    apply wp_guarded_run; [exact Hwf|].
    unfold dispatch. simpl (String.eqb "ONBOARDING" "ONBOARDING"). cbv iota.
    unfold _execute_full_onboarding. wp_pure.
    run_step Hlog v1 st2 R1.
    destruct R1 as [_ W1 I1 Q1 (new1 & T1 & C1 & _ & A1)
                      (row1 & rest1 & L1 & M1 & N1 & _ & _)]; st_simpl.
    assert (Hrows1 : map ex_agent (agent_execution_log st2)
                     = rev (firstn 1 (plan "ONBOARDING"))
                       ++ map ex_agent (agent_execution_log st)).
    { destruct S1 as [_ _ L0 _ _]. rewrite L1. cbn [map]. now rewrite N1, M1, L0. }
    assert (Hseq1 : agent_sequence st2 ++ ["PROFILING"]
                    = agent_sequence st ++ firstn 1 (plan "ONBOARDING")).
    { destruct S1 as [_ _ _ Q0 _]. now rewrite Q1, Q0. }
    assert (Htr1 : trace st2
                   = trace st
                     ++ [(InsertWorkflow "ONBOARDING" stage_path target_schema, true);
                         (SelectInitiatedWorkflowId, true);
                         (UpdateWorkflowInProgress (id_value (next_id st)), true)]
                     ++ new1).
    { destruct S1 as [_ _ _ _ T0]. now rewrite T1, T0, <- app_assoc. }
    apply wp_check_agent_result; [intros O1 | intros _ e _].
    2:{ destruct (failed_record env e _ _ _ st st1
                    (with_agent_sequence (agent_sequence st2 ++ ["PROFILING"]) st2) S1)
          as (r & Hr & _ & _ & Hs & He & _); st_simpl; try congruence.
        eexists. exists 1, r. unfold failed_state in *. st_simpl.
        split; [rewrite Htr1, <- !app_assoc; reflexivity|].
        split; [lia|].
        rewrite !calls_app, !ai_requests_app, C1, A1.
        repeat split; assumption. }
    wp_pure.
    run_step Hlog v2 st3 R2.
    destruct R2 as [_ W2 I2 Q2 (new2 & T2 & C2 & _ & A2)
                      (row2 & rest2 & L2 & M2 & N2 & _ & _)]; st_simpl.
    assert (Hrows2 : map ex_agent (agent_execution_log st3)
                     = rev (firstn 2 (plan "ONBOARDING"))
                       ++ map ex_agent (agent_execution_log st)).
    { rewrite L2. cbn [map]. now rewrite N2, M2, Hrows1. }
    assert (Hseq2 : agent_sequence st3 ++ ["DICTIONARY"]
                    = agent_sequence st ++ firstn 2 (plan "ONBOARDING")).
    { rewrite Q2, Hseq1, <- app_assoc. reflexivity. }
    apply wp_check_agent_result; [intros O2 | intros _ e _].
    2:{ destruct (failed_record env e _ _ _ st st1
                    (with_agent_sequence (agent_sequence st3 ++ ["DICTIONARY"]) st3) S1)
          as (r & Hr & _ & _ & Hs & He & _); st_simpl; try congruence.
        eexists. exists 2, r. unfold failed_state in *. st_simpl.
        split; [rewrite T2, Htr1, <- !app_assoc; reflexivity|].
        split; [lia|].
        rewrite !calls_app, !ai_requests_app, C1, A1, C2, A2.
        repeat split; assumption. }
    wp_pure.
    run_step Hlog v3 st4 R3.
    destruct R3 as [_ W3 I3 Q3 (new3 & T3 & C3 & _ & A3)
                      (row3 & rest3 & L3 & M3 & N3 & _ & _)]; st_simpl.
    assert (Hrows3 : map ex_agent (agent_execution_log st4)
                     = rev (firstn 3 (plan "ONBOARDING"))
                       ++ map ex_agent (agent_execution_log st)).
    { rewrite L3. cbn [map]. now rewrite N3, M3, Hrows2. }
    assert (Hseq3 : agent_sequence st4 ++ ["MAPPING"]
                    = agent_sequence st ++ firstn 3 (plan "ONBOARDING")).
    { rewrite Q3, Hseq2, <- app_assoc. reflexivity. }
    apply wp_check_agent_result; [intros O3 | intros _ e _].
    2:{ destruct (failed_record env e _ _ _ st st1
                    (with_agent_sequence (agent_sequence st4 ++ ["MAPPING"]) st4) S1)
          as (r & Hr & _ & _ & Hs & He & _); st_simpl; try congruence.
        eexists. exists 3, r. unfold failed_state in *. st_simpl.
        split; [rewrite T3, T2, Htr1, <- !app_assoc; reflexivity|].
        split; [lia|].
        rewrite !calls_app, !ai_requests_app, C1, A1, C2, A2, C3, A3.
        repeat split; assumption. }
    wp_pure.
    destruct (agent_result_ok_dict _ O1) as [d1 ->].
    destruct (agent_result_ok_dict _ O2) as [d2 ->].
    destruct (agent_result_ok_dict _ O3) as [d3 ->].
    eapply wp_generate_workflow_summary; try (dict_simpl; reflexivity).
    intros summary asked s Hs _. wp_pure.
    match goal with
    | |- context [completed_state env ?res ?s5] =>
        destruct (completed_record env res _ _ _ st st1 s5 S1)
          as (r & Hr & _ & _ & Hst & _)
    end; st_simpl; try congruence.
    eexists. exists 3, r. unfold completed_state in *. st_simpl.
    split; [rewrite T3, T2, Htr1, <- !app_assoc; reflexivity|].
    split; [lia|].
    rewrite !calls_app, !ai_requests_app, C1, A1, C2, A2, C3, A3.
    destruct s; try discriminate. cbn.
    repeat split; assumption. }
  apply wp_elim in H as (res & st' & E & new & k & r & H).
  exists res, st', new, k, r. now split.
Qed.

Lemma onboarding_fail_fast_witness :
  record_store_ok dictionary_down_env
  /\ exists res st' new k r,
      execute_onboarding_workflow dictionary_down_env customers_stage "CURATED" None
        "ONBOARDING" initial_state = (res, st')
      /\ trace st' = trace initial_state ++ new
      /\ 1 <= k <= 3
      /\ calls new = firstn k plan_procedures
      /\ agent_sequence st'
         = agent_sequence initial_state ++ firstn k (plan "ONBOARDING")
      /\ map ex_agent (agent_execution_log st')
         = rev (firstn k (plan "ONBOARDING"))
           ++ map ex_agent (agent_execution_log initial_state)
      /\ workflow_record st' (workflow_id st') = Some r
      /\ match res with
         | Ok _ =>
             k = 3 /\ wf_status r = COMPLETED /\ List.length (ai_requests new) = 1
         | Raise e =>
             wf_status r = FAILED /\ wf_error r = Some (exn_msg e) /\ ai_requests new = []
         end.
Proof.
  assert (Hok : record_store_ok dictionary_down_env)
    by (apply scenario_store_ok; reflexivity).
  split; [exact Hok|].
  exact (onboarding_fail_fast dictionary_down_env customers_stage "CURATED" None
           initial_state Hok).
Defined.

(** X3: a payload that is not JSON.  When the profiling procedure returns a
    text that [json.loads] rejects, the step executor keeps the text and logs
    the step COMPLETED; the controller's [.get] on that text then fails, so
    the ONBOARDING run ends in an AttributeError, not in an "agent failed"
    error, and that text is what the FAILED record carries. *)
Theorem unparseable_payload_fails_onboarding env stage_path target_schema target_table st :
  record_store_ok env ->
  procedure_returns_garbage env "SP_AGENT_PROFILE" ->
  exists st' new row rest r,
    execute_onboarding_workflow env stage_path target_schema target_table "ONBOARDING" st
    = (Raise (mkExn AttributeError "'str' object has no attribute 'get'"), st')
    /\ trace st' = trace st ++ new
    /\ calls new = ["SP_AGENT_PROFILE"]
    /\ agent_execution_log st' = row :: rest
    /\ ex_agent row = "PROFILING"
    /\ ex_status row = LOG_COMPLETED
    /\ workflow_record st' (workflow_id st') = Some r
    /\ wf_status r = FAILED
    /\ wf_error r = Some "'str' object has no attribute 'get'".
Proof.
  intros [Hlog Hwf] Hgarbage.
  assert (H : wp (execute_onboarding_workflow env stage_path target_schema target_table
                    "ONBOARDING")
                (fun res st' =>
                   res = Raise (mkExn AttributeError "'str' object has no attribute 'get'")
                   /\ exists new row rest r,
                       trace st' = trace st ++ new
                       /\ calls new = ["SP_AGENT_PROFILE"]
                       /\ agent_execution_log st' = row :: rest
                       /\ ex_agent row = "PROFILING"
                       /\ ex_status row = LOG_COMPLETED
                       /\ workflow_record st' (workflow_id st') = Some r
                       /\ wf_status r = FAILED
                       /\ wf_error r = Some "'str' object has no attribute 'get'") st).
  { apply wp_execute_onboarding_workflow; [exact Hwf|]. intros st1 S1.
    apply wp_guarded_run; [exact Hwf|].
    unfold dispatch. simpl (String.eqb "ONBOARDING" "ONBOARDING"). cbv iota.
    unfold _execute_full_onboarding. wp_pure.
    run_step Hlog v1 st2 R1.
    destruct R1 as [V1 W1 I1 Q1 (new1 & T1 & C1 & _ & _)
                      (row1 & rest1 & L1 & _ & N1 & _ & G1)]; st_simpl.
    unfold call_statement in V1, G1.
    destruct (Hgarbage (List.length (trace st1) + 3)
                (map (fun kv => param_value env (snd kv))
                   [("stage_path", VStr stage_path); ("sample_size", VNum 10000);
                    ("file_format", VStr "CSV_FORMAT")])) as (text & Hc & Hparse).
    rewrite Hc in V1, G1. simpl in V1, G1. rewrite Hparse in V1. subst v1.
    destruct G1 as [Gs _].
    unfold wp. cbn [check_agent_result py_get type_name bind raise fst snd].
    destruct (failed_record env
                (mkExn AttributeError "'str' object has no attribute 'get'")
                _ _ _ st st1
                (with_agent_sequence (agent_sequence st2 ++ ["PROFILING"]) st2) S1)
      as (r & Hr & _ & _ & Hs & He & _); st_simpl; try congruence.
    split; [reflexivity|].
    destruct S1 as [I0 W0 L0 Q0 T0].
    eexists. exists row1, rest1, r. unfold failed_state in *. st_simpl.
    split; [rewrite T1, T0, <- !app_assoc; reflexivity|].
    rewrite !calls_app, C1. repeat split; assumption. }
  apply wp_elim in H as (res & st' & E & -> & new & row & rest & r & H).
  exists st', new, row, rest, r. now split.
Qed.

Lemma unparseable_payload_fails_onboarding_witness :
  record_store_ok garbage_profile_env
  /\ procedure_returns_garbage garbage_profile_env "SP_AGENT_PROFILE"
  /\ exists st' new row rest r,
      execute_onboarding_workflow garbage_profile_env customers_stage "CURATED" None
        "ONBOARDING" initial_state
      = (Raise (mkExn AttributeError "'str' object has no attribute 'get'"), st')
      /\ trace st' = trace initial_state ++ new
      /\ calls new = ["SP_AGENT_PROFILE"]
      /\ agent_execution_log st' = row :: rest
      /\ ex_agent row = "PROFILING"
      /\ ex_status row = LOG_COMPLETED
      /\ workflow_record st' (workflow_id st') = Some r
      /\ wf_status r = FAILED
      /\ wf_error r = Some "'str' object has no attribute 'get'".
Proof.
  assert (Hok : record_store_ok garbage_profile_env)
    by (apply scenario_store_ok; reflexivity).
  assert (Hg : procedure_returns_garbage garbage_profile_env "SP_AGENT_PROFILE")
    by (intros n args; eexists; split; reflexivity).
  split; [exact Hok|]. split; [exact Hg|].
  exact (unparseable_payload_fails_onboarding garbage_profile_env customers_stage
           "CURATED" None initial_state Hok Hg).
Defined.

(** X4 (Scenario C and beyond): a PROFILING_ONLY run.  When the record store
    takes its statements, whatever the profiling procedure does, the run
    calls that procedure once and nothing else, never asks the AI, and hands
    back results without a summary; it appends PROFILING to the instance's
    list and persists that list in a COMPLETED record. *)
Theorem profiling_only_runs_one_step env stage_path target_schema target_table st :
  record_store_ok env ->
  exists results st' new r v,
    execute_onboarding_workflow env stage_path target_schema target_table
      "PROFILING_ONLY" st = (Ok results, st')
    /\ trace st' = trace st ++ new
    /\ calls new = ["SP_AGENT_PROFILE"]
    /\ ai_requests new = []
    /\ dict_lookup results "profiling" = Some v
    /\ dict_lookup results "agents_executed" = Some (VList [VStr "PROFILING"])
    /\ dict_lookup results "summary" = None
    /\ workflow_record st' (workflow_id st') = Some r
    /\ wf_status r = COMPLETED
    /\ wf_agent_sequence r = Some (agent_sequence st ++ ["PROFILING"]).
Proof.
  intros [Hlog Hwf].
  assert (H : wp (execute_onboarding_workflow env stage_path target_schema target_table
                    "PROFILING_ONLY")
                (fun res st' =>
                   exists results new r v,
                     res = Ok results
                     /\ trace st' = trace st ++ new
                     /\ calls new = ["SP_AGENT_PROFILE"]
                     /\ ai_requests new = []
                     /\ dict_lookup results "profiling" = Some v
                     /\ dict_lookup results "agents_executed"
                        = Some (VList [VStr "PROFILING"])
                     /\ dict_lookup results "summary" = None
                     /\ workflow_record st' (workflow_id st') = Some r
                     /\ wf_status r = COMPLETED
                     /\ wf_agent_sequence r = Some (agent_sequence st ++ ["PROFILING"])) st).
  { apply wp_execute_onboarding_workflow; [exact Hwf|]. intros st1 S1.
    apply wp_guarded_run; [exact Hwf|].
    unfold dispatch. simpl (String.eqb "PROFILING_ONLY" _). cbv iota.
    unfold _execute_profiling_only. wp_pure.
    run_step Hlog v1 st2 R1.
    destruct R1 as [_ W1 I1 Q1 (new1 & T1 & C1 & _ & A1) _]; st_simpl.
    match goal with
    | |- context [completed_state env ?res ?s] =>
        destruct (completed_record env res _ _ _ st st1 s S1)
          as (r & Hr & _ & _ & Hs & _ & Hq & _)
    end; st_simpl; try congruence.
    destruct S1 as [I0 W0 L0 Q0 T0].
    eexists. eexists. exists r, v1. split; [reflexivity|].
    unfold completed_state in *. st_simpl.
    split; [rewrite T1, T0, <- !app_assoc; reflexivity|].
    rewrite !calls_app, !ai_requests_app, C1, A1.
    repeat split; try assumption. congruence. }
  apply wp_elim in H as (res & st' & E & results & new & r & v & -> & H).
  exists results, st', new, r, v. now split.
Qed.

Lemma profiling_only_runs_one_step_witness :
  record_store_ok happy_env
  /\ exists results st' new r v,
      execute_onboarding_workflow happy_env customers_stage "CURATED" None
        "PROFILING_ONLY" initial_state = (Ok results, st')
      /\ trace st' = trace initial_state ++ new
      /\ calls new = ["SP_AGENT_PROFILE"]
      /\ ai_requests new = []
      /\ dict_lookup results "profiling" = Some v
      /\ dict_lookup results "agents_executed" = Some (VList [VStr "PROFILING"])
      /\ dict_lookup results "summary" = None
      /\ workflow_record st' (workflow_id st') = Some r
      /\ wf_status r = COMPLETED
      /\ wf_agent_sequence r = Some (agent_sequence initial_state ++ ["PROFILING"]).
Proof.
  assert (Hok : record_store_ok happy_env)
    by (apply (scenario_store_ok happy); reflexivity).
  split; [exact Hok|].
  exact (profiling_only_runs_one_step happy_env customers_stage "CURATED" None
           initial_state Hok).
Defined.

(** X5: a procedure that comes back without rows counts as a successful
    step with an empty payload.  When all three procedures return no rows
    (and the record store takes its statements), the ONBOARDING run
    completes: all three are called, the record is COMPLETED with the plan
    appended to the instance's list. *)
Theorem rowless_procedures_complete_onboarding env stage_path target_schema target_table st :
  record_store_ok env ->
  procedure_returns_nothing env "SP_AGENT_PROFILE" ->
  procedure_returns_nothing env "SP_AGENT_DICTIONARY" ->
  procedure_returns_nothing env "SP_AGENT_MAPPING" ->
  exists results st' new r,
    execute_onboarding_workflow env stage_path target_schema target_table "ONBOARDING" st
    = (Ok results, st')
    /\ trace st' = trace st ++ new
    /\ calls new = plan_procedures
    /\ workflow_record st' (workflow_id st') = Some r
    /\ wf_status r = COMPLETED
    /\ wf_agent_sequence r = Some (agent_sequence st ++ plan "ONBOARDING").
Proof.
  intros Hok Hp Hd Hm.
  assert (S : forall name, procedure_returns_nothing env name ->
                           procedure_succeeds env name).
  { intros name Hn n args. now rewrite Hn. }
  destruct (onboarding_completes env stage_path target_schema target_table st Hok
              (S _ Hp) (S _ Hd) (S _ Hm))
    as (results & st' & new & r & summary & asked & E & T & C & Hr & Hs & Hq & _).
  exists results, st', new, r. auto 10.
Qed.

Lemma rowless_procedures_complete_onboarding_witness :
  record_store_ok silent_procedures_env
  /\ procedure_returns_nothing silent_procedures_env "SP_AGENT_PROFILE"
  /\ procedure_returns_nothing silent_procedures_env "SP_AGENT_DICTIONARY"
  /\ procedure_returns_nothing silent_procedures_env "SP_AGENT_MAPPING"
  /\ exists results st' new r,
      execute_onboarding_workflow silent_procedures_env customers_stage "CURATED" None
        "ONBOARDING" initial_state = (Ok results, st')
      /\ trace st' = trace initial_state ++ new
      /\ calls new = plan_procedures
      /\ workflow_record st' (workflow_id st') = Some r
      /\ wf_status r = COMPLETED
      /\ wf_agent_sequence r = Some (agent_sequence initial_state ++ plan "ONBOARDING").
Proof.
  assert (Hok : record_store_ok silent_procedures_env)
    by (apply scenario_store_ok; reflexivity).
  assert (Hp : procedure_returns_nothing silent_procedures_env "SP_AGENT_PROFILE")
    by (intros n args; reflexivity).
  assert (Hd : procedure_returns_nothing silent_procedures_env "SP_AGENT_DICTIONARY")
    by (intros n args; reflexivity).
  assert (Hm : procedure_returns_nothing silent_procedures_env "SP_AGENT_MAPPING")
    by (intros n args; reflexivity).
  repeat (split; [assumption|]).
  exact (rowless_procedures_complete_onboarding silent_procedures_env customers_stage
           "CURATED" None initial_state Hok Hp Hd Hm).
Defined.

(** ** Metrics of a step *)

(** X6: the two metric observations of a step.  When the log and metrics
    statements go through, one run of the step executor adds exactly two
    metrics rows, both tagged with the step name and with the execution id of
    the step's own log entry: the execution time, equal to the duration
    written to that log entry, and the success flag, 1 with outcome SUCCESS
    when the procedure returned and 0 with outcome FAILURE when it raised. *)
Theorem step_records_metrics env name fn params st :
  log_store_ok env ->
  metrics_store_ok env ->
  exists v st' row rest outcome flag d,
    _execute_agent env name fn params st = (Ok v, st')
    /\ agent_execution_log st' = row :: rest
    /\ ex_duration row = Some d
    /\ agent_metrics st'
       = mkMetricRow name (id_value (ex_id row)) "SUCCESS_RATE" flag outcome
         :: mkMetricRow name (id_value (ex_id row)) "EXECUTION_TIME" d outcome
         :: agent_metrics st
    /\ match respond env (List.length (trace st) + 3) (call_statement env fn params) with
       | Rows _ => outcome = "SUCCESS" /\ flag = 1%Z
       | Raises _ => outcome = "FAILURE" /\ flag = 0%Z
       end.
Proof.
  intros Hlog Hmet.
  assert (H : wp (_execute_agent env name fn params)
                (fun res st' =>
                   exists v row rest outcome flag d,
                     res = Ok v
                     /\ agent_execution_log st' = row :: rest
                     /\ ex_duration row = Some d
                     /\ agent_metrics st'
                        = mkMetricRow name (id_value (ex_id row)) "SUCCESS_RATE" flag outcome
                          :: mkMetricRow name (id_value (ex_id row)) "EXECUTION_TIME" d
                               outcome
                          :: agent_metrics st
                     /\ match respond env (List.length (trace st) + 3)
                                (call_statement env fn params) with
                        | Rows _ => outcome = "SUCCESS" /\ flag = 1%Z
                        | Raises _ => outcome = "FAILURE" /\ flag = 0%Z
                        end) st).
  { unfold _execute_agent. wp_pure.
    apply wp_session_sql_through; [now apply Hlog|].
    intros [u|] _ Hu; [clear Hu | discriminate]. st_simpl.
    wp_pure. apply wp_first_cell; [intros ? _|discriminate]. wp_pure. st_simpl.
    apply wp_session_sql_through; [now apply Hlog|]. intros c1 _ _. st_simpl.
    wp_pure.
    apply wp_session_sql_through; [now apply Hlog|]. intros c2 _ _. st_simpl.
    rewrite value_eqb_refl, String.eqb_refl. st_simpl. cbn [andb].
    wp_pure. apply wp_first_cell; [intros eid Heid | discriminate].
    injection Heid as <-. wp_pure.
    unfold _call_agent_procedure, call_statement in *. wp_pure.
    apply wp_session_sql; st_simpl;
      rewrite !length_app; cbn [List.length];
      replace (List.length (trace st) + 1 + 1 + 1) with (List.length (trace st) + 3) by lia.
    - intros msg E. cbv beta iota. wp_pure.
      apply wp_session_sql_through; [now apply Hlog|]. intros c3 _ _. st_simpl.
      rewrite id_matches_refl. wp_pure.
      unfold _record_agent_metrics. wp_pure.
      apply wp_session_sql_through; [now apply Hmet|]. intros c4 _ _. st_simpl.
      wp_pure. rewrite E.
      do 6 eexists. split; [reflexivity|].
      split; [reflexivity|]. st_simpl. split; [reflexivity|].
      split; [reflexivity|]. split; reflexivity.
    - intros c E. cbv beta iota.
      assert (Hc : forall Q' st0, Q' (Ok (returned c)) st0 ->
                wp (match c with Some c0 => ret c0 | None => ret (VDict []) end) Q' st0)
        by (intros; destruct c; assumption).
      apply Hc. clear Hc. wp_pure.
      apply wp_session_sql_through; [now apply Hlog|]. intros c3 _ _. st_simpl.
      rewrite id_matches_refl. wp_pure.
      unfold _record_agent_metrics. wp_pure.
      apply wp_session_sql_through; [now apply Hmet|]. intros c4 _ _. st_simpl.
      wp_pure. rewrite E.
      do 6 eexists. split; [reflexivity|].
      split; [reflexivity|]. st_simpl. split; [reflexivity|].
      split; [reflexivity|]. split; reflexivity. }
  apply wp_elim in H as (res & st' & E & v & row & rest & outcome & flag & d & -> & H).
  exists v, st', row, rest, outcome, flag, d. now split.
Qed.

Lemma step_records_metrics_witness :
  log_store_ok profile_down_env
  /\ metrics_store_ok profile_down_env
  /\ exists v st' row rest outcome flag d,
      _execute_agent profile_down_env "PROFILING" "SP_AGENT_PROFILE"
        (profiling_parameters customers_stage) initial_state = (Ok v, st')
      /\ agent_execution_log st' = row :: rest
      /\ ex_duration row = Some d
      /\ agent_metrics st'
         = mkMetricRow "PROFILING" (id_value (ex_id row)) "SUCCESS_RATE" flag outcome
           :: mkMetricRow "PROFILING" (id_value (ex_id row)) "EXECUTION_TIME" d outcome
           :: agent_metrics initial_state
      /\ match respond profile_down_env (List.length (trace initial_state) + 3)
                 (call_statement profile_down_env "SP_AGENT_PROFILE"
                    (profiling_parameters customers_stage)) with
         | Rows _ => outcome = "SUCCESS" /\ flag = 1%Z
         | Raises _ => outcome = "FAILURE" /\ flag = 0%Z
         end.
Proof.
  assert (Hlog : log_store_ok profile_down_env)
    by (apply scenario_store_ok; reflexivity).
  assert (Hmet : metrics_store_ok profile_down_env)
    by (intros n s Hs; destruct s; try discriminate; reflexivity).
  split; [exact Hlog|]. split; [exact Hmet|].
  exact (step_records_metrics profile_down_env "PROFILING" "SP_AGENT_PROFILE"
           (profiling_parameters customers_stage) initial_state Hlog Hmet).
Defined.

(** ** Rows that existed before a run *)

Lemma keeps_refl n st : keeps n st st.
Proof. intros H. auto. Qed.

Lemma keeps_trans n a b c : keeps n a b -> keeps n b c -> keeps n a c.
Proof.
  intros Hab Hbc Ha. destruct (Hab Ha) as (Hb & W1 & L1).
  destruct (Hbc Hb) as (Hc & W2 & L2). repeat split; congruence.
Qed.

Lemma fresh_key_id n m : n <= m -> fresh_key n (id_value m).
Proof.
  intros H k Hk. unfold id_matches, id_value. simpl.
  apply Z.eqb_neq. lia.
Qed.

Lemma filter_update_where {R} (key : R -> nat) (n : nat) v (f : R -> R) rows :
  fresh_key n v ->
  (forall r, key (f r) = key r) ->
  filter (fun r => Nat.ltb (key r) n) (update_where key v f rows)
  = filter (fun r => Nat.ltb (key r) n) rows.
Proof.
  intros Hv Hf. unfold update_where.
  induction rows as [|r rows IH]; simpl; [reflexivity|].
  destruct (id_matches v (key r)) eqn:E.
  - rewrite Hf. destruct (Nat.ltb (key r) n) eqn:K.
    + apply Nat.ltb_lt in K. rewrite (Hv _ K) in E. discriminate.
    + exact IH.
  - destruct (Nat.ltb (key r) n); now rewrite IH.
Qed.

(** A statement that updates no row below [n] leaves those rows as they
    are, whether it raises or goes through. *)
Lemma keeps_session_sql n env s :
  touches_only_new n s -> frames (keeps n) (session_sql env s).
Proof.
  intros Hs st Hn. unfold session_sql.
  destruct (respond env (List.length (trace st)) s) as [msg|c].
  - simpl. auto.
  - assert (E : n <= next_id (snd (table_effect s c st))
                /\ old_workflows n (snd (table_effect s c st)) = old_workflows n st
                /\ old_log n (snd (table_effect s c st)) = old_log n st).
    { unfold old_workflows, old_log.
      destruct s; simpl in *; repeat split; auto;
        try (apply filter_update_where; [exact Hs | intros []; reflexivity]);
        try (apply Nat.ltb_ge in Hn; now rewrite Hn). }
    destruct (table_effect s c st) as [c' st']. simpl in *. exact E.
Qed.

Lemma keeps_agent_sequence_append n name : frames (keeps n) (agent_sequence_append name).
Proof. intros st H. simpl. auto. Qed.

Ltac keeps_split n leaf := frames_split (keeps_refl n) (keeps_trans n) leaf.

Ltac keeps_sql := apply keeps_session_sql; first [exact I | assumption].

(** The step executor updates only the log entry it has just inserted. *)
Lemma keeps_execute_agent n env name fn params :
  frames (keeps n) (_execute_agent env name fn params).
Proof.
  intros st.
  change (wp (_execute_agent env name fn params) (fun _ st' => keeps n st st') st).
  unfold _execute_agent. wp_pure.
  apply wp_session_sql; [intros msg _; intros Hn; st_simpl; auto|].
  intros c0 _. st_simpl. wp_pure.
  apply wp_first_cell; [intros u _ | intros _; intros Hn; st_simpl; auto].
  wp_pure. st_simpl.
  apply wp_session_sql; [intros msg _; intros Hn; st_simpl; auto|].
  intros c1 _. st_simpl. wp_pure.
  apply wp_session_sql.
  { intros msg _. intros Hn. unfold old_workflows, old_log. st_simpl.
    repeat split; auto. cbn [filter ex_id]. apply Nat.ltb_ge in Hn. now rewrite Hn. }
  intros c2 _. st_simpl.
  rewrite value_eqb_refl, String.eqb_refl. cbn [andb]. st_simpl.
  wp_pure. apply wp_first_cell; [intros eid Heid | discriminate].
  injection Heid as <-.
  match goal with
  | |- wp ?rest _ ?s3 =>
      assert (Hrest : fresh_key n (id_value (next_id st)) -> frames (keeps n) rest);
        [| assert (Hbase : keeps n st s3) ]
  end.
  - intros Hfresh. unfold _call_agent_procedure, _record_agent_metrics.
    keeps_split n keeps_sql.
  - intros Hn. unfold old_workflows, old_log. st_simpl.
    repeat split; auto. cbn [filter ex_id]. apply Nat.ltb_ge in Hn. now rewrite Hn.
  - unfold wp. cbv beta. intros Hn. destruct (Hbase Hn) as (H3 & W3 & L3).
    destruct (Hrest (fresh_key_id _ _ Hn) _ H3) as (H4 & W4 & L4).
    repeat split; congruence.
Qed.

Lemma keeps_generate_workflow_summary n env results :
  frames (keeps n) (_generate_workflow_summary env results).
Proof. unfold _generate_workflow_summary. keeps_split n keeps_sql. Qed.

(** The steps of any workflow type leave the rows below [n] alone. *)
Lemma keeps_dispatch n env stage_path target_schema target_table workflow_type :
  frames (keeps n) (dispatch env stage_path target_schema target_table workflow_type).
Proof.
  unfold dispatch, _execute_full_onboarding, _execute_profiling_only, _execute_mapping_only.
  keeps_split n ltac:(first
    [ apply keeps_execute_agent
    | apply keeps_agent_sequence_append
    | apply keeps_generate_workflow_summary ]).
Qed.

Lemma session_sql_workflow_id env s :
  frames (fun a b => workflow_id b = workflow_id a) (session_sql env s).
Proof.
  intros st. unfold session_sql.
  destruct (respond env (List.length (trace st)) s) as [msg|c]; [reflexivity|].
  destruct s; reflexivity.
Qed.

(** The [try] block and its handler update only the record the instance
    points at. *)
Lemma keeps_guarded_run n env stage_path target_schema target_table workflow_type st :
  fresh_key n (workflow_id st) ->
  wp (guarded_run env stage_path target_schema target_table workflow_type)
     (fun _ st' => keeps n st st') st.
Proof.
  intros Hfresh. unfold guarded_run. apply wp_try_except, wp_bind.
  eapply wp_conseq;
    [apply wp_and;
       [apply wp_and; [apply (wp_frames silent), silent_dispatch
                      | apply (wp_frames (keeps n)), keeps_dispatch]
       | apply dispatch_duration_numeric]|].
  assert (Hfail : forall e st2,
             workflow_id st2 = workflow_id st -> keeps n st st2 ->
             wp (_fail_workflow env (exn_msg e);;; @reraise Dict e)
                (fun _ st' => keeps n st st') st2).
  { intros e st2 I K. unfold _fail_workflow. wp_pure.
    eapply wp_conseq;
      [apply (wp_frames (keeps n)), keeps_session_sql; simpl; now rewrite I|].
    intros [c|e'] st3 K3; cbv beta iota; wp_pure; eapply keeps_trans; eassumption. }
  intros [results|e] st2; cbv beta iota.
  - intros [[(_ & I & _) K] [z Hz]]. unfold _complete_workflow. wp_pure.
    eapply wp_conseq;
      [apply wp_and;
         [apply (wp_frames (keeps n)), keeps_session_sql; simpl; now rewrite I
         | apply (wp_frames (fun a b => workflow_id b = workflow_id a)),
             session_sql_workflow_id]|].
    intros [c|e'] st3 [K3 I3]; cbv beta iota.
    + wp_pure. rewrite Hz. unfold format_2f. wp_pure. eapply keeps_trans; eassumption.
    + apply Hfail.
      * congruence.
      * eapply keeps_trans; eassumption.
  - intros [[(_ & I & _) K] _]. now apply Hfail.
Qed.

(** X7.  Whatever the session answers, a run of any workflow type leaves
    every workflow record and every log entry whose id was issued before
    the run ([n] at most the next id) exactly as it was, in the same order:
    a run rewrites only the rows it has inserted itself. *)
Theorem run_keeps_older_rows env stage_path target_schema target_table workflow_type n st :
  n <= next_id st ->
  let st' :=
    snd (execute_onboarding_workflow env stage_path target_schema target_table
           workflow_type st) in
  n <= next_id st'
  /\ old_workflows n st' = old_workflows n st
  /\ old_log n st' = old_log n st.
Proof.
  intros Hn.
  change (wp (execute_onboarding_workflow env stage_path target_schema target_table
                workflow_type)
             (fun _ st' => n <= next_id st'
                           /\ old_workflows n st' = old_workflows n st
                           /\ old_log n st' = old_log n st) st).
  assert (Hlt : Nat.ltb (next_id st) n = false) by now apply Nat.ltb_ge.
  unfold execute_onboarding_workflow, _initialize_workflow. wp_pure.
  apply wp_session_sql; [intros msg _; unfold old_workflows, old_log; st_simpl; auto|].
  intros c0 _. st_simpl. wp_pure.
  apply wp_session_sql.
  { intros msg _. unfold old_workflows, old_log. st_simpl.
    cbn [filter wf_id]. rewrite Hlt. auto. }
  intros c1 _. st_simpl. wp_pure.
  apply wp_first_cell; [intros wid Hwid | discriminate]. injection Hwid as <-.
  wp_pure.
  assert (Hupd : filter (fun r => Nat.ltb (wf_id r) n)
                   (update_where wf_id (id_value (next_id st)) (set_wf_status IN_PROGRESS)
                      (workflow_executions st))
                 = filter (fun r => Nat.ltb (wf_id r) n) (workflow_executions st)).
  { apply filter_update_where; [now apply fresh_key_id | intros []; reflexivity]. }
  unfold update_where in Hupd.
  apply wp_session_sql.
  { intros msg _. unfold old_workflows, old_log. st_simpl.
    cbn [filter wf_id]. rewrite Hlt. auto. }
  intros c2 _. st_simpl. rewrite id_matches_refl. wp_pure.
  eapply wp_conseq; [apply (keeps_guarded_run n); st_simpl; now apply fresh_key_id|].
  intros r st' K. cbv beta in K.
  destruct K as (N & W & L).
  - st_simpl. lia.
  - split; [exact N|]. rewrite W, L. unfold old_workflows, old_log. st_simpl.
    cbn [filter wf_id set_wf_status]. rewrite Hlt, Hupd. auto.
Qed.

Lemma run_keeps_older_rows_witness :
  let st1 := snd (execute_onboarding_workflow happy_env customers_stage "CORE" None
                    "ONBOARDING" initial_state) in
  let st2 := snd (execute_onboarding_workflow profile_down_env customers_stage "CORE" None
                    "ONBOARDING" st1) in
  next_id st1 <= next_id st1
  /\ next_id st1 <= next_id st2
  /\ old_workflows (next_id st1) st2 = old_workflows (next_id st1) st1
  /\ old_log (next_id st1) st2 = old_log (next_id st1) st1.
Proof.
  intros st1 st2. split; [lia|].
  apply (run_keeps_older_rows profile_down_env customers_stage "CORE" None "ONBOARDING"
           (next_id st1) st1). lia.
Defined.

(** ** The stored-procedure wrapper *)

(** X8.  Through [sp_orchestrate_onboarding], which makes a new orchestrator
    object for every call, a completed ONBOARDING run persists exactly its
    three steps, whatever steps an earlier orchestrator had accumulated; the
    procedure returns the serialised results. *)
Theorem wrapper_run_starts_afresh env stage_path target_schema target_table st :
  record_store_ok env ->
  procedure_succeeds env "SP_AGENT_PROFILE" ->
  procedure_succeeds env "SP_AGENT_DICTIONARY" ->
  procedure_succeeds env "SP_AGENT_MAPPING" ->
  exists results st' r,
    sp_orchestrate_onboarding env stage_path target_schema target_table "ONBOARDING" st
    = (Ok (json_dumps env (VDict results)), st')
    /\ workflow_record st' (workflow_id st') = Some r
    /\ wf_status r = COMPLETED
    /\ wf_agent_sequence r = Some ["PROFILING"; "DICTIONARY"; "MAPPING"].
Proof.
  intros Hst Hp Hd Hm.
  destruct (onboarding_completes env stage_path target_schema target_table
              (with_agent_sequence [] (with_workflow_id VNone st)) Hst Hp Hd Hm)
    as (results & st' & new & r & summary & asked & E & _ & _ & R & S & Q & _).
  exists results, st', r.
  split; [| now repeat split].
  unfold sp_orchestrate_onboarding, bind, __init__, ret. now rewrite E.
Qed.

Lemma wrapper_run_starts_afresh_witness :
  let used := snd (execute_onboarding_workflow happy_env customers_stage "CURATED" None
                     "ONBOARDING" initial_state) in
  record_store_ok happy_env
  /\ procedure_succeeds happy_env "SP_AGENT_PROFILE"
  /\ procedure_succeeds happy_env "SP_AGENT_DICTIONARY"
  /\ procedure_succeeds happy_env "SP_AGENT_MAPPING"
  /\ agent_sequence used = ["PROFILING"; "DICTIONARY"; "MAPPING"]
  /\ exists results st' r,
      sp_orchestrate_onboarding happy_env customers_stage "CURATED" None "ONBOARDING" used
      = (Ok (json_dumps happy_env (VDict results)), st')
      /\ workflow_record st' (workflow_id st') = Some r
      /\ wf_status r = COMPLETED
      /\ wf_agent_sequence r = Some ["PROFILING"; "DICTIONARY"; "MAPPING"].
Proof.
  intros used.
  assert (Hst : record_store_ok happy_env)
    by (split; apply scenario_store_ok; reflexivity).
  assert (Hp : procedure_succeeds happy_env "SP_AGENT_PROFILE")
    by (apply scenario_procedure_succeeds; reflexivity).
  assert (Hd : procedure_succeeds happy_env "SP_AGENT_DICTIONARY")
    by (apply scenario_procedure_succeeds; reflexivity).
  assert (Hm : procedure_succeeds happy_env "SP_AGENT_MAPPING")
    by (apply scenario_procedure_succeeds; reflexivity).
  repeat (split; [assumption|]).
  split; [reflexivity|].
  apply (wrapper_run_starts_afresh happy_env customers_stage "CURATED" None used); auto.
Defined.

(** ** When the COMPLETED write fails *)

(** X9.  When the write that records COMPLETED raises while the other
    statements on the workflow table go through, no run hands back results,
    whatever its steps did, even if all of them succeeded: the handler of
    the [try] block takes the error of the write, the record is persisted as
    FAILED with the text of the error the run ends in, and FAILED is the
    only terminal status written. *)
Theorem completion_failure_fails_run env stage_path target_schema target_table
  workflow_type st :
  other_workflow_writes_ok env ->
  completion_write_fails env ->
  exists e st' new r,
    execute_onboarding_workflow env stage_path target_schema target_table workflow_type st
    = (Raise e, st')
    /\ trace st' = trace st ++ new
    /\ status_writes new = [INITIATED; IN_PROGRESS; FAILED]
    /\ workflow_record st' (workflow_id st') = Some r
    /\ wf_type r = workflow_type
    /\ wf_status r = FAILED
    /\ wf_error r = Some (exn_msg e).
Proof.
  intros Hok Hdown.
  assert (H : wp (execute_onboarding_workflow env stage_path target_schema target_table
                    workflow_type)
                (fun res st' =>
                   exists e new r,
                     res = Raise e
                     /\ trace st' = trace st ++ new
                     /\ status_writes new = [INITIATED; IN_PROGRESS; FAILED]
                     /\ workflow_record st' (workflow_id st') = Some r
                     /\ wf_type r = workflow_type
                     /\ wf_status r = FAILED
                     /\ wf_error r = Some (exn_msg e)) st).
  { unfold execute_onboarding_workflow, _initialize_workflow. wp_pure.
    apply wp_session_sql_through; [now apply Hok|]. intros c0 _ _. st_simpl. wp_pure.
    apply wp_session_sql_through; [now apply Hok|]. intros c1 _ _. st_simpl. wp_pure.
    apply wp_first_cell; [intros wid Hwid | discriminate]. injection Hwid as <-.
    wp_pure.
    apply wp_session_sql_through; [now apply Hok|]. intros c2 _ _. st_simpl.
    rewrite id_matches_refl. wp_pure.
    match goal with
    | |- wp _ _ ?s1 =>
        assert (S1 : started workflow_type stage_path target_schema st s1)
          by (constructor; st_simpl; try reflexivity; now rewrite <- !app_assoc);
        generalize dependent s1; intros st1 S1
    end.
    unfold guarded_run. apply wp_try_except, wp_bind.
    eapply wp_conseq;
      [apply wp_and; [apply (wp_frames silent), silent_dispatch
                     | apply dispatch_duration_numeric]|].
    assert (Hfail : forall e st2 new,
               workflow_executions st2 = workflow_executions st1 ->
               workflow_id st2 = workflow_id st1 ->
               trace st2 = trace st1 ++ new -> status_writes new = [] ->
               wp (_fail_workflow env (exn_msg e);;; @reraise Dict e)
                  (fun res st' =>
                     exists e new r,
                       res = Raise e
                       /\ trace st' = trace st ++ new
                       /\ status_writes new = [INITIATED; IN_PROGRESS; FAILED]
                       /\ workflow_record st' (workflow_id st') = Some r
                       /\ wf_type r = workflow_type
                       /\ wf_status r = FAILED
                       /\ wf_error r = Some (exn_msg e)) st2).
    { intros e st2 new W I T Q. unfold _fail_workflow. wp_pure.
      apply wp_session_sql_through; [now apply Hok|]. intros c _ _. wp_pure.
      destruct (failed_record env e _ _ _ st st1 st2 S1 W I)
        as (r & Hr & _ & Ht & Hs & He & _).
      destruct S1 as [I0 W0 L0 Q0 T0].
      exists e. eexists. exists r. split; [reflexivity|].
      unfold failed_state in *. st_simpl.
      split; [rewrite T, T0, <- !app_assoc; reflexivity|].
      split; [| now repeat split].
      rewrite !status_writes_app, Q. reflexivity. }
    intros [results|e] st2; cbv beta iota.
    - intros [(W & I & new & T & Q) [z Hz]]. unfold _complete_workflow. wp_pure.
      apply wp_session_sql.
      + intros msg _. cbv beta iota.
        apply (Hfail _ _ (new ++ [(UpdateWorkflowCompleted (workflow_id st2)
                                     (dict_get results "total_duration_seconds" (VNum 0))
                                     (agent_sequence st2), false)]));
          st_simpl; try assumption.
        * rewrite T, <- app_assoc. reflexivity.
        * now rewrite status_writes_app, Q.
      + intros c E. destruct (Hdown (List.length (trace st2))
                                (UpdateWorkflowCompleted (workflow_id st2)
                                   (dict_get results "total_duration_seconds" (VNum 0))
                                   (agent_sequence st2)) eq_refl) as [msg E'].
        rewrite E' in E. discriminate.
    - intros [(W & I & new & T & Q) _]. now apply Hfail with new. }
  apply wp_elim in H as (res & st' & E & e & new & r & -> & H).
  exists e, st', new, r. now split.
Qed.

Lemma completion_failure_fails_run_witness :
  let run := execute_onboarding_workflow completion_down_env customers_stage "CURATED" None
               "ONBOARDING" initial_state in
  other_workflow_writes_ok completion_down_env
  /\ completion_write_fails completion_down_env
  /\ calls (trace (snd run)) = ["SP_AGENT_PROFILE"; "SP_AGENT_DICTIONARY"; "SP_AGENT_MAPPING"]
  /\ map ex_status (agent_execution_log (snd run))
     = [LOG_COMPLETED; LOG_COMPLETED; LOG_COMPLETED]
  /\ exists e st' new r,
      run = (Raise e, st')
      /\ trace st' = trace initial_state ++ new
      /\ status_writes new = [INITIATED; IN_PROGRESS; FAILED]
      /\ workflow_record st' (workflow_id st') = Some r
      /\ wf_type r = "ONBOARDING"
      /\ wf_status r = FAILED
      /\ wf_error r = Some (exn_msg e).
Proof.
  intros run.
  assert (Hok : other_workflow_writes_ok completion_down_env)
    by (intros n s Ht Hc; destruct s; try discriminate; reflexivity).
  assert (Hdown : completion_write_fails completion_down_env)
    by (intros n s Hs; destruct s; try discriminate; eexists; reflexivity).
  split; [exact Hok|]. split; [exact Hdown|].
  split; [reflexivity|]. split; [reflexivity|].
  exact (completion_failure_fails_run completion_down_env customers_stage "CURATED" None
           "ONBOARDING" initial_state Hok Hdown).
Defined.

(** ** When the initialisation fails *)

(** X10.  [_initialize_workflow] runs outside the [try] block: when one of
    its three statements raises, the run ends in that error without calling
    any procedure and without writing FAILED.  If it was the INSERT, no
    record exists; otherwise the record of the run stays behind as
    INITIATED, and the execution log is untouched. *)
Theorem initialization_failure_escapes env stage_path target_schema target_table
  workflow_type st k msg :
  init_fails_at env workflow_type stage_path target_schema st k msg ->
  exists st' new,
    execute_onboarding_workflow env stage_path target_schema target_table workflow_type st
    = (Raise (mkExn SnowparkSQLException msg), st')
    /\ trace st' = trace st ++ new
    /\ calls new = []
    /\ status_writes new = (if Nat.eqb k 0 then [] else [INITIATED])
    /\ workflow_executions st'
       = (if Nat.eqb k 0 then []
          else [initiated_row workflow_type stage_path target_schema st])
         ++ workflow_executions st
    /\ agent_execution_log st' = agent_execution_log st.
Proof.
  intros [(s & Hs & Hraise) Hbefore].
  assert (H : wp (execute_onboarding_workflow env stage_path target_schema target_table
                    workflow_type)
                (fun res st' =>
                   res = Raise (mkExn SnowparkSQLException msg)
                   /\ exists new,
                       trace st' = trace st ++ new
                       /\ calls new = []
                       /\ status_writes new = (if Nat.eqb k 0 then [] else [INITIATED])
                       /\ workflow_executions st'
                          = (if Nat.eqb k 0 then []
                             else [initiated_row workflow_type stage_path target_schema st])
                            ++ workflow_executions st
                       /\ agent_execution_log st' = agent_execution_log st) st).
  { unfold execute_onboarding_workflow, _initialize_workflow. wp_pure.
    destruct k as [|k].
    { simpl in Hs. injection Hs as <-. rewrite Nat.add_0_r in Hraise.
      apply wp_session_sql; [| intros c E; rewrite E in Hraise; discriminate].
      intros msg' E. rewrite E in Hraise. injection Hraise as ->.
      split; [reflexivity|]. eexists. st_simpl. repeat split. }
    apply wp_session_sql_through.
    { specialize (Hbefore 0 _ (Nat.lt_0_succ k) eq_refl).
      now rewrite Nat.add_0_r in Hbefore. }
    intros c0 _ _. st_simpl. wp_pure.
    destruct k as [|k].
    { simpl in Hs. injection Hs as <-.
      apply wp_session_sql;
        [| intros c E; st_simpl; rewrite length_app in E; simpl in E;
           rewrite E in Hraise; discriminate].
      intros msg' E. st_simpl. rewrite length_app in E. simpl in E.
      rewrite E in Hraise. injection Hraise as ->.
      split; [reflexivity|]. eexists. st_simpl. rewrite <- app_assoc.
      repeat split. }
    apply wp_session_sql_through.
    { specialize (Hbefore 1 _ ltac:(lia) eq_refl). st_simpl.
      now rewrite length_app. }
    intros c1 _ _. st_simpl. wp_pure.
    apply wp_first_cell; [intros wid Hwid | discriminate]. injection Hwid as <-.
    wp_pure.
    destruct k as [|k]; [| destruct k; discriminate].
    simpl in Hs. injection Hs as <-.
    apply wp_session_sql.
    - intros msg' E. st_simpl. rewrite !length_app in E. simpl in E.
      rewrite <- Nat.add_assoc in E. simpl in E.
      rewrite E in Hraise. injection Hraise as ->.
      split; [reflexivity|]. eexists. st_simpl. rewrite <- !app_assoc.
      repeat split.
    - intros c E. st_simpl. rewrite !length_app in E. simpl in E.
      rewrite <- Nat.add_assoc in E. simpl in E.
      rewrite E in Hraise. discriminate. }
  apply wp_elim in H as (res & st' & E & -> & new & H).
  exists st', new. now split.
Qed.

Lemma initialization_failure_escapes_witness :
  init_fails_at start_down_env "ONBOARDING" customers_stage "CURATED" initial_state 2
    "statement failed"
  /\ exists st' new,
      execute_onboarding_workflow start_down_env customers_stage "CURATED" None "ONBOARDING"
        initial_state
      = (Raise (mkExn SnowparkSQLException "statement failed"), st')
      /\ trace st' = trace initial_state ++ new
      /\ calls new = []
      /\ status_writes new = [INITIATED]
      /\ workflow_executions st'
         = [initiated_row "ONBOARDING" customers_stage "CURATED" initial_state]
           ++ workflow_executions initial_state
      /\ agent_execution_log st' = agent_execution_log initial_state.
Proof.
  assert (H : init_fails_at start_down_env "ONBOARDING" customers_stage "CURATED"
                initial_state 2 "statement failed").
  { split.
    - eexists. split; reflexivity.
    - intros j s Hj Hs. destruct j as [|[|j]]; [| | lia];
        simpl in Hs; injection Hs as <-; reflexivity. }
  split; [exact H|].
  exact (initialization_failure_escapes start_down_env customers_stage "CURATED" None
           "ONBOARDING" initial_state 2 "statement failed" H).
Defined.

(** ** What the procedures are called with *)

Lemma procedure_calls_app (a b : list (Stmt * bool)) :
  procedure_calls (a ++ b) = procedure_calls a ++ procedure_calls b.
Proof. unfold procedure_calls. now rewrite map_app, filter_app. Qed.

(** When the log statements go through, a step sends exactly one CALL, with
    the parameters rendered in the order of the dict. *)
Lemma wp_execute_agent_call env name fn params st :
  log_store_ok env ->
  wp (_execute_agent env name fn params)
     (fun _ st' =>
        exists new, trace st' = trace st ++ new
                    /\ procedure_calls new = [call_statement env fn params]) st.
Proof.
  intros Hlog. unfold _execute_agent.
  wp_pure.
  apply wp_session_sql_through; [now apply Hlog|].
  intros [u|] _ Hu; [clear Hu | discriminate]. st_simpl.
  wp_pure. apply wp_first_cell; [intros ? _|discriminate]. wp_pure. st_simpl.
  apply wp_session_sql_through; [now apply Hlog|]. intros c1 _ _. st_simpl.
  wp_pure.
  apply wp_session_sql_through; [now apply Hlog|]. intros c2 _ _. st_simpl.
  rewrite value_eqb_refl, String.eqb_refl. st_simpl. cbn [andb].
  wp_pure. apply wp_first_cell; [intros eid Heid | discriminate].
  injection Heid as <-. wp_pure.
  unfold _call_agent_procedure, call_statement in *. wp_pure.
  assert (Hmet : forall s ok, target s = MetricsTable -> procedure_calls [(s, ok)] = [])
    by (intros s ok Hs; destruct s; try discriminate; reflexivity).
  apply wp_session_sql; st_simpl.
  - intros msg E. cbv beta iota. wp_pure.
    apply wp_session_sql_through; [now apply Hlog|]. intros c3 _ _. st_simpl.
    wp_pure.
    apply wp_record_agent_metrics. st_simpl.
    intros st' W L I S (s & ok & Hs & T). wp_pure.
    eexists. rewrite T, <- !app_assoc. split; [reflexivity|].
    rewrite !procedure_calls_app, (Hmet s ok Hs). reflexivity.
  - intros c E. cbv beta iota.
    assert (Hc : forall Q' st0, Q' (Ok (returned c)) st0 ->
              wp (match c with Some c0 => ret c0 | None => ret (VDict []) end) Q' st0)
      by (intros; destruct c; assumption).
    apply Hc. clear Hc. wp_pure.
    apply wp_session_sql_through; [now apply Hlog|]. intros c3 _ _. st_simpl.
    wp_pure.
    apply wp_record_agent_metrics. st_simpl.
    intros st' W L I S (s & ok & Hs & T). wp_pure.
    eexists. rewrite T, <- !app_assoc. split; [reflexivity|].
    rewrite !procedure_calls_app, (Hmet s ok Hs). reflexivity.
Qed.

Lemma wp_execute_agent_traced env name fn params Q st :
  log_store_ok env ->
  (forall v st',
      step_run env name fn
        (respond env (List.length (trace st) + 3) (call_statement env fn params)) st v st' ->
      (exists new, trace st' = trace st ++ new
                   /\ procedure_calls new = [call_statement env fn params]) ->
      Q (Ok v) st') ->
  wp (_execute_agent env name fn params) Q st.
Proof.
  intros Hlog HQ.
  eapply wp_conseq;
    [apply wp_and;
       [apply (wp_execute_agent env name fn params
                 (fun r st' =>
                    exists v, r = Ok v
                      /\ step_run env name fn
                           (respond env (List.length (trace st) + 3)
                              (call_statement env fn params)) st v st'));
          [exact Hlog | eauto]
       | apply wp_execute_agent_call; exact Hlog]|].
  intros r st' [(v & -> & R) C]. now apply HQ.
Qed.

(** X11.  In an ONBOARDING run whose three procedures succeed (record store
    taking its statements), each step is handed the result of the one
    before: the dictionary procedure is called with the JSON text of the
    profiling result and the mapping procedure with the JSON text of the
    dictionary result, both exactly as they appear in the results handed
    back.  The dictionary step always targets AGENTIC_PLATFORM_DEV.STAGING,
    whatever target schema the caller gave; the mapping step gets the
    caller's target schema and its target table, or AUTO when that is
    missing or empty.  The results list the three steps of this run only,
    whatever the instance had accumulated before. *)
Theorem onboarding_hands_results_on env stage_path target_schema target_table st :
  record_store_ok env ->
  procedure_succeeds env "SP_AGENT_PROFILE" ->
  procedure_succeeds env "SP_AGENT_DICTIONARY" ->
  procedure_succeeds env "SP_AGENT_MAPPING" ->
  exists results st' new v1 v2 v3,
    execute_onboarding_workflow env stage_path target_schema target_table "ONBOARDING" st
    = (Ok results, st')
    /\ trace st' = trace st ++ new
    /\ procedure_calls new
       = [CallProcedure "SP_AGENT_PROFILE"
            ["'" ++ stage_path ++ "'"; py_str env (VNum 10000); "'CSV_FORMAT'"]%string;
          CallProcedure "SP_AGENT_DICTIONARY"
            ["'" ++ json_dumps env v1 ++ "'"; "'AGENTIC_PLATFORM_DEV'"; "'STAGING'"]%string;
          CallProcedure "SP_AGENT_MAPPING"
            ["'" ++ json_dumps env v2 ++ "'"; "'" ++ target_schema ++ "'";
             "'" ++ table_or_auto target_table ++ "'"]%string]
    /\ dict_lookup results "profiling" = Some v1
    /\ dict_lookup results "dictionary" = Some v2
    /\ dict_lookup results "mapping" = Some v3
    /\ dict_lookup results "agents_executed"
       = Some (VList [VStr "PROFILING"; VStr "DICTIONARY"; VStr "MAPPING"]).
Proof.
  intros [Hlog Hwf] Hprof Hdict Hmap.
  assert (H : wp (execute_onboarding_workflow env stage_path target_schema target_table
                    "ONBOARDING")
                (fun res st' =>
                   exists results new v1 v2 v3,
                     res = Ok results
                     /\ trace st' = trace st ++ new
                     /\ procedure_calls new
                        = [CallProcedure "SP_AGENT_PROFILE"
                             ["'" ++ stage_path ++ "'"; py_str env (VNum 10000);
                              "'CSV_FORMAT'"]%string;
                           CallProcedure "SP_AGENT_DICTIONARY"
                             ["'" ++ json_dumps env v1 ++ "'"; "'AGENTIC_PLATFORM_DEV'";
                              "'STAGING'"]%string;
                           CallProcedure "SP_AGENT_MAPPING"
                             ["'" ++ json_dumps env v2 ++ "'"; "'" ++ target_schema ++ "'";
                              "'" ++ table_or_auto target_table ++ "'"]%string]
                     /\ dict_lookup results "profiling" = Some v1
                     /\ dict_lookup results "dictionary" = Some v2
                     /\ dict_lookup results "mapping" = Some v3
                     /\ dict_lookup results "agents_executed"
                        = Some (VList [VStr "PROFILING"; VStr "DICTIONARY"; VStr "MAPPING"]))
                st).
  { apply wp_execute_onboarding_workflow; [exact Hwf|]. intros st1 S1.
    apply wp_guarded_run; [exact Hwf|].
    unfold dispatch. simpl (String.eqb "ONBOARDING" "ONBOARDING"). cbv iota.
    unfold _execute_full_onboarding. wp_pure.
    apply wp_execute_agent_traced; [exact Hlog|].
    intros v1 st2 R1 (new1 & T1 & C1). cbv beta iota. wp_pure.
    destruct R1 as [V1 _ _ _ _ _]; st_simpl.
    apply wp_check_agent_result;
      [intros O1 | intros F; now rewrite (procedure_succeeds_value _ _ _ _ _ Hprof V1) in F].
    wp_pure.
    apply wp_execute_agent_traced; [exact Hlog|].
    intros v2 st3 R2 (new2 & T2 & C2). cbv beta iota. wp_pure.
    destruct R2 as [V2 _ _ _ _ _]; st_simpl.
    apply wp_check_agent_result;
      [intros O2 | intros F; now rewrite (procedure_succeeds_value _ _ _ _ _ Hdict V2) in F].
    wp_pure.
    apply wp_execute_agent_traced; [exact Hlog|].
    intros v3 st4 R3 (new3 & T3 & C3). cbv beta iota. wp_pure.
    destruct R3 as [V3 _ _ _ _ _]; st_simpl.
    apply wp_check_agent_result;
      [intros O3 | intros F; now rewrite (procedure_succeeds_value _ _ _ _ _ Hmap V3) in F].
    wp_pure.
    destruct (agent_result_ok_dict _ O1) as [d1 ->].
    destruct (agent_result_ok_dict _ O2) as [d2 ->].
    destruct (agent_result_ok_dict _ O3) as [d3 ->].
    eapply wp_generate_workflow_summary; try (dict_simpl; reflexivity).
    intros summary asked s Hs _. wp_pure.
    destruct S1 as [_ _ _ _ T0].
    eexists. eexists. exists (VDict d1), (VDict d2), (VDict d3).
    split; [reflexivity|].
    unfold completed_state. st_simpl.
    split; [rewrite T3, T2, T1, T0, <- !app_assoc; reflexivity|].
    split; [| dict_simpl; repeat split; reflexivity].
    rewrite !procedure_calls_app, C1, C2, C3.
    destruct s; try discriminate. reflexivity. }
  apply wp_elim in H as (res & st' & E & results & new & v1 & v2 & v3 & -> & H).
  exists results, st', new, v1, v2, v3. now split.
Qed.

Lemma onboarding_hands_results_on_witness :
  record_store_ok happy_env
  /\ procedure_succeeds happy_env "SP_AGENT_PROFILE"
  /\ procedure_succeeds happy_env "SP_AGENT_DICTIONARY"
  /\ procedure_succeeds happy_env "SP_AGENT_MAPPING"
  /\ exists results st' new v1 v2 v3,
      execute_onboarding_workflow happy_env customers_stage "CURATED" (Some "") "ONBOARDING"
        initial_state = (Ok results, st')
      /\ trace st' = trace initial_state ++ new
      /\ procedure_calls new
         = [CallProcedure "SP_AGENT_PROFILE"
              ["'" ++ customers_stage ++ "'"; py_str happy_env (VNum 10000);
               "'CSV_FORMAT'"]%string;
            CallProcedure "SP_AGENT_DICTIONARY"
              ["'" ++ json_dumps happy_env v1 ++ "'"; "'AGENTIC_PLATFORM_DEV'";
               "'STAGING'"]%string;
            CallProcedure "SP_AGENT_MAPPING"
              ["'" ++ json_dumps happy_env v2 ++ "'"; "'" ++ "CURATED" ++ "'";
               "'" ++ table_or_auto (Some "") ++ "'"]%string]
      /\ dict_lookup results "profiling" = Some v1
      /\ dict_lookup results "dictionary" = Some v2
      /\ dict_lookup results "mapping" = Some v3
      /\ dict_lookup results "agents_executed"
         = Some (VList [VStr "PROFILING"; VStr "DICTIONARY"; VStr "MAPPING"]).
Proof.
  assert (Hst : record_store_ok happy_env)
    by (split; apply scenario_store_ok; reflexivity).
  assert (Hp : procedure_succeeds happy_env "SP_AGENT_PROFILE")
    by (apply scenario_procedure_succeeds; reflexivity).
  assert (Hd : procedure_succeeds happy_env "SP_AGENT_DICTIONARY")
    by (apply scenario_procedure_succeeds; reflexivity).
  assert (Hm : procedure_succeeds happy_env "SP_AGENT_MAPPING")
    by (apply scenario_procedure_succeeds; reflexivity).
  repeat (split; [assumption|]).
  exact (onboarding_hands_results_on happy_env customers_stage "CURATED" (Some "")
           initial_state Hst Hp Hd Hm).
Defined.

(** ** The progress message after a step *)

(** X12.  The message printed after a step formats the step's execution
    time with two decimals.  When the profiling procedure succeeds but
    reports that time as a text, the format fails: the step is logged
    COMPLETED, yet the ONBOARDING run ends in a ValueError, calls no further
    procedure, and its record is FAILED with the text of that error. *)
Theorem text_time_fails_onboarding env stage_path target_schema target_table st :
  record_store_ok env ->
  procedure_reports_text_time env "SP_AGENT_PROFILE" ->
  exists st' new row rest r,
    execute_onboarding_workflow env stage_path target_schema target_table "ONBOARDING" st
    = (Raise (mkExn ValueError "Unknown format code 'f' for object of type 'str'"), st')
    /\ trace st' = trace st ++ new
    /\ calls new = ["SP_AGENT_PROFILE"]
    /\ agent_execution_log st' = row :: rest
    /\ ex_agent row = "PROFILING"
    /\ ex_status row = LOG_COMPLETED
    /\ workflow_record st' (workflow_id st') = Some r
    /\ wf_status r = FAILED
    /\ wf_error r = Some "Unknown format code 'f' for object of type 'str'".
Proof.
  intros [Hlog Hwf] Htext.
  assert (H : wp (execute_onboarding_workflow env stage_path target_schema target_table
                    "ONBOARDING")
                (fun res st' =>
                   res = Raise (mkExn ValueError
                                  "Unknown format code 'f' for object of type 'str'")
                   /\ exists new row rest r,
                       trace st' = trace st ++ new
                       /\ calls new = ["SP_AGENT_PROFILE"]
                       /\ agent_execution_log st' = row :: rest
                       /\ ex_agent row = "PROFILING"
                       /\ ex_status row = LOG_COMPLETED
                       /\ workflow_record st' (workflow_id st') = Some r
                       /\ wf_status r = FAILED
                       /\ wf_error r
                          = Some "Unknown format code 'f' for object of type 'str'") st).
  { apply wp_execute_onboarding_workflow; [exact Hwf|]. intros st1 S1.
    apply wp_guarded_run; [exact Hwf|].
    unfold dispatch. simpl (String.eqb "ONBOARDING" "ONBOARDING"). cbv iota.
    unfold _execute_full_onboarding. wp_pure.
    run_step Hlog v1 st2 R1.
    destruct R1 as [V1 W1 I1 Q1 (new1 & T1 & C1 & _ & _)
                      (row1 & rest1 & L1 & _ & N1 & _ & G1)]; st_simpl.
    unfold call_statement in V1, G1.
    destruct (Htext (List.length (trace st1) + 3)
                (map (fun kv => param_value env (snd kv))
                   [("stage_path", VStr stage_path); ("sample_size", VNum 10000);
                    ("file_format", VStr "CSV_FORMAT")])) as (c & d & t & Hc & Hd & Hs & Ht).
    rewrite Hc in V1, G1. simpl in V1, G1. rewrite Hd in V1. subst v1.
    destruct G1 as [Gs _].
    unfold wp.
    cbn [check_agent_result py_get bind raise ret fst snd]. rewrite Hs.
    cbn [check_agent_result py_get bind raise ret fst snd]. rewrite Ht.
    cbn [format_2f bind raise ret fst snd].
    destruct (failed_record env
                (mkExn ValueError "Unknown format code 'f' for object of type 'str'")
                _ _ _ st st1
                (with_agent_sequence (agent_sequence st2 ++ ["PROFILING"]) st2) S1)
      as (r & Hr & _ & _ & Hst & He & _); st_simpl; try congruence.
    split; [reflexivity|].
    destruct S1 as [I0 W0 L0 Q0 T0].
    eexists. exists row1, rest1, r. unfold failed_state in *. st_simpl.
    split; [rewrite T1, T0, <- !app_assoc; reflexivity|].
    rewrite !calls_app, C1. repeat split; assumption. }
  apply wp_elim in H as (res & st' & E & -> & new & row & rest & r & H).
  exists st', new, row, rest, r. now split.
Qed.

Lemma text_time_fails_onboarding_witness :
  record_store_ok text_time_profile_env
  /\ procedure_reports_text_time text_time_profile_env "SP_AGENT_PROFILE"
  /\ exists st' new row rest r,
      execute_onboarding_workflow text_time_profile_env customers_stage "CURATED" None
        "ONBOARDING" initial_state
      = (Raise (mkExn ValueError "Unknown format code 'f' for object of type 'str'"), st')
      /\ trace st' = trace initial_state ++ new
      /\ calls new = ["SP_AGENT_PROFILE"]
      /\ agent_execution_log st' = row :: rest
      /\ ex_agent row = "PROFILING"
      /\ ex_status row = LOG_COMPLETED
      /\ workflow_record st' (workflow_id st') = Some r
      /\ wf_status r = FAILED
      /\ wf_error r = Some "Unknown format code 'f' for object of type 'str'".
Proof.
  assert (Hok : record_store_ok text_time_profile_env)
    by (apply scenario_store_ok; reflexivity).
  assert (Ht : procedure_reports_text_time text_time_profile_env "SP_AGENT_PROFILE")
    by (intros n args; do 3 eexists; repeat split; reflexivity).
  split; [exact Hok|]. split; [exact Ht|].
  exact (text_time_fails_onboarding text_time_profile_env customers_stage "CURATED" None
           initial_state Hok Ht).
Defined.

(** ** Reading a run back *)

Lemma completed_record_row env results workflow_type stage_path target_schema st st1 st2 :
  started workflow_type stage_path target_schema st st1 ->
  workflow_executions st2 = workflow_executions st1 ->
  workflow_id st2 = workflow_id st1 ->
  workflow_record (completed_state env results st2)
    (workflow_id (completed_state env results st2))
  = Some (mkWorkflowRow (next_id st) workflow_type stage_path target_schema COMPLETED
            (now st) (Some (now st2))
            (Some (dict_get results "total_duration_seconds" (VNum 0)))
            (Some (agent_sequence st2)) None).
Proof.
  intros [I W _ _ _] W2 I2. unfold workflow_record, completed_state. st_simpl.
  rewrite W2, I2, W, I. st_simpl. rewrite id_matches_refl. st_simpl.
  rewrite id_matches_refl. reflexivity.
Qed.

Lemma failed_record_row env e workflow_type stage_path target_schema st st1 st2 :
  started workflow_type stage_path target_schema st st1 ->
  workflow_executions st2 = workflow_executions st1 ->
  workflow_id st2 = workflow_id st1 ->
  workflow_record (failed_state env e st2) (workflow_id (failed_state env e st2))
  = Some (mkWorkflowRow (next_id st) workflow_type stage_path target_schema FAILED
            (now st) (Some (now st2)) None None (Some (exn_msg e))).
Proof.
  intros [I W _ _ _] W2 I2. unfold workflow_record, failed_state. st_simpl.
  rewrite W2, I2, W, I. st_simpl. rewrite id_matches_refl. st_simpl.
  rewrite id_matches_refl. reflexivity.
Qed.

(** The results of a workflow carry the identifier the instance holds. *)
Lemma dispatch_results_workflow_id env stage_path target_schema target_table workflow_type
  st :
  wp (dispatch env stage_path target_schema target_table workflow_type)
     (fun r _ =>
        match r with
        | Ok results => dict_lookup results "workflow_id" = Some (workflow_id st)
        | Raise _ => True
        end) st.
Proof.
  unfold dispatch.
  destruct (String.eqb workflow_type "ONBOARDING");
    [| destruct (String.eqb workflow_type "PROFILING_ONLY");
       [| destruct (String.eqb workflow_type "MAPPING_ONLY")]].
  - unfold _execute_full_onboarding. wp_skim. reflexivity.
  - unfold _execute_profiling_only. wp_pure.
    eapply wp_conseq; [apply (wp_frames quiet), quiet_execute_agent|].
    intros [v|e] st2 (_ & I & _); cbv beta iota; [| exact Logic.I].
    wp_pure. st_simpl. now rewrite I.
  - unfold _execute_mapping_only. wp_skim. exact Logic.I.
  - wp_skim. exact Logic.I.
Qed.

(** X13.  Reading a run back.  When the workflow table takes its
    statements, then after a run of any workflow type, however it ended,
    [get_workflow_status] for the identifier of the run finds its record and
    reports the type, source and target the caller gave.  If the run handed
    back results, they carry that identifier, and the report says COMPLETED
    with the steps of the instance, the total duration of the results and no
    error; if it raised, the report says FAILED with the text of the error,
    no duration and an empty list of agents, whatever steps had run. *)
Theorem status_reports_finished_run str_time env stage_path target_schema target_table
  workflow_type st :
  workflow_store_ok env ->
  exists res st' report,
    execute_onboarding_workflow env stage_path target_schema target_table workflow_type st
    = (res, st')
    /\ get_workflow_status str_time None (workflow_id st') st' = (Ok report, st')
    /\ dict_lookup report "workflow_id" = Some (workflow_id st')
    /\ dict_lookup report "type" = Some (VStr workflow_type)
    /\ dict_lookup report "source" = Some (VStr stage_path)
    /\ dict_lookup report "target" = Some (VStr target_schema)
    /\ match res with
       | Ok results =>
           dict_lookup results "workflow_id" = Some (workflow_id st')
           /\ dict_lookup report "status" = Some (VStr "COMPLETED")
           /\ dict_lookup report "agents" = Some (VList (map VStr (agent_sequence st')))
           /\ dict_lookup report "duration_seconds"
              = Some (dict_get results "total_duration_seconds" (VNum 0))
           /\ dict_lookup report "error" = Some VNone
       | Raise e =>
           dict_lookup report "status" = Some (VStr "FAILED")
           /\ dict_lookup report "agents" = Some (VList [])
           /\ dict_lookup report "duration_seconds" = Some VNone
           /\ dict_lookup report "error" = Some (VStr (exn_msg e))
       end.
Proof.
  intros Hwf.
  assert (H : wp (execute_onboarding_workflow env stage_path target_schema target_table
                    workflow_type)
                (fun res st' =>
                   exists report,
                     get_workflow_status str_time None (workflow_id st') st'
                     = (Ok report, st')
                     /\ dict_lookup report "workflow_id" = Some (workflow_id st')
                     /\ dict_lookup report "type" = Some (VStr workflow_type)
                     /\ dict_lookup report "source" = Some (VStr stage_path)
                     /\ dict_lookup report "target" = Some (VStr target_schema)
                     /\ match res with
                        | Ok results =>
                            dict_lookup results "workflow_id" = Some (workflow_id st')
                            /\ dict_lookup report "status" = Some (VStr "COMPLETED")
                            /\ dict_lookup report "agents"
                               = Some (VList (map VStr (agent_sequence st')))
                            /\ dict_lookup report "duration_seconds"
                               = Some (dict_get results "total_duration_seconds" (VNum 0))
                            /\ dict_lookup report "error" = Some VNone
                        | Raise e =>
                            dict_lookup report "status" = Some (VStr "FAILED")
                            /\ dict_lookup report "agents" = Some (VList [])
                            /\ dict_lookup report "duration_seconds" = Some VNone
                            /\ dict_lookup report "error" = Some (VStr (exn_msg e))
                        end) st).
  { apply wp_execute_onboarding_workflow; [exact Hwf|]. intros st1 S1.
    apply wp_guarded_run; [exact Hwf|].
    eapply wp_conseq;
      [apply wp_and; [apply (wp_frames silent), silent_dispatch
                     | apply dispatch_results_workflow_id]|].
    intros [results|e] st2 [(W & I & _) R]; cbv beta iota in *.
    - unfold get_workflow_status.
      rewrite (completed_record_row env results _ _ _ st st1 st2 S1 W I).
      destruct S1 as [I0 _ _ _ _].
      eexists. split; [reflexivity|]. unfold completed_state. st_simpl.
      rewrite R, I, I0. cbn. repeat split; reflexivity.
    - unfold get_workflow_status.
      rewrite (failed_record_row env e _ _ _ st st1 st2 S1 W I).
      destruct S1 as [I0 _ _ _ _].
      eexists. split; [reflexivity|]. unfold failed_state. st_simpl.
      rewrite I, I0. cbn. repeat split; reflexivity. }
  apply wp_elim in H as (res & st' & E & report & H).
  exists res, st', report. now split.
Qed.

Lemma status_reports_finished_run_witness :
  workflow_store_ok dictionary_down_env
  /\ exists res st' report,
      execute_onboarding_workflow dictionary_down_env customers_stage "CURATED" None
        "ONBOARDING" initial_state = (res, st')
      /\ get_workflow_status (fun _ => "2024-01-01 00:00:00") None (workflow_id st') st'
         = (Ok report, st')
      /\ dict_lookup report "workflow_id" = Some (workflow_id st')
      /\ dict_lookup report "type" = Some (VStr "ONBOARDING")
      /\ dict_lookup report "source" = Some (VStr customers_stage)
      /\ dict_lookup report "target" = Some (VStr "CURATED")
      /\ match res with
         | Ok results =>
             dict_lookup results "workflow_id" = Some (workflow_id st')
             /\ dict_lookup report "status" = Some (VStr "COMPLETED")
             /\ dict_lookup report "agents" = Some (VList (map VStr (agent_sequence st')))
             /\ dict_lookup report "duration_seconds"
                = Some (dict_get results "total_duration_seconds" (VNum 0))
             /\ dict_lookup report "error" = Some VNone
         | Raise e =>
             dict_lookup report "status" = Some (VStr "FAILED")
             /\ dict_lookup report "agents" = Some (VList [])
             /\ dict_lookup report "duration_seconds" = Some VNone
             /\ dict_lookup report "error" = Some (VStr (exn_msg e))
         end.
Proof.
  assert (Hwf : workflow_store_ok dictionary_down_env)
    by (apply scenario_store_ok; reflexivity).
  split; [exact Hwf|].
  exact (status_reports_finished_run (fun _ => "2024-01-01 00:00:00") dictionary_down_env
           customers_stage "CURATED" None "ONBOARDING" initial_state Hwf).
Defined.

(** * The quality rules of the profiling agent *)

(** ** Rounding to a float keeps the order *)

Section Binary64Facts.
Local Open Scope Q_scope.

Lemma pow2_pos e : 0 < pow2 e.
Proof. apply Qpower_0_lt. reflexivity. Qed.

Lemma pow2_add a b : pow2 (a + b) == pow2 a * pow2 b.
Proof. apply Qpower_plus. discriminate. Qed.

Lemma pow2_Z n : (0 <= n)%Z -> pow2 n == inject_Z (2 ^ n).
Proof. intros H. unfold pow2. now rewrite (Zpower_Qpower 2 n H). Qed.

Lemma pow2_le a b : (a <= b)%Z -> pow2 a <= pow2 b.
Proof. intros H. apply Qpower_le_compat_l; [exact H | discriminate]. Qed.

Lemma pow2_lt a b : (a < b)%Z -> pow2 a < pow2 b.
Proof. intros H. apply Qpower_lt_compat_l; [exact H | reflexivity]. Qed.

Lemma Q_num_den x : x * inject_Z (Zpos (Qden x)) == inject_Z (Qnum x).
Proof.
  destruct x as [a b]. unfold Qeq, Qmult, inject_Z. simpl.
  rewrite Pos.mul_1_r. ring.
Qed.

Lemma binade_rough x :
  0 < x ->
  let d := (Z.log2 (Qnum x) - Z.log2 (Zpos (Qden x)))%Z in
  pow2 (d - 1) <= x /\ x < pow2 (d + 1).
Proof.
  intros Hx d.
  assert (Ha : (0 < Qnum x)%Z).
  { destruct x as [a b]. unfold Qlt in Hx. simpl in *. lia. }
  pose proof (Z.log2_spec _ Ha) as [La Ua].
  pose proof (Z.log2_spec (Zpos (Qden x)) ltac:(lia)) as [Lb Ub].
  pose proof (Z.log2_nonneg (Qnum x)) as Na.
  pose proof (Z.log2_nonneg (Zpos (Qden x))) as Nb.
  set (la := Z.log2 (Qnum x)) in *. set (lb := Z.log2 (Zpos (Qden x))) in *.
  assert (Hb : 0 < inject_Z (Zpos (Qden x))) by reflexivity.
  split.
  - apply (Qmult_le_r _ _ _ Hb). rewrite Q_num_den.
    apply Qle_trans with (pow2 (d - 1) * pow2 (lb + 1)).
    + apply Qmult_le_l; [apply pow2_pos|].
      rewrite pow2_Z by lia. rewrite <- Zle_Qle. lia.
    + rewrite <- pow2_add. replace (d - 1 + (lb + 1))%Z with la by (unfold d; lia).
      rewrite pow2_Z by lia. rewrite <- Zle_Qle. exact La.
  - apply (Qmult_lt_r _ _ _ (pow2_pos lb)).
    rewrite <- pow2_add. replace (d + 1 + lb)%Z with (Z.succ la) by (unfold d; lia).
    apply Qle_lt_trans with (inject_Z (Qnum x)).
    + rewrite <- Q_num_den. apply Qmult_le_l; [exact Hx|].
      rewrite pow2_Z by lia. rewrite <- Zle_Qle. exact Lb.
    + rewrite pow2_Z by lia. rewrite <- Zlt_Qlt. exact Ua.
Qed.

Lemma binade_spec x : 0 < x -> pow2 (binade x) <= x /\ x < pow2 (binade x + 1).
Proof.
  intros Hx. destruct (binade_rough x Hx) as [L U]. unfold binade.
  set (d := (Z.log2 (Qnum x) - Z.log2 (Zpos (Qden x)))%Z) in *.
  destruct (Qle_bool (pow2 d) x) eqn:E.
  - apply Qle_bool_iff in E. now split.
  - split; [exact L|]. replace (d - 1 + 1)%Z with d by lia.
    apply Qnot_le_lt. intros H. apply Qle_bool_iff in H. congruence.
Qed.


Lemma round_half_even_floor x :
  (Qfloor x <= round_half_even x <= Qfloor x + 1)%Z.
Proof.
  unfold round_half_even.
  destruct (Qcompare x (inject_Z (Qfloor x) + (1 # 2)));
    [destruct (Z.even (Qfloor x))| |]; lia.
Qed.

Lemma round_half_even_ge (a : Z) x : inject_Z a <= x -> (a <= round_half_even x)%Z.
Proof.
  intros H. apply Qfloor_resp_le in H. rewrite Qfloor_Z in H.
  pose proof (round_half_even_floor x). lia.
Qed.

Lemma round_half_even_le (b : Z) x : x <= inject_Z b -> (round_half_even x <= b)%Z.
Proof.
  intros H. pose proof (Qfloor_resp_le _ _ H) as F. rewrite Qfloor_Z in F.
  pose proof (round_half_even_floor x) as [_ U].
  destruct (Z.eq_dec (Qfloor x) b) as [E|E]; [| lia].
  unfold round_half_even. rewrite E.
  assert (L : x < inject_Z b + (1 # 2)).
  { apply Qle_lt_trans with (inject_Z b); [exact H|].
    rewrite <- (Qplus_0_r (inject_Z b)) at 1.
    apply Qplus_lt_r. reflexivity. }
  destruct (Qcompare_spec x (inject_Z b + (1 # 2))) as [Ex|_|Gt]; [| lia |].
  - rewrite Ex in L. now apply Qlt_irrefl in L.
  - exfalso. exact (Qlt_irrefl _ (Qlt_trans _ _ _ L Gt)).
Qed.

Lemma round_half_even_mono x y : x <= y -> (round_half_even x <= round_half_even y)%Z.
Proof.
  intros H. pose proof (Qfloor_resp_le _ _ H) as F.
  pose proof (round_half_even_floor x) as [Lx Ux].
  pose proof (round_half_even_floor y) as [Ly Uy].
  destruct (Z.eq_dec (Qfloor x) (Qfloor y)) as [E|E]; [| lia].
  unfold round_half_even. rewrite <- E.
  destruct (Qcompare_spec x (inject_Z (Qfloor x) + (1 # 2))) as [Ex|Lx'|Gx].
  - destruct (Qcompare_spec y (inject_Z (Qfloor x) + (1 # 2))) as [Ey|Ly'|Gy].
    + lia.
    + exfalso. rewrite Ex in H. exact (Qlt_irrefl _ (Qle_lt_trans _ _ _ H Ly')).
    + destruct (Z.even (Qfloor x)); lia.
  - destruct (Qcompare y (inject_Z (Qfloor x) + (1 # 2)));
      [destruct (Z.even (Qfloor x))| |]; lia.
  - destruct (Qcompare_spec y (inject_Z (Qfloor x) + (1 # 2))) as [Ey|Ly'|Gy].
    + exfalso. rewrite Ey in H. exact (Qlt_irrefl _ (Qlt_le_trans _ _ _ Gx H)).
    + exfalso.
      exact (Qlt_irrefl _ (Qlt_trans _ _ _ (Qlt_le_trans _ _ _ Gx H) Ly')).
    + lia.
Qed.

(** A positive number and its rounding lie in the same binade, ends included. *)
Lemma nearest_double_pos_bounds x :
  0 < x ->
  pow2 (binade x) <= nearest_double_pos x /\ nearest_double_pos x <= pow2 (binade x + 1).
Proof.
  intros Hx. destruct (binade_spec x Hx) as [L U]. unfold nearest_double_pos.
  set (e := (binade x - 52)%Z).
  pose proof (pow2_pos e) as He.
  assert (L' : inject_Z (2 ^ 52) <= x / pow2 e).
  { apply Qle_shift_div_l; [exact He|]. rewrite <- pow2_Z by lia.
    rewrite <- pow2_add. now replace (52 + e)%Z with (binade x) by (unfold e; lia). }
  assert (U' : x / pow2 e <= inject_Z (2 ^ 53)).
  { apply Qle_shift_div_r; [exact He|]. rewrite <- pow2_Z by lia.
    rewrite <- pow2_add. replace (53 + e)%Z with (binade x + 1)%Z by (unfold e; lia).
    now apply Qlt_le_weak. }
  apply round_half_even_ge in L'. apply round_half_even_le in U'.
  split.
  - replace (binade x) with (52 + e)%Z at 1 by (unfold e; lia).
    rewrite pow2_add, (pow2_Z 52) by lia.
    apply Qmult_le_r; [exact He|]. now rewrite <- Zle_Qle.
  - replace (binade x + 1)%Z with (53 + e)%Z by (unfold e; lia).
    rewrite pow2_add, (pow2_Z 53) by lia.
    apply Qmult_le_r; [exact He|]. now rewrite <- Zle_Qle.
Qed.

Lemma binade_mono x y : 0 < x -> x <= y -> (binade x <= binade y)%Z.
Proof.
  intros Hx H.
  destruct (binade_spec x Hx) as [Lx _].
  destruct (binade_spec y (Qlt_le_trans _ _ _ Hx H)) as [_ Uy].
  destruct (Z_lt_le_dec (binade y) (binade x)) as [C|C]; [exfalso | exact C].
  apply (Qlt_irrefl x).
  apply Qle_lt_trans with y; [exact H|].
  apply Qlt_le_trans with (pow2 (binade y + 1)); [exact Uy|].
  apply Qle_trans with (pow2 (binade x)); [apply pow2_le; lia | exact Lx].
Qed.

Lemma nearest_double_pos_mono x y :
  0 < x -> x <= y -> nearest_double_pos x <= nearest_double_pos y.
Proof.
  intros Hx H. pose proof (Qlt_le_trans _ _ _ Hx H) as Hy.
  pose proof (binade_mono x y Hx H) as B.
  destruct (Z.eq_dec (binade x) (binade y)) as [E|E].
  - unfold nearest_double_pos. rewrite E.
    apply Qmult_le_r; [apply pow2_pos|]. rewrite <- Zle_Qle.
    apply round_half_even_mono.
    apply Qmult_le_r; [apply Qinv_lt_0_compat, pow2_pos | exact H].
  - destruct (nearest_double_pos_bounds x Hx) as [_ Ux].
    destruct (nearest_double_pos_bounds y Hy) as [Ly _].
    apply Qle_trans with (pow2 (binade x + 1)); [exact Ux|].
    apply Qle_trans with (pow2 (binade y)); [apply pow2_le; lia | exact Ly].
Qed.

Lemma nearest_double_nonpos x : x <= 0 -> nearest_double x <= 0.
Proof.
  intros H. unfold nearest_double.
  destruct (Qcompare_spec x 0) as [E|L|G].
  - apply Qle_refl.
  - assert (P : 0 < - x).
    { apply Qopp_lt_compat in L. exact L. }
    destruct (nearest_double_pos_bounds (- x) P) as [Lb _].
    pose proof (pow2_pos (binade (- x))) as Pp.
    apply Qopp_le_compat in Lb.
    apply Qle_trans with (- pow2 (binade (- x))); [exact Lb|].
    apply Qlt_le_weak. apply Qopp_lt_compat in Pp. exact Pp.
  - exfalso. exact (Qlt_irrefl _ (Qlt_le_trans _ _ _ G H)).
Qed.

Lemma nearest_double_pos_eq x : 0 < x -> nearest_double x = nearest_double_pos x.
Proof.
  intros H. unfold nearest_double.
  destruct (Qcompare_spec x 0) as [E|L|G]; [| | reflexivity]; exfalso.
  - rewrite E in H. now apply Qlt_irrefl in H.
  - exact (Qlt_irrefl _ (Qlt_trans _ _ _ H L)).
Qed.

Lemma nearest_double_positive x : 0 < x -> 0 < nearest_double x.
Proof.
  intros H. rewrite (nearest_double_pos_eq x H).
  destruct (nearest_double_pos_bounds x H) as [L _].
  exact (Qlt_le_trans _ _ _ (pow2_pos _) L).
Qed.

(** Rounding keeps the order of positive numbers. *)
Lemma nearest_double_mono x y : 0 < x -> x <= y -> nearest_double x <= nearest_double y.
Proof.
  intros Hx H.
  rewrite (nearest_double_pos_eq x Hx), (nearest_double_pos_eq y (Qlt_le_trans _ _ _ Hx H)).
  now apply nearest_double_pos_mono.
Qed.


Lemma percentage_at_most_half (nulls rows : Z) :
  (0 < rows)%Z -> (2 * nulls <= rows)%Z -> null_percentage_of nulls rows <= 50.
Proof.
  intros Hr Hk. unfold null_percentage_of.
  assert (Hn : 0 < inject_Z rows) by (rewrite <- (Zlt_Qlt 0); exact Hr).
  assert (E50 : nearest_double 50 == 50) by (vm_compute; reflexivity).
  assert (Ehalf : nearest_double (1 # 2) == 1 # 2) by (vm_compute; reflexivity).
  destruct (Z_lt_le_dec 0 nulls) as [Pk|Nk].
  - assert (Hx : 0 < inject_Z nulls / inject_Z rows).
    { apply Qlt_shift_div_l; [exact Hn|]. rewrite Qmult_0_l, <- (Zlt_Qlt 0). exact Pk. }
    assert (Hxh : inject_Z nulls / inject_Z rows <= 1 # 2).
    { apply Qle_shift_div_r; [exact Hn|].
      unfold Qle, Qmult, inject_Z. cbn -[Z.mul]. lia. }
    pose proof (nearest_double_positive _ Hx) as Py.
    pose proof (nearest_double_mono _ _ Hx Hxh) as My. rewrite Ehalf in My.
    rewrite <- E50. apply nearest_double_mono.
    + rewrite <- (Qmult_0_l 100). apply Qmult_lt_r; [reflexivity | exact Py].
    + setoid_replace 50 with ((1 # 2) * 100) by reflexivity.
      apply Qmult_le_r; [reflexivity | exact My].
  - apply Qle_trans with 0; [| discriminate].
    apply nearest_double_nonpos.
    rewrite <- (Qmult_0_l 100). apply Qmult_le_r; [reflexivity|].
    apply nearest_double_nonpos.
    apply Qle_shift_div_r; [exact Hn|]. rewrite Qmult_0_l, <- (Zle_Qle _ 0). exact Nk.
Qed.

Lemma percentage_above_half (nulls rows : Z) :
  (0 < rows < 2 ^ 53)%Z -> (rows < 2 * nulls)%Z -> 50 < null_percentage_of nulls rows.
Proof.
  intros [Hr Hb] Hk. unfold null_percentage_of.
  assert (Hn : 0 < inject_Z rows) by (rewrite <- (Zlt_Qlt 0); exact Hr).
  set (x0 := 9007199254740992 # 18014398509481982).
  set (h := 4503599627370497 # 9007199254740992).
  assert (E0 : nearest_double x0 == h) by (vm_compute; reflexivity).
  assert (E1 : 50 < nearest_double (h * 100)) by (vm_compute; reflexivity).
  assert (Hx : x0 <= inject_Z nulls / inject_Z rows).
  { apply Qle_shift_div_l; [exact Hn|].
    unfold x0, Qle, Qmult, inject_Z. cbn -[Z.mul].
    change (2 ^ 53)%Z with 9007199254740992%Z in Hb. lia. }
  pose proof (nearest_double_mono x0 _ ltac:(reflexivity) Hx) as M. rewrite E0 in M.
  apply Qlt_le_trans with (nearest_double (h * 100)); [exact E1|].
  apply nearest_double_mono; [reflexivity|].
  apply Qmult_le_r; [reflexivity | exact M].
Qed.

(** With fewer than 2^53 rows, the percentage is above 50 exactly when more
    than half of the rows are null. *)
Lemma more_than_half_null (nulls rows : Z) :
  (0 < rows < 2 ^ 53)%Z ->
  Qgt_bool (null_percentage_of nulls rows) 50 = true <-> (rows < 2 * nulls)%Z.
Proof.
  intros Hr. unfold Qgt_bool. rewrite negb_true_iff, <- not_true_iff_false, Qle_bool_iff.
  split.
  - intros H. destruct (Z_lt_le_dec rows (2 * nulls)) as [C|C]; [exact C|].
    exfalso. apply H. apply percentage_at_most_half; lia.
  - intros H C. apply (Qlt_irrefl 50).
    exact (Qlt_le_trans _ _ _ (percentage_above_half nulls rows Hr H) C).
Qed.

(** Beyond 2^53 rows the rule breaks: of 2^61 rows, 2^60 + 1 are null, and
    the percentage is 50. *)
Lemma percentage_of_large_count :
  null_percentage_of (2 ^ 60 + 1) (2 ^ 61) == 50.
Proof. vm_compute. reflexivity. Qed.

End Binary64Facts.

Lemma column_issues_name format_1f rows col_stat :
  Forall (fun i => column i = column_name col_stat) (column_issues format_1f rows col_stat).
Proof.
  unfold column_issues.
  repeat match goal with
         | |- context [if ?b then _ else _] => destruct b
         end; simpl; repeat constructor.
Qed.

Lemma column_statistics_name rows c : column_name (column_statistics rows c) = col_name c.
Proof.
  unfold column_statistics, failed_statistics.
  destruct (null_rows c), (non_null_rows c), (distinct_values c), (min_text c), (max_text c);
    reflexivity.
Qed.

(** The issue types for a column whose counts were taken. *)
Lemma column_issue_types format_1f rows c nulls non_nulls distinct :
  basic_counts c = Some (nulls, non_nulls, distinct) ->
  map issue_type (column_issues format_1f rows (column_statistics rows c))
  = (if Qgt_bool (if (0 <? rows)%Z then null_percentage_of nulls rows else 0%Q) 50%Q
     then ["HIGH_NULL_PERCENTAGE"] else [])
    ++ (if negb (distinct =? rows)%Z && (distinct <? 10)%Z && (0 <? distinct)%Z
        then ["LOW_CARDINALITY"] else [])
    ++ (if (nulls =? rows)%Z then ["ALL_NULLS"] else []).
Proof.
  unfold basic_counts, column_statistics, column_issues.
  destruct (null_rows c) as [k|]; [|discriminate].
  destruct (non_null_rows c) as [nn|]; [|discriminate].
  destruct (distinct_values c) as [d|]; [|discriminate].
  intros E. injection E as -> -> ->.
  destruct (min_text c), (max_text c);
    cbn [null_percentage cardinality distinct_count null_count column_name field_get];
    destruct (Qgt_bool (if (0 <? rows)%Z then _ else _) _);
    destruct (distinct =? rows)%Z; destruct (distinct <? 10)%Z;
    destruct (Qgt_bool (tenth_of rows) (inject_Z distinct));
    destruct (0 <? distinct)%Z; destruct (nulls =? rows)%Z; reflexivity.
Qed.

(** The issues for a column whose counts could not be taken: the defaults
    of [.get] make it an all-null column exactly when the sample is empty. *)
Lemma failed_column_issues format_1f rows c :
  basic_counts c = None ->
  column_issues format_1f rows (column_statistics rows c)
  = if (0 =? rows)%Z
    then [mkIssue (col_name c) "ALL_NULLS" "ERROR" "Column contains only null values"]
    else [].
Proof.
  unfold basic_counts, column_statistics, column_issues, failed_statistics.
  destruct (null_rows c) as [k|]; [destruct (non_null_rows c) as [nn|];
    [destruct (distinct_values c) as [d|]; [discriminate|] |] |];
    intros _; cbn; destruct (0 =? rows)%Z; reflexivity.
Qed.

Lemma in_flag (x y : string) (b : bool) :
  In x (if b then [y] else []) <-> b = true /\ y = x.
Proof. destruct b; simpl; intuition discriminate. Qed.

Lemma rules_hold_on_sample format_1f rows c :
  (0 < rows < 2 ^ 53)%Z ->
  rules_hold rows c
    (map issue_type (column_issues format_1f rows (column_statistics rows c))).
Proof.
  intros Hrows. unfold rules_hold.
  destruct (basic_counts c) as [[[k nn] d]|] eqn:E.
  - rewrite (column_issue_types format_1f rows c k nn d E).
    assert (Hpos : (0 <? rows)%Z = true) by (apply Z.ltb_lt; lia).
    rewrite Hpos, !in_app_iff, !in_flag.
    pose proof (more_than_half_null k rows Hrows) as Hhalf.
    split; [| split].
    + split.
      * intros [[H _]|[[_ H]|[_ H]]]; try discriminate H.
        exists k, nn, d. split; [reflexivity | now apply Hhalf].
      * intros (k' & nn' & d' & E' & H). injection E' as <- <- <-.
        left. split; [now apply Hhalf | reflexivity].
    + split.
      * intros [[_ H]|[[H _]|[_ H]]]; try discriminate H.
        apply andb_prop in H as [H H3]. apply andb_prop in H as [H1 H2].
        apply negb_true_iff, Z.eqb_neq in H1.
        apply Z.ltb_lt in H2. apply Z.ltb_lt in H3.
        exists k, nn, d. split; [reflexivity|]. split; [lia | exact H1].
      * intros (k' & nn' & d' & E' & H & H'). injection E' as <- <- <-.
        right. left. split; [| reflexivity].
        apply andb_true_intro. split; [apply andb_true_intro; split|].
        -- now apply negb_true_iff, Z.eqb_neq.
        -- apply Z.ltb_lt. lia.
        -- apply Z.ltb_lt. lia.
    + split.
      * intros [[_ H]|[[_ H]|[H _]]]; try discriminate H.
        apply Z.eqb_eq in H. exists k, nn, d. now split.
      * intros (k' & nn' & d' & E' & H). injection E' as <- <- <-.
        right. right. split; [now apply Z.eqb_eq | reflexivity].
  - rewrite (failed_column_issues format_1f rows c E).
    replace (0 =? rows)%Z with false by (symmetry; apply Z.eqb_neq; lia).
    cbn -[Z.mul]. repeat split; intros H;
      solve [ destruct H | destruct H as (k & nn & d & E' & _); discriminate ].
Qed.

(** X14.  The quality rules on a sample that has rows, fewer than 2^53 of
    them (the integers a float holds exactly).  The issues
    [identify_quality_issues] reports for the statistics of a frame come in
    groups, one per column in column order, each naming its column, and in
    each group: HIGH_NULL_PERCENTAGE is there exactly when more than half of
    the rows are null, the percentage being the float the code computes;
    LOW_CARDINALITY exactly when the column has between 1 and 9 distinct
    values and not one per row; ALL_NULLS exactly when every row is null.  A
    column whose counts could not be taken is never reported. *)
Theorem quality_rules_on_sample format_1f df rows :
  df_count df = Ok rows ->
  (0 < rows < 2 ^ 53)%Z ->
  exists statistics groups,
    calculate_statistics df = Ok statistics
    /\ identify_quality_issues format_1f statistics = List.concat groups
    /\ Forall2
         (fun c group =>
            Forall (fun i => column i = col_name c) group
            /\ rules_hold rows c (map issue_type group))
         (df_columns df) groups.
Proof.
  intros Hcount Hrows.
  exists (mkStatistics rows (map (column_statistics rows) (df_columns df))),
         (map (fun c => column_issues format_1f rows (column_statistics rows c))
            (df_columns df)).
  split; [unfold calculate_statistics; now rewrite Hcount|].
  split.
  - unfold identify_quality_issues. cbn [row_count columns].
    rewrite flat_map_concat_map, map_map. reflexivity.
  - induction (df_columns df) as [|c cols IH]; simpl; constructor; [| exact IH].
    split.
    + rewrite <- (column_statistics_name rows c). apply column_issues_name.
    + now apply rules_hold_on_sample.
Qed.

Lemma quality_rules_on_sample_witness :
  df_count sample_frame = Ok 4%Z
  /\ (0 < 4 < 2 ^ 53)%Z
  /\ exists statistics groups,
      calculate_statistics sample_frame = Ok statistics
      /\ identify_quality_issues (fun _ => "100.0") statistics = List.concat groups
      /\ Forall2
           (fun c group =>
              Forall (fun i => column i = col_name c) group
              /\ rules_hold 4 c (map issue_type group))
           (df_columns sample_frame) groups.
Proof.
  split; [reflexivity|]. split; [lia|].
  apply (quality_rules_on_sample (fun _ => "100.0") sample_frame 4%Z); [reflexivity | lia].
Defined.

(** The same sample, evaluated: the all-null column gets two issues, the
    key column none, the flag column one, the failed column none. *)
Lemma sample_frame_issues :
  exists statistics,
    calculate_statistics sample_frame = Ok statistics
    /\ map (fun i => (column i, issue_type i, severity i))
         (identify_quality_issues (fun _ => "100.0") statistics)
       = [("MIDDLE_NAME", "HIGH_NULL_PERCENTAGE", "WARNING");
          ("MIDDLE_NAME", "ALL_NULLS", "ERROR");
          ("ACTIVE", "LOW_CARDINALITY", "INFO")].
Proof. eexists. split; [reflexivity|]. vm_compute. reflexivity. Qed.

(** X15.  A sample without rows.  When the frame has no rows, so that every
    count that can be taken is 0, [identify_quality_issues] reports every
    column, those whose counts could not be taken included, as ALL_NULLS
    with severity ERROR, once each and in column order, and reports nothing
    else. *)
Theorem empty_sample_flags_every_column format_1f df :
  df_count df = Ok 0%Z ->
  Forall column_without_rows (df_columns df) ->
  exists statistics,
    calculate_statistics df = Ok statistics
    /\ identify_quality_issues format_1f statistics
       = map (fun c => mkIssue (col_name c) "ALL_NULLS" "ERROR"
                         "Column contains only null values")
           (df_columns df).
Proof.
  intros Hcount Hcols.
  exists (mkStatistics 0 (map (column_statistics 0) (df_columns df))).
  split; [unfold calculate_statistics; now rewrite Hcount|].
  unfold identify_quality_issues. cbn [row_count columns].
  rewrite flat_map_concat_map, map_map.
  induction Hcols as [|c cols Hc _ IH]; [reflexivity|].
  cbn [map List.concat]. rewrite IH. clear IH.
  change (mkIssue (col_name c) "ALL_NULLS" "ERROR" "Column contains only null values"
            :: map (fun c0 => mkIssue (col_name c0) "ALL_NULLS" "ERROR"
                                "Column contains only null values") cols)
    with ([mkIssue (col_name c) "ALL_NULLS" "ERROR" "Column contains only null values"]
            ++ map (fun c0 => mkIssue (col_name c0) "ALL_NULLS" "ERROR"
                                "Column contains only null values") cols).
  f_equal.
  unfold column_without_rows in Hc.
  destruct (basic_counts c) as [[[k nn] d]|] eqn:E.
  - destruct Hc as [-> ->].
    unfold basic_counts in E. unfold column_statistics, column_issues.
    destruct (null_rows c) as [k|]; [|discriminate].
    destruct (non_null_rows c) as [nn'|]; [|discriminate].
    destruct (distinct_values c) as [d|]; [|discriminate].
    injection E as -> -> ->.
    destruct (min_text c), (max_text c); reflexivity.
  - now rewrite (failed_column_issues format_1f 0 c E).
Qed.

Lemma empty_sample_flags_every_column_witness :
  df_count empty_frame = Ok 0%Z
  /\ Forall column_without_rows (df_columns empty_frame)
  /\ exists statistics,
      calculate_statistics empty_frame = Ok statistics
      /\ identify_quality_issues (fun _ => "0.0") statistics
         = map (fun c => mkIssue (col_name c) "ALL_NULLS" "ERROR"
                           "Column contains only null values")
             (df_columns empty_frame).
Proof.
  assert (H : Forall column_without_rows (df_columns empty_frame))
    by (repeat constructor).
  split; [reflexivity|]. split; [exact H|].
  exact (empty_sample_flags_every_column (fun _ => "0.0") empty_frame eq_refl H).
Defined.

(** * Detection of sensitive columns *)

(** The values of one column add at most one entry, to one of the two
    lists. *)
Lemma scan_values_outcome o col_name values d :
  let d' := scan_values o col_name values d in
  (pii_columns d' = pii_columns d /\ phi_columns d' = phi_columns d)
  \/ (exists label mask,
        pii_columns d' = pii_columns d ++ [mkPiiColumn col_name label mask]
        /\ phi_columns d' = phi_columns d)
  \/ (exists label mask,
        pii_columns d' = pii_columns d
        /\ phi_columns d' = phi_columns d ++ [mkPhiColumn col_name label mask]).
Proof.
  revert d. induction values as [|value rest IH]; intros d; simpl.
  - now left.
  - destruct (0 <? String.length value)%nat; [| apply IH].
    destruct (detected (ai_classify o (asked d) PII value) "NOT_PII") as [label|].
    + right. left. simpl. eauto.
    + destruct (detected (ai_classify o (S (asked d)) PHI value) "NOT_PHI") as [label|].
      * right. right. simpl. eauto.
      * apply (IH (mkDetection (pii_columns d) (phi_columns d) (S (S (asked d))))).
Qed.

Lemma detect_column_outcome o d col_name :
  let d' := detect_column o d col_name in
  (pii_columns d' = pii_columns d /\ phi_columns d' = phi_columns d)
  \/ (exists label mask,
        pii_columns d' = pii_columns d ++ [mkPiiColumn col_name label mask]
        /\ phi_columns d' = phi_columns d)
  \/ (exists label mask,
        pii_columns d' = pii_columns d
        /\ phi_columns d' = phi_columns d ++ [mkPhiColumn col_name label mask]).
Proof.
  unfold detect_column.
  destruct (sample_values o (asked d) col_name) as [values|e].
  - apply (scan_values_outcome o col_name (firstn 3 values)
             (mkDetection (pii_columns d) (phi_columns d) (S (asked d)))).
  - now left.
Qed.

Lemma NoDup_insert {A} (a : A) (l l' : list A) :
  NoDup (l ++ l') -> ~ In a (l ++ l') -> NoDup (l ++ a :: l').
Proof.
  induction l as [|x l IH]; simpl; intros Hnd Hin.
  - now constructor.
  - inversion Hnd as [|? ? Hx Hl]; subst. constructor.
    + rewrite in_app_iff in *. simpl. intros [H|[H|H]]; subst; tauto.
    + apply IH; tauto.
Qed.

Lemma reported_once_step o seen d col_name :
  ~ In col_name seen ->
  reported_once seen d ->
  reported_once (seen ++ [col_name]) (detect_column o d col_name).
Proof.
  intros Hnew (Hnd & Hincl & Hlen). unfold reported_once.
  rewrite length_app. cbn [List.length].
  destruct (detect_column_outcome o d col_name)
    as [[-> ->]|[(label & mask & -> & ->)|(label & mask & -> & ->)]].
  - split; [exact Hnd|]. split; [| lia].
    intros x Hx. apply in_or_app. left. now apply Hincl.
  - rewrite map_app, length_app. cbn [map List.length pii_column_name].
    rewrite <- app_assoc. cbn [app]. split; [| split; [| lia]].
    + apply NoDup_insert; [exact Hnd|]. intros H. now apply Hnew, Hincl.
    + intros x Hx. apply in_app_or in Hx as [Hx|[<-|Hx]]; apply in_or_app.
      * left. apply Hincl, in_or_app. now left.
      * right. now left.
      * left. apply Hincl, in_or_app. now right.
  - rewrite map_app, length_app. cbn [map List.length phi_column_name].
    rewrite app_assoc. split; [| split; [| lia]].
    + replace ((map pii_column_name (pii_columns d) ++ map phi_column_name (phi_columns d))
                 ++ [col_name])
        with ((map pii_column_name (pii_columns d) ++ map phi_column_name (phi_columns d))
                ++ col_name :: []) by reflexivity.
      apply NoDup_insert; rewrite app_nil_r; [exact Hnd|].
      intros H. now apply Hnew, Hincl.
    + intros x Hx. apply in_app_or in Hx as [Hx|[<-|[]]]; apply in_or_app.
      * left. now apply Hincl.
      * right. now left.
Qed.

Lemma reported_once_fold o columns :
  forall seen d,
    NoDup (seen ++ columns) ->
    reported_once seen d ->
    reported_once (seen ++ columns) (fold_left (detect_column o) columns d).
Proof.
  induction columns as [|c columns IH]; intros seen d Hnd Hd; simpl.
  - now rewrite app_nil_r.
  - replace (seen ++ c :: columns) with ((seen ++ [c]) ++ columns) in *
      by now rewrite <- app_assoc.
    apply IH; [exact Hnd|].
    apply reported_once_step; [| exact Hd].
    rewrite <- app_assoc in Hnd. simpl in Hnd.
    apply NoDup_remove_2 in Hnd. intros H. apply Hnd, in_or_app. now left.
Qed.

(** X16.  On a frame whose column names are distinct, [detect_pii_phi]
    reports a column at most once over its two lists together: a column
    found to hold PII is never tested for PHI, and the tests of a column
    stop at its first detection.  Every reported name is a column of the
    frame, the two counts are the lengths of the lists, and together they
    are at most the number of columns, whatever the session answers. *)
Theorem sensitive_column_reported_once o df_column_names :
  NoDup df_column_names ->
  let report := detect_pii_phi o df_column_names in
  NoDup (map pii_column_name (report_pii_columns report)
           ++ map phi_column_name (report_phi_columns report))
  /\ incl (map pii_column_name (report_pii_columns report)
             ++ map phi_column_name (report_phi_columns report)) df_column_names
  /\ pii_detected_count report = List.length (report_pii_columns report)
  /\ phi_detected_count report = List.length (report_phi_columns report)
  /\ pii_detected_count report + phi_detected_count report <= List.length df_column_names.
Proof.
  intros Hnd.
  destruct (reported_once_fold o df_column_names [] (mkDetection [] [] 0))
    as (H1 & H2 & H3).
  - exact Hnd.
  - repeat split; [constructor | intros x [] | simpl; lia].
  - simpl in *. auto.
Qed.

Lemma sensitive_column_reported_once_witness :
  let names := ["EMAIL_ADDRESS"; "NOTES"; "CONTACT"] in
  let report := detect_pii_phi email_classifier names in
  NoDup names
  /\ map pii_column_name (report_pii_columns report) = ["EMAIL_ADDRESS"; "CONTACT"]
  /\ NoDup (map pii_column_name (report_pii_columns report)
              ++ map phi_column_name (report_phi_columns report))
  /\ incl (map pii_column_name (report_pii_columns report)
             ++ map phi_column_name (report_phi_columns report)) names
  /\ pii_detected_count report = List.length (report_pii_columns report)
  /\ phi_detected_count report = List.length (report_phi_columns report)
  /\ pii_detected_count report + phi_detected_count report <= List.length names.
Proof.
  intros names report.
  assert (Hnd : NoDup names).
  { repeat constructor; simpl; intuition discriminate. }
  split; [exact Hnd|]. split; [reflexivity|].
  exact (sensitive_column_reported_once email_classifier names Hnd).
Defined.

(** * The claims on the record of a failed run and on the summary *)

(** Scenario B, on the record: MAPPING is never called and the run is
    FAILED, but the step sequence of the persisted record is not
    [PROFILING, DICTIONARY]: it reads back empty. *)
Lemma dictionary_failure_persists_no_steps :
  let run := execute_onboarding_workflow dictionary_down_env customers_stage "CURATED" None
               "ONBOARDING" initial_state in
  calls (trace (snd run)) = ["SP_AGENT_PROFILE"; "SP_AGENT_DICTIONARY"]
  /\ exists r,
      workflow_record (snd run) (workflow_id (snd run)) = Some r
      /\ wf_status r = FAILED
      /\ persisted_step_sequence r = []
      /\ persisted_step_sequence r <> ["PROFILING"; "DICTIONARY"].
Proof. vm_compute. split; [reflexivity|]. eexists. repeat split. discriminate. Qed.

Lemma nth_error_middle {A} (l : list A) (x : A) (r : list A) :
  nth_error ((l ++ [x]) ++ r) (List.length l) = Some x.
Proof.
  rewrite <- app_assoc. rewrite nth_error_app2 by lia.
  now rewrite Nat.sub_diag.
Qed.

(** The summary of results whose step entries are dicts, with the answer of
    the AI: the one statement sent carries the three step summaries and the
    total duration; the summary is the first cell of its answer, or the
    templated text when the statement raised or came back without rows. *)
Lemma wp_generate_workflow_summary_reply env results d1 d2 d3 z l Q st :
  dict_get results "profiling" (VDict []) = VDict d1 ->
  dict_get results "dictionary" (VDict []) = VDict d2 ->
  dict_get results "mapping" (VDict []) = VDict d3 ->
  dict_get results "total_duration_seconds" (VNum 0) = VNum z ->
  dict_get results "agents_executed" (VList []) = VList l ->
  (forall summary asked,
      match respond env (List.length (trace st))
              (AiComplete (dict_get d1 "profiling_summary" (VStr ""))
                 (dict_get d2 "proposal_summary" (VStr ""))
                 (dict_get d3 "mapping_summary" (VStr "")) (VNum z)) with
      | Raises _ => asked = false /\ summary = summary_template (List.length l)
      | Rows None => asked = true /\ summary = summary_template (List.length l)
      | Rows (Some answer) => asked = true /\ summary = answer
      end ->
      Q (Ok summary)
        (issued env
           (AiComplete (dict_get d1 "profiling_summary" (VStr ""))
              (dict_get d2 "proposal_summary" (VStr ""))
              (dict_get d3 "mapping_summary" (VStr "")) (VNum z)) asked st)) ->
  wp (_generate_workflow_summary env results) Q st.
Proof.
  intros E1 E2 E3 Ez El HQ. unfold _generate_workflow_summary.
  rewrite E1, E2, E3, Ez, El. wp_pure.
  apply wp_session_sql.
  - intros msg E. cbv beta iota. wp_pure. apply HQ. rewrite E. now split.
  - intros c E. st_simpl. wp_pure. apply wp_first_cell.
    + intros v ->. apply HQ. rewrite E. now split.
    + intros ->. wp_pure. apply HQ. rewrite E. now split.
Qed.

(** C9, as the code has it: an ONBOARDING run whose three steps succeed
    reaches COMPLETED whatever the AI does, and the AI is asked exactly once,
    with the summaries of the three step results and the total duration of
    the results.  The summary in the results is the first cell of the AI's
    answer, whatever that cell is; when the AI statement raised, or came back
    without rows, it is the templated text for the three agents. *)
Theorem completed_onboarding_has_summary env stage_path target_schema target_table st :
  record_store_ok env ->
  procedure_succeeds env "SP_AGENT_PROFILE" ->
  procedure_succeeds env "SP_AGENT_DICTIONARY" ->
  procedure_succeeds env "SP_AGENT_MAPPING" ->
  exists results st' new r summary d1 d2 d3 total question n asked,
    execute_onboarding_workflow env stage_path target_schema target_table "ONBOARDING" st
    = (Ok results, st')
    /\ trace st' = trace st ++ new
    /\ workflow_record st' (workflow_id st') = Some r
    /\ wf_status r = COMPLETED
    /\ dict_lookup results "profiling" = Some (VDict d1)
    /\ dict_lookup results "dictionary" = Some (VDict d2)
    /\ dict_lookup results "mapping" = Some (VDict d3)
    /\ dict_lookup results "total_duration_seconds" = Some total
    /\ question
       = AiComplete (dict_get d1 "profiling_summary" (VStr ""))
           (dict_get d2 "proposal_summary" (VStr ""))
           (dict_get d3 "mapping_summary" (VStr "")) total
    /\ nth_error (trace st') n = Some (question, asked)
    /\ ai_requests new = [asked]
    /\ dict_lookup results "summary" = Some summary
    /\ match respond env n question with
       | Raises _ =>
           asked = false /\ summary = VStr "Workflow completed with 3 agents executed."
       | Rows None =>
           asked = true /\ summary = VStr "Workflow completed with 3 agents executed."
       | Rows (Some answer) => asked = true /\ summary = answer
       end.
Proof.
  intros [Hlog Hwf] Hprof Hdict Hmap.
  assert (H : wp (execute_onboarding_workflow env stage_path target_schema target_table
                    "ONBOARDING")
                (fun res st' =>
                   exists results new r summary d1 d2 d3 total question n asked,
                     res = Ok results
                     /\ trace st' = trace st ++ new
                     /\ workflow_record st' (workflow_id st') = Some r
                     /\ wf_status r = COMPLETED
                     /\ dict_lookup results "profiling" = Some (VDict d1)
                     /\ dict_lookup results "dictionary" = Some (VDict d2)
                     /\ dict_lookup results "mapping" = Some (VDict d3)
                     /\ dict_lookup results "total_duration_seconds" = Some total
                     /\ question
                        = AiComplete (dict_get d1 "profiling_summary" (VStr ""))
                            (dict_get d2 "proposal_summary" (VStr ""))
                            (dict_get d3 "mapping_summary" (VStr "")) total
                     /\ nth_error (trace st') n = Some (question, asked)
                     /\ ai_requests new = [asked]
                     /\ dict_lookup results "summary" = Some summary
                     /\ match respond env n question with
                        | Raises _ =>
                            asked = false
                            /\ summary = VStr "Workflow completed with 3 agents executed."
                        | Rows None =>
                            asked = true
                            /\ summary = VStr "Workflow completed with 3 agents executed."
                        | Rows (Some answer) => asked = true /\ summary = answer
                        end) st).
  { apply wp_execute_onboarding_workflow; [exact Hwf|]. intros st1 S1.
    apply wp_guarded_run; [exact Hwf|].
    unfold dispatch. simpl (String.eqb "ONBOARDING" "ONBOARDING"). cbv iota.
    unfold _execute_full_onboarding. wp_pure.
    run_step Hlog v1 st2 R1.
    destruct R1 as [V1 W1 I1 Q1 (new1 & T1 & C1 & _ & A1) _]; st_simpl.
    apply wp_check_agent_result;
      [intros O1 | intros F; now rewrite (procedure_succeeds_value _ _ _ _ _ Hprof V1) in F].
    wp_pure.
    run_step Hlog v2 st3 R2.
    destruct R2 as [V2 W2 I2 Q2 (new2 & T2 & C2 & _ & A2) _]; st_simpl.
    apply wp_check_agent_result;
      [intros O2 | intros F; now rewrite (procedure_succeeds_value _ _ _ _ _ Hdict V2) in F].
    wp_pure.
    run_step Hlog v3 st4 R3.
    destruct R3 as [V3 W3 I3 Q3 (new3 & T3 & C3 & _ & A3) _]; st_simpl.
    apply wp_check_agent_result;
      [intros O3 | intros F; now rewrite (procedure_succeeds_value _ _ _ _ _ Hmap V3) in F].
    wp_pure.
    destruct (agent_result_ok_dict _ O1) as [d1 ->].
    destruct (agent_result_ok_dict _ O2) as [d2 ->].
    destruct (agent_result_ok_dict _ O3) as [d3 ->].
    eapply wp_generate_workflow_summary_reply; try (dict_simpl; reflexivity).
    intros summary asked Hreply. wp_pure. st_simpl.
    match goal with
    | |- exists _ _ _ _ _ _ _ _ _ _ _,
           Ok ?res = _ /\ trace (completed_state _ _ ?s5) = _ /\ _ =>
        destruct (completed_record env res _ _ _ st st1 s5 S1)
          as (r & Hr & _ & _ & Hst & _)
    end; st_simpl; try congruence.
    destruct S1 as [I0 W0 L0 Q0 T0].
    eexists. eexists. exists r, summary, d1, d2, d3. eexists. eexists.
    exists (List.length (trace st4)), asked.
    split; [reflexivity|]. unfold completed_state in *. st_simpl.
    split; [rewrite T3, T2, T1, T0, <- !app_assoc; reflexivity|].
    split; [exact Hr|]. split; [exact Hst|].
    split; [dict_simpl; reflexivity|]. split; [dict_simpl; reflexivity|].
    split; [dict_simpl; reflexivity|]. split; [dict_simpl; reflexivity|].
    split; [reflexivity|].
    split; [apply nth_error_middle|].
    split.
    { rewrite !ai_requests_app, A1, A2, A3. reflexivity. }
    split; [dict_simpl; reflexivity|].
    destruct (respond env (List.length (trace st4)) _) as [msg|[answer|]];
      destruct Hreply as [-> ->]; split; reflexivity. }
  apply wp_elim in H
    as (res & st' & E & results & new & r & summary & d1 & d2 & d3 & total & question
        & n & asked & -> & H).
  exists results, st', new, r, summary, d1, d2, d3, total, question, n, asked. now split.
Qed.

(** Scenario A with the AI down. *)
Lemma completed_onboarding_has_summary_witness :
  record_store_ok ai_down_env
  /\ procedure_succeeds ai_down_env "SP_AGENT_PROFILE"
  /\ procedure_succeeds ai_down_env "SP_AGENT_DICTIONARY"
  /\ procedure_succeeds ai_down_env "SP_AGENT_MAPPING"
  /\ exists results st' new r summary d1 d2 d3 total question n asked,
      execute_onboarding_workflow ai_down_env customers_stage "CURATED" None "ONBOARDING"
        initial_state = (Ok results, st')
      /\ trace st' = trace initial_state ++ new
      /\ workflow_record st' (workflow_id st') = Some r
      /\ wf_status r = COMPLETED
      /\ dict_lookup results "profiling" = Some (VDict d1)
      /\ dict_lookup results "dictionary" = Some (VDict d2)
      /\ dict_lookup results "mapping" = Some (VDict d3)
      /\ dict_lookup results "total_duration_seconds" = Some total
      /\ question
         = AiComplete (dict_get d1 "profiling_summary" (VStr ""))
             (dict_get d2 "proposal_summary" (VStr ""))
             (dict_get d3 "mapping_summary" (VStr "")) total
      /\ nth_error (trace st') n = Some (question, asked)
      /\ ai_requests new = [asked]
      /\ dict_lookup results "summary" = Some summary
      /\ match respond ai_down_env n question with
         | Raises _ =>
             asked = false /\ summary = VStr "Workflow completed with 3 agents executed."
         | Rows None =>
             asked = true /\ summary = VStr "Workflow completed with 3 agents executed."
         | Rows (Some answer) => asked = true /\ summary = answer
         end.
Proof.
  assert (Hok : record_store_ok ai_down_env)
    by (apply scenario_store_ok; reflexivity).
  assert (Hp : procedure_succeeds ai_down_env "SP_AGENT_PROFILE")
    by (apply scenario_procedure_succeeds; reflexivity).
  assert (Hd : procedure_succeeds ai_down_env "SP_AGENT_DICTIONARY")
    by (apply scenario_procedure_succeeds; reflexivity).
  assert (Hm : procedure_succeeds ai_down_env "SP_AGENT_MAPPING")
    by (apply scenario_procedure_succeeds; reflexivity).
  repeat (split; [assumption|]).
  exact (completed_onboarding_has_summary ai_down_env customers_stage "CURATED" None
           initial_state Hok Hp Hd Hm).
Defined.

(** Scenario A with an AI that answers with a NULL cell: the three steps
    succeed, the AI statement goes through, the record is COMPLETED, and the
    summary handed back is None, not a text. *)
Lemma null_ai_answer_is_the_summary :
  let run := execute_onboarding_workflow ai_null_env customers_stage "CURATED" None
               "ONBOARDING" initial_state in
  calls (trace (snd run)) = ["SP_AGENT_PROFILE"; "SP_AGENT_DICTIONARY"; "SP_AGENT_MAPPING"]
  /\ ai_requests (trace (snd run)) = [true]
  /\ map wf_status (workflow_executions (snd run)) = [COMPLETED]
  /\ exists results,
      fst run = Ok results
      /\ dict_lookup results "summary" = Some VNone
      /\ forall text, dict_lookup results "summary" <> Some (VStr text).
Proof.
  vm_compute. repeat split. eexists. repeat split. intros text. discriminate.
Qed.

(** * Results that report their own failure *)

(** What the ONBOARDING run comes to when the step it is at hands back the
    payload [d] with status 'FAILED': [st1] is the state the run started
    in, [st2] the state after the step, [new] what the run has issued. *)
Lemma reported_failure_ends_run env label d st st1 st2 name new row rest
  workflow_type stage_path target_schema (called : list string) :
  is_failed (dict_get d "status" VNone) = true ->
  started workflow_type stage_path target_schema st st1 ->
  workflow_executions st2 = workflow_executions st1 ->
  workflow_id st2 = workflow_id st1 ->
  trace st2 = trace st1 ++ new ->
  calls new = called ->
  agent_execution_log st2 = row :: rest ->
  ex_agent row = name ->
  ex_workflow row = workflow_id st1 ->
  ex_status row = LOG_COMPLETED ->
  ex_output row = Some (json_dumps env (VDict d)) ->
  wp (check_agent_result env label (VDict d))
     (fun res st3 =>
        match res with
        | Ok _ => False
        | Raise e =>
            exists new' row' rest' r,
              exn_msg e
              = (label ++ " agent failed: " ++ py_str env (dict_get d "error" VNone))%string
              /\ trace (failed_state env e st3) = trace st ++ new'
              /\ calls new' = called
              /\ agent_execution_log (failed_state env e st3) = row' :: rest'
              /\ ex_agent row' = name
              /\ ex_workflow row' = workflow_id (failed_state env e st3)
              /\ ex_status row' = LOG_COMPLETED
              /\ ex_output row' = Some (json_dumps env (VDict d))
              /\ workflow_record (failed_state env e st3)
                   (workflow_id (failed_state env e st3)) = Some r
              /\ wf_status r = FAILED
              /\ wf_error r = Some (exn_msg e)
        end)
     (with_agent_sequence (agent_sequence st2 ++ [name]) st2).
Proof.
  intros Hfailed S1 W I T C L N X G O.
  unfold wp. rewrite (check_agent_result_failed env label d _ Hfailed). cbn [fst snd].
  destruct (failed_record env
              (mkExn PlainException
                 (label ++ " agent failed: " ++ py_str env (dict_get d "error" VNone))%string)
              _ _ _ st st1 (with_agent_sequence (agent_sequence st2 ++ [name]) st2) S1)
    as (r & Hr & _ & _ & Hs & He & _); st_simpl; try congruence.
  destruct S1 as [I0 W0 L0 Q0 T0].
  eexists. exists row, rest, r. split; [reflexivity|].
  unfold failed_state in *. st_simpl.
  split; [rewrite T, T0, <- !app_assoc; reflexivity|].
  split; [rewrite !calls_app, C; simpl; now rewrite app_nil_r|].
  repeat split; try assumption. congruence.
Qed.

(** Takes the reply of the procedure of the step just run from the
    hypothesis that it reports the failure [d]. *)
Ltac reported_payload Hpay V G :=
  unfold call_statement in V, G;
  match type of V with
  | step_value _ (respond _ ?n (CallProcedure _ ?args)) _ =>
      let c := fresh "c" in
      let Hc := fresh "Hc" in
      let Hd := fresh "Hd" in
      destruct (Hpay n args) as (c & Hc & Hd);
      rewrite Hc in V, G; simpl in V, G; rewrite Hd in V
  end.

(** C10 on the code.  When the procedure of a step returns normally with a
    payload whose status is 'FAILED', the step's log entry is COMPLETED with
    that payload as output.  In an ONBOARDING run this holds for each of the
    three steps (the steps before it having succeeded), and the controller
    treats the step as failed: it raises '<Step> agent failed: <error>',
    calls no further procedure, and the record is FAILED, so the log entry
    and the outcome of the workflow disagree.  In a PROFILING_ONLY run the
    controller does not look at the payload: the run returns the payload in
    its results and its record is COMPLETED. *)
Theorem reported_failure_logged_completed env stage_path target_schema target_table st
  k name fn label d :
  record_store_ok env ->
  nth_error onboarding_steps k = Some (name, fn, label) ->
  (forall j name' fn' label',
      j < k -> nth_error onboarding_steps j = Some (name', fn', label') ->
      procedure_succeeds env fn') ->
  reports_failure env fn d ->
  (exists e st' new row rest r,
      execute_onboarding_workflow env stage_path target_schema target_table "ONBOARDING" st
      = (Raise e, st')
      /\ exn_msg e
         = (label ++ " agent failed: " ++ py_str env (dict_get d "error" VNone))%string
      /\ trace st' = trace st ++ new
      /\ calls new = firstn (S k) plan_procedures
      /\ agent_execution_log st' = row :: rest
      /\ ex_agent row = name
      /\ ex_workflow row = workflow_id st'
      /\ ex_status row = LOG_COMPLETED
      /\ ex_output row = Some (json_dumps env (VDict d))
      /\ workflow_record st' (workflow_id st') = Some r
      /\ wf_status r = FAILED
      /\ wf_error r = Some (exn_msg e))
  /\ (k = 0 ->
      exists results st' row rest r,
        execute_onboarding_workflow env stage_path target_schema target_table
          "PROFILING_ONLY" st = (Ok results, st')
        /\ dict_lookup results "profiling" = Some (VDict d)
        /\ agent_execution_log st' = row :: rest
        /\ ex_agent row = "PROFILING"
        /\ ex_workflow row = workflow_id st'
        /\ ex_status row = LOG_COMPLETED
        /\ ex_output row = Some (json_dumps env (VDict d))
        /\ workflow_record st' (workflow_id st') = Some r
        /\ wf_status r = COMPLETED
        /\ wf_error r = None).
Proof.
  intros [Hlog Hwf] Hk Hbefore [Hfailed Hpay]. split.
  - assert (H : wp (execute_onboarding_workflow env stage_path target_schema target_table
                      "ONBOARDING")
                  (fun res st' =>
                     exists e new row rest r,
                       res = Raise e
                       /\ exn_msg e
                          = (label ++ " agent failed: "
                             ++ py_str env (dict_get d "error" VNone))%string
                       /\ trace st' = trace st ++ new
                       /\ calls new = firstn (S k) plan_procedures
                       /\ agent_execution_log st' = row :: rest
                       /\ ex_agent row = name
                       /\ ex_workflow row = workflow_id st'
                       /\ ex_status row = LOG_COMPLETED
                       /\ ex_output row = Some (json_dumps env (VDict d))
                       /\ workflow_record st' (workflow_id st') = Some r
                       /\ wf_status r = FAILED
                       /\ wf_error r = Some (exn_msg e)) st).
    { assert (Hend : forall e st3,
                 (exists new' row' rest' r,
                     exn_msg e
                     = (label ++ " agent failed: "
                        ++ py_str env (dict_get d "error" VNone))%string
                     /\ trace (failed_state env e st3) = trace st ++ new'
                     /\ calls new' = firstn (S k) plan_procedures
                     /\ agent_execution_log (failed_state env e st3) = row' :: rest'
                     /\ ex_agent row' = name
                     /\ ex_workflow row' = workflow_id (failed_state env e st3)
                     /\ ex_status row' = LOG_COMPLETED
                     /\ ex_output row' = Some (json_dumps env (VDict d))
                     /\ workflow_record (failed_state env e st3)
                          (workflow_id (failed_state env e st3)) = Some r
                     /\ wf_status r = FAILED
                     /\ wf_error r = Some (exn_msg e)) ->
                 exists e0 new row rest r,
                   @Raise Dict e = Raise e0
                   /\ exn_msg e0
                      = (label ++ " agent failed: "
                         ++ py_str env (dict_get d "error" VNone))%string
                   /\ trace (failed_state env e st3) = trace st ++ new
                   /\ calls new = firstn (S k) plan_procedures
                   /\ agent_execution_log (failed_state env e st3) = row :: rest
                   /\ ex_agent row = name
                   /\ ex_workflow row = workflow_id (failed_state env e st3)
                   /\ ex_status row = LOG_COMPLETED
                   /\ ex_output row = Some (json_dumps env (VDict d))
                   /\ workflow_record (failed_state env e st3)
                        (workflow_id (failed_state env e st3)) = Some r
                   /\ wf_status r = FAILED
                   /\ wf_error r = Some (exn_msg e0)).
      { intros e st3 (new' & row' & rest' & r & H).
        exists e, new', row', rest', r. now split. }
      apply wp_execute_onboarding_workflow; [exact Hwf|]. intros st1 S1.
      apply wp_guarded_run; [exact Hwf|].
      unfold dispatch. simpl (String.eqb "ONBOARDING" "ONBOARDING"). cbv iota.
      unfold _execute_full_onboarding. wp_pure.
      run_step Hlog v1 st2 R1.
      destruct R1 as [V1 W1 I1 Q1 (new1 & T1 & C1 & _ & _)
                        (row1 & rest1 & L1 & _ & N1 & X1 & G1)]; st_simpl.
      destruct k as [|k].
      { injection Hk as <- <- <-.
        reported_payload Hpay V1 G1. subst v1. destruct G1 as [Gs Go].
        eapply wp_conseq;
          [eapply (reported_failure_ends_run env "Profiling" d st st1 st2 "PROFILING");
             eassumption|].
        intros [u|e] st3; [intros [] | apply Hend]. }
      apply wp_check_agent_result;
        [intros O1
        | intros F;
          now rewrite (procedure_succeeds_value _ _ _ _ _
                         (Hbefore 0 _ _ _ ltac:(lia) eq_refl) V1) in F].
      wp_pure.
      run_step Hlog v2 st3 R2.
      destruct R2 as [V2 W2 I2 Q2 (new2 & T2 & C2 & _ & _)
                        (row2 & rest2 & L2 & _ & N2 & X2 & G2)]; st_simpl.
      destruct k as [|k].
      { injection Hk as <- <- <-.
        reported_payload Hpay V2 G2. subst v2. destruct G2 as [Gs Go].
        eapply wp_conseq;
          [eapply (reported_failure_ends_run env "Dictionary" d st st1 st3 "DICTIONARY"
                     (new1 ++ new2));
             try eassumption; try congruence|].
        - now rewrite T2, T1, app_assoc.
        - rewrite calls_app, C1, C2. reflexivity.
        - intros [u|e] st4; [intros [] | apply Hend]. }
      apply wp_check_agent_result;
        [intros O2
        | intros F;
          now rewrite (procedure_succeeds_value _ _ _ _ _
                         (Hbefore 1 _ _ _ ltac:(lia) eq_refl) V2) in F].
      wp_pure.
      run_step Hlog v3 st4 R3.
      destruct R3 as [V3 W3 I3 Q3 (new3 & T3 & C3 & _ & _)
                        (row3 & rest3 & L3 & _ & N3 & X3 & G3)]; st_simpl.
      destruct k as [|k]; [| destruct k; discriminate].
      injection Hk as <- <- <-.
      reported_payload Hpay V3 G3. subst v3. destruct G3 as [Gs Go].
      eapply wp_conseq;
        [eapply (reported_failure_ends_run env "Mapping" d st st1 st4 "MAPPING"
                   (new1 ++ new2 ++ new3));
           try eassumption; try congruence|].
      - now rewrite T3, T2, T1, !app_assoc.
      - rewrite !calls_app, C1, C2, C3. reflexivity.
      - intros [u|e] st5; [intros [] | apply Hend]. }
    apply wp_elim in H as (res & st' & E & e & new & row & rest & r & -> & H).
    exists e, st', new, row, rest, r. now split.
  - intros ->. injection Hk as <- <- <-.
    assert (H : wp (execute_onboarding_workflow env stage_path target_schema target_table
                      "PROFILING_ONLY")
                  (fun res st' =>
                     exists results row rest r,
                       res = Ok results
                       /\ dict_lookup results "profiling" = Some (VDict d)
                       /\ agent_execution_log st' = row :: rest
                       /\ ex_agent row = "PROFILING"
                       /\ ex_workflow row = workflow_id st'
                       /\ ex_status row = LOG_COMPLETED
                       /\ ex_output row = Some (json_dumps env (VDict d))
                       /\ workflow_record st' (workflow_id st') = Some r
                       /\ wf_status r = COMPLETED
                       /\ wf_error r = None) st).
    { apply wp_execute_onboarding_workflow; [exact Hwf|]. intros st1 S1.
      apply wp_guarded_run; [exact Hwf|].
      unfold dispatch. simpl (String.eqb "PROFILING_ONLY" _). cbv iota.
      unfold _execute_profiling_only. wp_pure.
      run_step Hlog v1 st2 R1.
      destruct R1 as [V1 W1 I1 Q1 _ (row1 & rest1 & L1 & _ & N1 & X1 & G1)]; st_simpl.
      reported_payload Hpay V1 G1. subst v1. destruct G1 as [Gs Go].
      match goal with
      | |- context [completed_state env ?res ?s] =>
          destruct (completed_record env res _ _ _ st st1 s S1)
            as (r & Hr & _ & _ & Hs & He & _)
      end; st_simpl; try congruence.
      destruct S1 as [I0 W0 L0 Q0 T0].
      eexists. exists row1, rest1, r. split; [reflexivity|].
      unfold completed_state in *. st_simpl.
      repeat split; try assumption; try reflexivity; try congruence. }
    apply wp_elim in H as (res & st' & E & results & row & rest & r & -> & H).
    exists results, st', row, rest, r. now split.
Qed.

(** The profiling procedure returns a document with status 'FAILED'. *)
Lemma reported_failure_logged_completed_witness :
  let env := profile_reports_failure_env in
  let d := [("profile_id", VStr "p-1"); ("status", VStr "FAILED");
            ("error", VStr "stage not found"); ("execution_time_seconds", VNum 1)] in
  record_store_ok env
  /\ nth_error onboarding_steps 0 = Some ("PROFILING", "SP_AGENT_PROFILE", "Profiling")
  /\ (forall j name' fn' label',
         j < 0 -> nth_error onboarding_steps j = Some (name', fn', label') ->
         procedure_succeeds env fn')
  /\ reports_failure env "SP_AGENT_PROFILE" d
  /\ (exists e st' new row rest r,
         execute_onboarding_workflow env customers_stage "CURATED" None "ONBOARDING"
           initial_state = (Raise e, st')
         /\ exn_msg e
            = ("Profiling" ++ " agent failed: "
               ++ py_str env (dict_get d "error" VNone))%string
         /\ trace st' = trace initial_state ++ new
         /\ calls new = firstn 1 plan_procedures
         /\ agent_execution_log st' = row :: rest
         /\ ex_agent row = "PROFILING"
         /\ ex_workflow row = workflow_id st'
         /\ ex_status row = LOG_COMPLETED
         /\ ex_output row = Some (json_dumps env (VDict d))
         /\ workflow_record st' (workflow_id st') = Some r
         /\ wf_status r = FAILED
         /\ wf_error r = Some (exn_msg e))
  /\ (0 = 0 ->
      exists results st' row rest r,
        execute_onboarding_workflow env customers_stage "CURATED" None "PROFILING_ONLY"
          initial_state = (Ok results, st')
        /\ dict_lookup results "profiling" = Some (VDict d)
        /\ agent_execution_log st' = row :: rest
        /\ ex_agent row = "PROFILING"
        /\ ex_workflow row = workflow_id st'
        /\ ex_status row = LOG_COMPLETED
        /\ ex_output row = Some (json_dumps env (VDict d))
        /\ workflow_record st' (workflow_id st') = Some r
        /\ wf_status r = COMPLETED
        /\ wf_error r = None).
Proof.
  intros env d.
  assert (Hok : record_store_ok env)
    by (apply scenario_store_ok; reflexivity).
  assert (Hk : nth_error onboarding_steps 0
               = Some ("PROFILING", "SP_AGENT_PROFILE", "Profiling")) by reflexivity.
  assert (Hbefore : forall j name' fn' label',
             j < 0 -> nth_error onboarding_steps j = Some (name', fn', label') ->
             procedure_succeeds env fn') by (intros; lia).
  assert (Hpay : reports_failure env "SP_AGENT_PROFILE" d)
    by (split; [reflexivity | intros n args; eexists; split; reflexivity]).
  split; [exact Hok|]. split; [exact Hk|]. split; [exact Hbefore|]. split; [exact Hpay|].
  exact (reported_failure_logged_completed env customers_stage "CURATED" None initial_state
           0 "PROFILING" "SP_AGENT_PROFILE" "Profiling" d Hok Hk Hbefore Hpay).
Defined.

(** The dictionary step of an ONBOARDING run reports its failure in its
    payload: its log entry is COMPLETED, the run is FAILED, and MAPPING is
    not called. *)
Lemma dictionary_reported_failure_example :
  let run := execute_onboarding_workflow dictionary_reports_failure_env customers_stage
               "CURATED" None "ONBOARDING" initial_state in
  fst run = Raise (mkExn PlainException "Dictionary agent failed: stage not found")
  /\ calls (trace (snd run)) = ["SP_AGENT_PROFILE"; "SP_AGENT_DICTIONARY"]
  /\ map (fun row => (ex_agent row, ex_status row)) (agent_execution_log (snd run))
     = [("DICTIONARY", LOG_COMPLETED); ("PROFILING", LOG_COMPLETED)]
  /\ map wf_status (workflow_executions (snd run)) = [FAILED].
Proof. vm_compute. repeat split. Qed.

(** A PROFILING_ONLY run whose profiling procedure reports its failure in
    its payload: the run returns, with log entry and record COMPLETED. *)
Lemma profiling_only_reported_failure_example :
  let run := execute_onboarding_workflow profile_reports_failure_env customers_stage
               "CURATED" None "PROFILING_ONLY" initial_state in
  (exists results,
      fst run = Ok results
      /\ exists d, dict_lookup results "profiling" = Some (VDict d)
                   /\ dict_lookup d "status" = Some (VStr "FAILED"))
  /\ map (fun row => (ex_agent row, ex_status row)) (agent_execution_log (snd run))
     = [("PROFILING", LOG_COMPLETED)]
  /\ map wf_status (workflow_executions (snd run)) = [COMPLETED].
Proof. vm_compute. split; [| now split]. eexists. split; [reflexivity|]. eexists. now split. Qed.
